(** * Batch download runner and validation-response parser

    A shallow embedding of [examples/batch_runner.py]
    ([BatchTestRunner.test_single_download_link], [run_batch_tests], [main])
    and of [examples/document_validator.py]
    ([DocumentValidator._parse_validation_response]), followed by the
    properties of the link resolution heuristic, of the failure handling and
    of the tolerant JSON extraction.

    Conventions.
    - A Python [str] is a list of Unicode code points.
    - The rendered page is a static snapshot: the rows and anchors a locator
      resolves to do not change while one test case runs.
    - Every awaited library call is an event of the trace and may raise; a
      page carries an oracle that says which of its calls raise.  Wall-clock
      values (timestamps, elapsed seconds) are left out of messages. *)

From Stdlib Require Import List Bool Arith NArith ZArith Lia String Ascii.
Import ListNotations.

Set Implicit Arguments.

(* ================================================================== *)
(** ** Python strings *)

Module PyStr.

Definition char := N.
Definition str := list char.

(** An ASCII literal as a [str]. *)
Definition lit (s : string) : str :=
  map N_of_ascii (list_ascii_of_string s).

Definition char_eqb (c d : char) : bool := N.eqb c d.

Fixpoint eqb (s u : str) : bool :=
  match s, u with
  | [], [] => true
  | c :: s', d :: u' => char_eqb c d && eqb s' u'
  | _, _ => false
  end.

(** [s.startswith(p)] *)
Fixpoint starts_with (p s : str) : bool :=
  match p, s with
  | [], _ => true
  | _ :: _, [] => false
  | c :: p', d :: s' => char_eqb c d && starts_with p' s'
  end.

(** [needle in hay] *)
Fixpoint contains (needle hay : str) : bool :=
  starts_with needle hay
  || match hay with
     | [] => false
     | _ :: hay' => contains needle hay'
     end.

(** Lowest index [i + k] such that [needle] starts at offset [k] of [hay],
    or [-1]. *)
Fixpoint find_at (needle hay : str) (i : Z) : Z :=
  if starts_with needle hay then i
  else match hay with
       | [] => (-1)%Z
       | _ :: hay' => find_at needle hay' (i + 1)
       end.

(** [hay.find(needle)] *)
Definition find (needle hay : str) : Z := find_at needle hay 0.

(** [hay.find(needle, start)] for [0 <= start]. *)
Definition find_from (needle hay : str) (start : Z) : Z :=
  find_at needle (skipn (Z.to_nat start) hay) start.

(** Highest index [i + k] such that [needle] starts at offset [k] of [hay],
    or [-1]. *)
Fixpoint rfind_at (needle hay : str) (i : Z) : Z :=
  match hay with
  | [] => if starts_with needle [] then i else (-1)%Z
  | _ :: hay' =>
      let r := rfind_at needle hay' (i + 1) in
      if (r =? -1)%Z
      then (if starts_with needle hay then i else (-1)%Z)
      else r
  end.

(** [hay.rfind(needle)] *)
Definition rfind (needle hay : str) : Z := rfind_at needle hay 0.

(** A slice bound as Python normalises it: negative bounds count from the
    end, and everything is clamped to [0, len]. *)
Definition clamp_index (len i : Z) : Z :=
  if (i <? 0)%Z then Z.max 0 (len + i) else Z.min i len.

(** [s[a:b]] *)
Definition slice (s : str) (a b : Z) : str :=
  let len := Z.of_nat (List.length s) in
  let a' := clamp_index len a in
  let b' := clamp_index len b in
  firstn (Z.to_nat (b' - a')) (skipn (Z.to_nat a') s).

(** The code points for which [str.isspace] holds. *)
Definition is_space (c : char) : bool :=
  ((9 <=? c) && (c <=? 13) || (28 <=? c) && (c <=? 32)
   || (c =? 133) || (c =? 160) || (c =? 5760)
   || (8192 <=? c) && (c <=? 8202)
   || (c =? 8232) || (c =? 8233) || (c =? 8239) || (c =? 8287)
   || (c =? 12288))%N.

(** [s.lstrip()] *)
Fixpoint lstrip (s : str) : str :=
  match s with
  | [] => []
  | c :: s' => if is_space c then lstrip s' else s
  end.

(** [s.strip()] *)
Definition strip (s : str) : str := rev (lstrip (rev (lstrip s))).

(** [s.lstrip(c)] for a single character [c]. *)
Fixpoint lstrip_char (c : char) (s : str) : str :=
  match s with
  | [] => []
  | d :: s' => if char_eqb c d then lstrip_char c s' else s
  end.

Definition lower_char (c : char) : char :=
  if ((65 <=? c) && (c <=? 90))%N then (c + 32)%N else c.

(** [s.lower()] on the ASCII range.  Python also lowers letters outside
    ASCII; none of those maps produces a letter of the word download, so
    the containment tests below are not affected. *)
Definition lower (s : str) : str := map lower_char s.

(** Truth value of an attribute that may be [None]: [None] and the empty
    string are false. *)
Definition truthy (o : option str) : bool :=
  match o with
  | Some (_ :: _) => true
  | _ => false
  end.

End PyStr.

Import PyStr.

(* ================================================================== *)
(** ** The rendered page, as the automation library shows it *)

(** What clicking an anchor sets off. *)
Inductive ClickEffect :=
| NoEffect
| StartsDownload (suggested_filename : str)
| OpensPage (download_there : option str).

(** An [a] element: the attributes [get_attribute] reads ([None] when the
    attribute is absent), whether it is visible, and what a click does. *)
Record Anchor := {
  a_text : str;
  a_href : option str;
  a_onclick : option str;
  a_class : option str;
  a_target : option str;
  a_visible : bool;
  a_click : ClickEffect
}.

(** A [tr] element with the anchors below it, in document order. *)
Record Row := {
  row_text : str;
  row_visible : bool;
  row_anchors : list Anchor
}.

(** The exceptions of the program, all of them subclasses of [Exception]. *)
Inductive Exn :=
| TimeoutError
| StrictModeViolation
| AssertionError
| NavigationError
| ZeroDivisionError
| TypeError
| KeyError
| AttributeError
| JSONDecodeError
| OtherError (code : nat).

(** What [page.goto] does at a URL. *)
Inductive Navigation :=
| NavRaises (e : Exn)
| NavNoResponse
| NavResponse (status : Z).

(** What a URL serves: the outcome of navigation, whether the network goes
    idle in time, and the rows of the document in document order. *)
Record Site := {
  site_nav : Navigation;
  site_idle : bool;
  site_rows : list Row
}.

(** A browser tab: the web it can reach, and which of the calls made on it
    raise (by call number, besides the failures the page content causes). *)
Record Page := {
  page_web : str -> Site;
  page_faults : nat -> option Exn
}.

(** The selector engine of the automation library: which rows
    [tr:has-text('m')] selects, which anchors [a:text('e')] selects, and
    which anchors carry a CSS class. *)
Class Selectors := {
  row_has_text : str -> Row -> bool;
  anchor_text : str -> Anchor -> bool;
  anchor_class : str -> Anchor -> bool
}.

Inductive AttrName := AttrHref | AttrOnclick | AttrClass | AttrTarget.

Definition attribute (a : Anchor) (n : AttrName) : option str :=
  match n with
  | AttrHref => a_href a
  | AttrOnclick => a_onclick a
  | AttrClass => a_class a
  | AttrTarget => a_target a
  end.

(* ================================================================== *)
(** ** Effects: a trace of events, and exceptions *)

(** The awaited library calls, with the timeouts the source passes (ms). *)
Inductive ApiCall :=
| CallGoto (url : str) (timeout_ms : Z)
| CallWaitNetworkIdle (timeout_ms : Z)
| CallCount
| CallGetAttribute (name : AttrName)
| CallExpectVisible (timeout_ms : Z)
| CallClick
| CallNewPageValue
| CallDownloadValue (timeout_ms : Z)
| CallPageClose
| CallSaveAs
| CallScreenshot
| CallReadExcel
| CallLaunch
| CallNewContext
| CallNewPage
| CallBrowserClose
| CallToExcel.

(** The lines printed while the target row is located, and the driver's
    error lines.  Row numbers are one-based, as printed. *)
Inductive LogLine :=
| LogLocating (material : str)
| LogRowCount (n : nat)
| LogValidRow (nth : nat)
| LogSkipRow (nth : nat)
| LogFallback
| LogFallbackRow (nth : nat)
| LogLocateException (e : Exn)
| LogDownloadFailed (e : Exn)
| LogInputMissing
| LogReadFailed (e : Exn)
| LogMissingColumns
| LogUnexpected (e : Exn)
| LogSaveFailed (e : Exn).

Inductive Event :=
| Print (l : LogLine)
| Call (c : ApiCall).

Inductive Outcome (A : Type) :=
| Ret (a : A)
| Raise (e : Exn).
Arguments Raise {A} e.

(** A computation reads the number of calls already made on the current
    page, and yields an outcome, the events it caused and the new number. *)
Definition M (A : Type) : Type := nat -> Outcome A * list Event * nat.

Definition ret {A} (a : A) : M A := fun t => (Ret a, [], t).

Definition raise {A} (e : Exn) : M A := fun t => (Raise e, [], t).

Definition bind {A B} (m : M A) (k : A -> M B) : M B :=
  fun t =>
    let '(r, tr, t') := m t in
    match r with
    | Ret a => let '(r', tr', t'') := k a t' in (r', tr ++ tr', t'')
    | Raise e => (Raise e, tr, t')
    end.

Declare Scope py_scope.
Delimit Scope py_scope with py.
Notation "x <- m ;; k" := (bind m (fun x => k))
  (at level 100, m at next level, right associativity) : py_scope.
Notation "m ;; k" := (bind m (fun _ => k))
  (at level 100, right associativity) : py_scope.
Open Scope py_scope.

(** The outcome of [m], made a value: [inl e] when [m] raised [e]. *)
Definition attempt {A} (m : M A) : M (Exn + A) :=
  fun t =>
    let '(r, tr, t') := m t in
    match r with
    | Ret a => (Ret (inr a), tr, t')
    | Raise e => (Ret (inl e), tr, t')
    end.

(** [try: m  except Exception as e: h e] *)
Definition try_except {A} (m : M A) (h : Exn -> M A) : M A :=
  r <- attempt m ;;
  match r with
  | inl e => h e
  | inr a => ret a
  end.

Definition print (l : LogLine) : M unit := fun t => (Ret tt, [Print l], t).

(** One awaited call on a page: it raises when the oracle of the page says
    so, and otherwise does what the page content determines. *)
Definition call {A} (page : Page) (c : ApiCall) (r : Outcome A) : M A :=
  fun t =>
    match page_faults page t with
    | Some e => (Raise e, [Call c], S t)
    | None => (r, [Call c], S t)
    end.

(** [await locator.count()] *)
Definition loc_count {X} (page : Page) (l : list X) : M nat :=
  call page CallCount (Ret (List.length l)).

(** The single element a locator must resolve to for an action on it. *)
Definition the_element {X} (l : list X) : Outcome X :=
  match l with
  | [] => Raise TimeoutError
  | [x] => Ret x
  | _ :: _ :: _ => Raise StrictModeViolation
  end.

(** [await locator.get_attribute(name)] *)
Definition get_attribute (page : Page) (l : list Anchor) (n : AttrName)
  : M (option str) :=
  call page (CallGetAttribute n)
    match the_element l with
    | Ret a => Ret (attribute a n)
    | Raise e => Raise e
    end.

(** [await expect(locator).to_be_visible(timeout=ms)], on the visibility of
    the elements the locator resolves to. *)
Definition expect_to_be_visible (page : Page) (vis : list bool) (ms : Z)
  : M unit :=
  call page (CallExpectVisible ms)
    match vis with
    | [] => Raise AssertionError
    | [true] => Ret tt
    | [false] => Raise AssertionError
    | _ :: _ :: _ => Raise StrictModeViolation
    end.

(** [await locator.click()] *)
Definition click (page : Page) (l : list Anchor) : M ClickEffect :=
  call page CallClick
    match the_element l with
    | Ret a => Ret (a_click a)
    | Raise e => Raise e
    end.

(* ================================================================== *)
(** ** [BatchTestRunner.test_single_download_link] *)

Inductive Status := Success | Failure.

(** The message of the returned tuple, by the format string that builds it;
    the elapsed seconds some of them end with are left out. *)
Inductive Message :=
| MsgPageAccessFailed (status : option Z)
| MsgRowNotFound (material element : str)
| MsgRowNotVisible (e : Exn)
| MsgLinkNotInRow (element : str)
| MsgDownloadDone
| MsgDownloadNotTriggered (e : Exn)
| MsgExecError (e : Exn) (screenshot_saved : bool).

(** [(status, message, details, file_type)]; [details] is the suggested
    file name of the saved download, or [None] for the empty string. *)
Record Result := {
  status : Status;
  message : Message;
  details : option str;
  file_type : str
}.

Definition failed (m : Message) : Result :=
  {| status := Failure; message := m; details := None; file_type := [] |}.

(** The extension [os.path.splitext] splits off: from the last dot, when
    that dot comes after the last separator and after a character of the
    file name that is not a dot. *)
Definition splitext_ext (p : str) : str :=
  let sepIndex := rfind (lit "/") p in
  let dotIndex := rfind (lit ".") p in
  if (sepIndex <? dotIndex)%Z
  then
    if forallb (char_eqb 46%N) (slice p (sepIndex + 1) dotIndex)
    then []
    else slice p dotIndex (Z.of_nat (List.length p))
  else [].

(** [file_extension.lower().lstrip('.') if file_extension else ''], lowered
    on the ASCII range. *)
Definition file_type_of (suggested_filename : str) : str :=
  match splitext_ext suggested_filename with
  | [] => []
  | ext => lstrip_char 46%N (lower ext)
  end.

(** [href or onclick or (class_name and ('kbbg' in class_name or
    'download' in class_name.lower()))] *)
Definition is_download_link (href onclick class_name : option str) : bool :=
  truthy href
  || truthy onclick
  || (truthy class_name
      && match class_name with
         | Some c => contains (lit "kbbg") c
                     || contains (lit "download") (lower c)
         | None => false
         end).

(** [target == '_blank'] *)
Definition is_blank (target : option str) : bool :=
  match target with
  | Some t => PyStr.eqb t (lit "_blank")
  | None => false
  end.

Section Runner.

Context {sel : Selectors}.

(** [row.locator(f"a:text('{element_name}')")] *)
Definition links_of (element_name : str) (row : Row) : list Anchor :=
  filter (anchor_text element_name) (row_anchors row).

(** [page.locator(f"tr:has-text('{material_name}')")] *)
Definition potential_rows_of (material_name : str) (site : Site) : list Row :=
  filter (row_has_text material_name) (site_rows site).

(** One round of the first loop, at the row of index [i]: whether the
    loop breaks there. *)
Definition strict_row (page : Page) (element_name : str)
           (row : Row) (i : nat) : M bool :=
  link_count <- loc_count page (links_of element_name row) ;;
  if 0 <? link_count
  then
    let links := links_of element_name row in
    let first_link := firstn 1 links in
    href <- get_attribute page first_link AttrHref ;;
    onclick <- get_attribute page first_link AttrOnclick ;;
    class_name <- get_attribute page first_link AttrClass ;;
    if is_download_link href onclick class_name
    then (print (LogValidRow (i + 1)) ;; ret true)
    else (print (LogSkipRow (i + 1)) ;; ret false)
  else ret false.

(** The first loop over [range(row_count)]; [rows] are the rows from
    index [i] on.  It yields [potential_rows.nth(i)] for the index at
    which it breaks: the index, and the row there. *)
Fixpoint strict_pass (page : Page) (element_name : str)
         (rows : list Row) (i : nat) : M (option (nat * Row)) :=
  match rows with
  | [] => ret None
  | row :: rest =>
      accepted <- strict_row page element_name row i ;;
      if accepted then ret (Some (i, row))
      else strict_pass page element_name rest (S i)
  end.

(** The second loop, run when the first one found nothing. *)
Fixpoint fallback_pass (page : Page) (element_name : str)
         (rows : list Row) (i : nat) : M (option (nat * Row)) :=
  match rows with
  | [] => ret None
  | row :: rest =>
      link_count <- loc_count page (links_of element_name row) ;;
      if 0 <? link_count
      then (print (LogFallbackRow (i + 1)) ;; ret (Some (i, row)))
      else fallback_pass page element_name rest (S i)
  end.

(** The body of the [try] that locates the target row.  [target_row] and
    [found] are assigned together, right before a [break] after which the
    [try] makes no further call, so the block yields [target_row] and an
    exception leaves [found] false. *)
Definition locate_rows (page : Page) (site : Site)
           (material_name element_name : str) : M (option (nat * Row)) :=
  let potential_rows := potential_rows_of material_name site in
  row_count <- loc_count page potential_rows ;;
  print (LogRowCount row_count) ;;
  strict <- strict_pass page element_name potential_rows 0 ;;
  match strict with
  | Some target => ret (Some target)
  | None =>
      print LogFallback ;;
      fallback_pass page element_name potential_rows 0
  end.

Definition locate_target_row (page : Page) (site : Site)
           (material_name element_name : str) : M (option (nat * Row)) :=
  print (LogLocating material_name) ;;
  try_except (locate_rows page site material_name element_name)
             (fun e => print (LogLocateException e) ;; ret None).

(** The choice among the links of the target row: the locator
    [download_link] of the source, as the anchors it resolves to. *)
Definition choose_download_link (page : Page) (element_name : str)
           (target_row : Row) (link_count : nat) : M (list Anchor) :=
  let target_links := links_of element_name target_row in
  if 1 <? link_count
  then
    let preferred_link :=
      filter (fun a => anchor_class (lit "kbbg") a
                       && anchor_text element_name a)
             (row_anchors target_row) in
    n <- loc_count page preferred_link ;;
    if 0 <? n then ret preferred_link else ret (firstn 1 target_links)
  else ret target_links.

(** The inner [try] that clicks and saves the download; it yields the
    suggested file name. *)
Definition trigger_download (page : Page) (download_link : list Anchor)
           (target : option str) : M str :=
  suggested <-
    (if is_blank target
     then
       effect <- click page download_link ;;
       opened <- call page CallNewPageValue
                   match effect with
                   | OpensPage d => Ret d
                   | _ => Raise TimeoutError
                   end ;;
       try_except (call page (CallWaitNetworkIdle 10000) (Ret tt))
                  (fun _ => ret tt) ;;
       name <- call page (CallDownloadValue 10000)
                 match opened with
                 | Some f => Ret f
                 | None => Raise TimeoutError
                 end ;;
       call page CallPageClose (Ret tt) ;;
       ret name
     else
       effect <- click page download_link ;;
       call page (CallDownloadValue 10000)
         match effect with
         | StartsDownload f => Ret f
         | _ => Raise TimeoutError
         end) ;;
  call page CallSaveAs (Ret tt) ;;
  ret suggested.

(** The body of the outer [try]. *)
Definition test_body (page : Page) (url material_name element_name : str)
  : M Result :=
  let site := page_web page url in
  response <- call page (CallGoto url 60000)
                match site_nav site with
                | NavRaises e => Raise e
                | NavNoResponse => Ret None
                | NavResponse s => Ret (Some s)
                end ;;
  match response with
  | None => ret (failed (MsgPageAccessFailed None))
  | Some s =>
      if negb ((200 <=? s) && (s <=? 299))%Z
      then ret (failed (MsgPageAccessFailed (Some s)))
      else
        try_except
          (call page (CallWaitNetworkIdle 15000)
             (if site_idle site then Ret tt else Raise TimeoutError))
          (fun _ => ret tt) ;;
        located <- locate_target_row page site material_name element_name ;;
        match located with
        | None => ret (failed (MsgRowNotFound material_name element_name))
        | Some (_, target_row) =>
            row_seen <- attempt (expect_to_be_visible page
                                   [row_visible target_row] 10000) ;;
            match row_seen with
            | inl e => ret (failed (MsgRowNotVisible e))
            | inr _ =>
                link_count <- loc_count page
                                (links_of element_name target_row) ;;
                if link_count =? 0
                then ret (failed (MsgLinkNotInRow element_name))
                else
                  download_link <- choose_download_link page element_name
                                     target_row link_count ;;
                  expect_to_be_visible page
                    (map a_visible download_link) 5000 ;;
                  _href <- get_attribute page download_link AttrHref ;;
                  _onclick <- get_attribute page download_link AttrOnclick ;;
                  target <- get_attribute page download_link AttrTarget ;;
                  try_except
                    (suggested <- trigger_download page download_link target ;;
                     ret {| status := Success;
                            message := MsgDownloadDone;
                            details := Some suggested;
                            file_type := file_type_of suggested |})
                    (fun e =>
                       print (LogDownloadFailed e) ;;
                       ret (failed (MsgDownloadNotTriggered e)))
            end
        end
  end.

(** The handler of the outer [try]: the error screenshot is itself
    guarded, and a failure to take it is swallowed. *)
Definition test_handler (page : Page) (e : Exn) : M Result :=
  shot <- attempt (call page CallScreenshot (Ret tt)) ;;
  match shot with
  | inr _ => ret (failed (MsgExecError e true))
  | inl _ => ret (failed (MsgExecError e false))
  end.

Definition test_single_download_link
           (page : Page) (url material_name element_name : str) : M Result :=
  try_except (test_body page url material_name element_name)
             (test_handler page).

End Runner.

(* ================================================================== *)
(** ** [BatchTestRunner.run_batch_tests] and [main] *)

Inductive Column :=
| ColUrl
| ColMaterial
| ColElement
| ColTime
| ColResult
| ColFormat
| ColOther (name : str).

Definition column_eqb (c d : Column) : bool :=
  match c, d with
  | ColUrl, ColUrl | ColMaterial, ColMaterial | ColElement, ColElement
  | ColTime, ColTime | ColResult, ColResult | ColFormat, ColFormat => true
  | ColOther n, ColOther m => PyStr.eqb n m
  | _, _ => false
  end.

(** A cell of the data frame: text read from the spreadsheet, the execution
    timestamp, [f"{status}: {message}"], or the line written for an
    exception that reached the driver. *)
Inductive Cell :=
| CellText (s : str)
| CellTimestamp
| CellOutcome (st : Status) (m : Message)
| CellUnexpected (e : Exn).

Definition DataRow := Column -> Cell.

Record DataFrame := {
  df_columns : list Column;
  df_rows : list DataRow
}.

Definition text_of (c : Cell) : str :=
  match c with
  | CellText s => s
  | _ => []
  end.

Definition set_cell (c : Column) (v : Cell) (row : DataRow) : DataRow :=
  fun d => if column_eqb c d then v else row d.

Fixpoint update_nth {A} (n : nat) (f : A -> A) (l : list A) : list A :=
  match l, n with
  | [], _ => []
  | x :: l', O => f x :: l'
  | x :: l', S n' => x :: update_nth n' f l'
  end.

(** [df[c] = v] *)
Definition set_column (c : Column) (v : Cell) (df : DataFrame) : DataFrame :=
  {| df_columns := if existsb (column_eqb c) (df_columns df)
                   then df_columns df else df_columns df ++ [c];
     df_rows := map (set_cell c v) (df_rows df) |}.

(** [df.at[index, c] = v] *)
Definition set_at (index : nat) (c : Column) (v : Cell) (df : DataFrame)
  : DataFrame :=
  {| df_columns := df_columns df;
     df_rows := update_nth index (set_cell c v) (df_rows df) |}.

Definition get_at (index : nat) (c : Column) (df : DataFrame) : option Cell :=
  option_map (fun row : DataRow => row c) (nth_error (df_rows df) index).

Definition required_columns : list Column := [ColUrl; ColMaterial; ColElement].

(** What lies outside the program: the input file, the browser, the web.
    The calls the driver itself makes raise when the matching field holds
    an exception; [page_close_fault] and [new_page_fault] go by the index of
    the test case, and so do the oracles of the pages. *)
Record World := {
  input_exists : bool;
  excel : Exn + DataFrame;
  launch_fault : option Exn;
  new_context_fault : option Exn;
  new_page_fault : nat -> option Exn;
  page_close_fault : nat -> option Exn;
  browser_close_fault : option Exn;
  to_excel_fault : option Exn;
  world_web : str -> Site;
  world_page_faults : nat -> nat -> option Exn
}.

(** The tab opened for the test case of index [index]. *)
Definition page_of (w : World) (index : nat) : Page :=
  {| page_web := world_web w; page_faults := world_page_faults w index |}.

(** A call the driver makes on the browser or the file system. *)
Definition env_call (c : ApiCall) (fault : option Exn) : M unit :=
  fun t =>
    (match fault with Some e => Raise e | None => Ret tt end, [Call c], t).

(** [m] run on a page just opened: its calls are counted from zero. *)
Definition on_new_page {A} (m : M A) : M A :=
  fun t => let '(r, tr, _) := m 0 in (r, tr, t).

(** How a run of the batch ends when no exception escapes it. *)
Inductive RunEnd :=
| InputMissing
| ReadFailed (e : Exn)
| ColumnsMissing (missing : list Column)
| Saved (df : DataFrame) (success_count : nat)
| NotSaved (df : DataFrame) (success_count : nat) (e : Exn).

Section Driver.

Context {sel : Selectors}.

(** The three cells written for one test case. *)
Definition record_result (index : nat) (res : Result) (df : DataFrame)
  : DataFrame :=
  set_at index ColFormat (CellText (file_type res))
    (set_at index ColResult (CellOutcome (status res) (message res))
       (set_at index ColTime CellTimestamp df)).

Definition record_unexpected (index : nat) (e : Exn) (df : DataFrame)
  : DataFrame :=
  set_at index ColFormat (CellText [])
    (set_at index ColResult (CellUnexpected e)
       (set_at index ColTime CellTimestamp df)).

(** The [for index, row in df.iterrows()] loop; [todo] are the rows from
    [index] on. *)
Fixpoint run_cases (w : World) (index : nat) (todo : list DataRow)
         (df : DataFrame) (success_count : nat) : M (DataFrame * nat) :=
  match todo with
  | [] => ret (df, success_count)
  | row :: rest =>
      let url := text_of (row ColUrl) in
      let material_name := text_of (row ColMaterial) in
      let element_name := text_of (row ColElement) in
      env_call CallNewPage (new_page_fault w index) ;;
      let page := page_of w index in
      outcome <- attempt (on_new_page
                            (test_single_download_link
                               page url material_name element_name)) ;;
      step <- match outcome with
              | inr res =>
                  ret (record_result index res df,
                       match status res with
                       | Success => S success_count
                       | Failure => success_count
                       end)
              | inl e =>
                  print (LogUnexpected e) ;;
                  ret (record_unexpected index e df, success_count)
              end ;;
      env_call CallPageClose (page_close_fault w index) ;;
      run_cases w (S index) rest (fst step) (snd step)
  end.

Definition run_batch_tests (w : World) : M RunEnd :=
  read <- attempt (fun t =>
                     (match excel w with
                      | inl e => Raise e
                      | inr df => Ret df
                      end, [Call CallReadExcel], t)) ;;
  match read with
  | inl e => print (LogReadFailed e) ;; ret (ReadFailed e)
  | inr df =>
      let missing_columns :=
        filter (fun col => negb (existsb (column_eqb col) (df_columns df)))
               required_columns in
      match missing_columns with
      | _ :: _ => print LogMissingColumns ;; ret (ColumnsMissing missing_columns)
      | [] =>
          let df := set_column ColFormat (CellText [])
                      (set_column ColResult (CellText [])
                         (set_column ColTime (CellText []) df)) in
          env_call CallLaunch (launch_fault w) ;;
          env_call CallNewContext (new_context_fault w) ;;
          let total_count := List.length (df_rows df) in
          done <- run_cases w 0 (df_rows df) df 0 ;;
          (* success_count / total_count *)
          (if total_count =? 0 then raise ZeroDivisionError else ret tt) ;;
          env_call CallBrowserClose (browser_close_fault w) ;;
          saved <- attempt (env_call CallToExcel (to_excel_fault w)) ;;
          match saved with
          | inr _ => ret (Saved (fst done) (snd done))
          | inl e => print (LogSaveFailed e) ;;
                     ret (NotSaved (fst done) (snd done) e)
          end
      end
  end.

(** [main], after the arguments are parsed.  The constructor of the runner
    creates the download and screenshot directories, which is taken to
    succeed. *)
Definition main (w : World) : M RunEnd :=
  if negb (input_exists w)
  then print LogInputMissing ;; ret InputMissing
  else run_batch_tests w.

End Driver.

(* ================================================================== *)
(** ** [DocumentValidator._parse_validation_response] *)

#[local] Set Warnings "-register-all".

Inductive JSON :=
| JNull
| JBool (b : bool)
| JNum (n : Z)
| JStr (s : str)
| JArr (items : list JSON)
| JObj (fields : list (str * JSON)).

(** The six checks of a [ValidationResult]; each has a verdict field,
    named as its key, and a reason field, named with the suffix
    [_reason]. *)
Inductive Check :=
| forms_consistent
| blank_form_matches
| sample_form_matches
| blank_form_empty
| sample_form_filled
| sample_info_masked.

Definition all_checks : list Check :=
  [forms_consistent; blank_form_matches; sample_form_matches;
   blank_form_empty; sample_form_filled; sample_info_masked].

Definition check_eqb (c d : Check) : bool :=
  match c, d with
  | forms_consistent, forms_consistent
  | blank_form_matches, blank_form_matches
  | sample_form_matches, sample_form_matches
  | blank_form_empty, blank_form_empty
  | sample_form_filled, sample_form_filled
  | sample_info_masked, sample_info_masked => true
  | _, _ => false
  end.

Definition verdict_key (c : Check) : str :=
  match c with
  | forms_consistent => lit "forms_consistent"
  | blank_form_matches => lit "blank_form_matches"
  | sample_form_matches => lit "sample_form_matches"
  | blank_form_empty => lit "blank_form_empty"
  | sample_form_filled => lit "sample_form_filled"
  | sample_info_masked => lit "sample_info_masked"
  end.

Definition reason_key (c : Check) : str := verdict_key c ++ lit "_reason".

(** A reason field: a value taken from the response, or the message made
    from a parse error. *)
Inductive Reason :=
| ReasonValue (v : JSON)
| ReasonParseFailed (e : Exn).

(** The dataclass, as its two families of fields.  A verdict starts as
    [None] ([JNull]) and a reason as the empty string. *)
Record ValidationResult := {
  verdict : Check -> JSON;
  reason : Check -> Reason
}.

Definition fresh_result : ValidationResult :=
  {| verdict := fun _ => JNull; reason := fun _ => ReasonValue (JStr []) |}.

Definition set_verdict (c : Check) (v : JSON) (r : ValidationResult)
  : ValidationResult :=
  {| verdict := fun d => if check_eqb c d then v else verdict r d;
     reason := reason r |}.

Definition set_reason (c : Check) (v : Reason) (r : ValidationResult)
  : ValidationResult :=
  {| verdict := verdict r;
     reason := fun d => if check_eqb c d then v else reason r d |}.

Fixpoint lookup (key : str) (fields : list (str * JSON)) : option JSON :=
  match fields with
  | [] => None
  | (k, v) :: rest => if PyStr.eqb k key then Some v else lookup key rest
  end.

(** [key in data] *)
Definition py_in (key : str) (data : JSON) : Exn + bool :=
  match data with
  | JObj fields => inr (match lookup key fields with Some _ => true | None => false end)
  | JArr items =>
      inr (existsb (fun v => match v with
                             | JStr s => PyStr.eqb s key
                             | _ => false
                             end) items)
  | JStr s => inr (contains key s)
  | _ => inl TypeError
  end.

(** [data[key]] for a string key *)
Definition py_getitem (key : str) (data : JSON) : Exn + JSON :=
  match data with
  | JObj fields =>
      match lookup key fields with
      | Some v => inr v
      | None => inl KeyError
      end
  | _ => inl TypeError
  end.

(** [data.get(key, '')] *)
Definition py_get (key : str) (data : JSON) : Exn + JSON :=
  match data with
  | JObj fields =>
      match lookup key fields with
      | Some v => inr v
      | None => inr (JStr [])
      end
  | _ => inl AttributeError
  end.

(** The text handed to [json.loads]. *)
Definition extract_json (content : str) : str :=
  if contains (lit "```json") content
  then
    let json_start := (find (lit "```json") content + 7)%Z in
    let json_end := find_from (lit "```") content json_start in
    strip (slice content json_start json_end)
  else if contains (lit "{") content && contains (lit "}") content
  then
    let json_start := find (lit "{") content in
    let json_end := (rfind (lit "}") content + 1)%Z in
    slice content json_start json_end
  else content.

(** One [if key in data:] block.  The result object is updated in place,
    so what was assigned before an exception stays assigned: an error
    comes with the result as it stands. *)
Definition update_check (data : JSON) (c : Check) (r : ValidationResult)
  : Exn * ValidationResult + ValidationResult :=
  match py_in (verdict_key c) data with
  | inl e => inl (e, r)
  | inr false => inr r
  | inr true =>
      match py_getitem (verdict_key c) data with
      | inl e => inl (e, r)
      | inr v =>
          let r1 := set_verdict c v r in
          match py_get (reason_key c) data with
          | inl e => inl (e, r1)
          | inr why => inr (set_reason c (ReasonValue why) r1)
          end
      end
  end.

Fixpoint update_checks (data : JSON) (cs : list Check) (r : ValidationResult)
  : Exn * ValidationResult + ValidationResult :=
  match cs with
  | [] => inr r
  | c :: rest =>
      match update_check data c r with
      | inl err => inl err
      | inr r' => update_checks data rest r'
      end
  end.

(** [result.<c>_reason == ''] *)
Definition reason_is_empty (w : Reason) : bool :=
  match w with
  | ReasonValue (JStr []) => true
  | _ => false
  end.

(** The [except] block: every reason still empty takes the error message. *)
Definition fill_empty_reasons (e : Exn) (r : ValidationResult)
  : ValidationResult :=
  {| verdict := verdict r;
     reason := fun c => if reason_is_empty (reason r c)
                        then ReasonParseFailed e else reason r c |}.

Section Validator.

(** [json.loads], of the standard library. *)
Variable json_loads : str -> Exn + JSON.

Definition _parse_validation_response (result : ValidationResult)
           (content : str) : ValidationResult :=
  match json_loads (extract_json content) with
  | inl e => fill_empty_reasons e result
  | inr data =>
      match update_checks data all_checks result with
      | inl (e, r) => fill_empty_reasons e r
      | inr r => r
      end
  end.

End Validator.

(* ================================================================== *)
(** ** A plain selector engine and sample pages *)

(** The white-space separated words of a string. *)
Fixpoint words_from (cur s : str) : list str :=
  match s with
  | [] => match cur with [] => [] | _ :: _ => [rev cur] end
  | c :: s' =>
      if is_space c
      then match cur with
           | [] => words_from [] s'
           | _ :: _ => rev cur :: words_from [] s'
           end
      else words_from (c :: cur) s'
  end.

Definition words (s : str) : list str := words_from [] s.

(** Selection by plain containment of the text, and by the words of the
    class attribute. *)
Definition text_selectors : Selectors :=
  {| row_has_text := fun m row => contains m (row_text row);
     anchor_text := fun e a => contains e (a_text a);
     anchor_class := fun c a =>
                       match a_class a with
                       | Some cls => existsb (PyStr.eqb c) (words cls)
                       | None => false
                       end |}.

Module Samples.

Local Open Scope string_scope.

Definition anchor (text : string) (href onclick cls : option string)
           (visible : bool) (effect : ClickEffect) : Anchor :=
  {| a_text := lit text;
     a_href := option_map lit href;
     a_onclick := option_map lit onclick;
     a_class := option_map lit cls;
     a_target := None;
     a_visible := visible;
     a_click := effect |}.

Definition row (text : string) (anchors : list Anchor) : Row :=
  {| row_text := lit text; row_visible := true; row_anchors := anchors |}.

Definition site (rows : list Row) : Site :=
  {| site_nav := NavResponse 200; site_idle := true; site_rows := rows |}.

Definition no_faults : nat -> option Exn := fun _ => None.

(** A tab on a web that serves [s] at every URL, with no call failing on
    its own. *)
Definition page (s : Site) : Page :=
  {| page_web := fun _ => s; page_faults := no_faults |}.

Definition pdf : ClickEffect := StartsDownload (lit "a.pdf").

Definition with_href : Anchor :=
  anchor "blank form" (Some "/files/a.pdf") None None true pdf.
Definition empty_href : Anchor :=
  anchor "blank form" (Some "") None None true pdf.
Definition bare : Anchor :=
  anchor "blank form" None None None true pdf.
Definition upper_kbbg : Anchor :=
  anchor "blank form" None None (Some "KBBG") true pdf.
Definition marked : Anchor :=
  anchor "blank form" None None (Some "kbbg") true pdf.
Definition download_class : Anchor :=
  anchor "blank form" None None (Some "btn Download-Link") true pdf.
Definition hidden : Anchor :=
  anchor "blank form" (Some "/files/a.pdf") None None false pdf.
Definition other_text : Anchor :=
  anchor "guide" (Some "/guide") None None true NoEffect.

(** A spreadsheet with the required columns and the given rows. *)
Definition sheet (rows : list DataRow) : DataFrame :=
  {| df_columns := required_columns; df_rows := rows |}.

Definition case (url material element : string) : DataRow :=
  fun c => match c with
           | ColUrl => CellText (lit url)
           | ColMaterial => CellText (lit material)
           | ColElement => CellText (lit element)
           | _ => CellText []
           end.

(** A world where the input file exists and holds [df], the browser
    works, and every URL serves [s]. *)
Definition world (df : DataFrame) (s : Site) : World :=
  {| input_exists := true;
     excel := inr df;
     launch_fault := None;
     new_context_fault := None;
     new_page_fault := fun _ => None;
     page_close_fault := fun _ => None;
     browser_close_fault := None;
     to_excel_fault := None;
     world_web := fun _ => s;
     world_page_faults := fun _ => no_faults |}.

(** A loader that knows one text only. *)
Definition verdict_text : str := lit "{'forms_consistent': true}".
Definition verdict_object : JSON :=
  JObj [(lit "forms_consistent", JBool true)].
Definition loads (text : str) : Exn + JSON :=
  if PyStr.eqb text verdict_text then inr verdict_object
  else inl JSONDecodeError.

Definition material : str := lit "health certificate".
Definition element : str := lit "blank form".
Definition url : str := lit "https://example.test/item".

End Samples.

(* ================================================================== *)
(** ** Reading a computation *)

(** The outcome and the events of [m] started after [t] calls. *)
Definition value_of {A} (m : M A) (t : nat) : Outcome A := fst (fst (m t)).
Definition trace_of {A} (m : M A) (t : nat) : list Event := snd (fst (m t)).

(** [m] yields [v] with the events [tr], whatever the number of calls made
    before it. *)
Definition runs_to {A} (m : M A) (v : Outcome A) (tr : list Event) : Prop :=
  forall t, exists t', m t = (v, tr, t').

(** No call on the page raises on its own: failures come from the page
    content only. *)
Definition quiet (page : Page) : Prop :=
  forall n, page_faults page n = None.

(** The test of the first loop, on the content of a row: it looks at the
    first anchor the link selector finds there. *)
Definition strict_ok {sel : Selectors} (element_name : str) (row : Row) : bool :=
  match links_of element_name row with
  | [] => false
  | a :: _ => is_download_link (a_href a) (a_onclick a) (a_class a)
  end.

(** The message the outer handler builds, for any exception. *)
Definition is_catch_all (m : Message) : bool :=
  match m with
  | MsgExecError _ _ => true
  | _ => false
  end.

(** The first element from index [i] on that satisfies [p], with its
    index. *)
Fixpoint first_from {X} (p : X -> bool) (l : list X) (i : nat)
  : option (nat * X) :=
  match l with
  | [] => None
  | x :: l' => if p x then Some (i, x) else first_from p l' (S i)
  end.

(** The test of the second loop: the row has an anchor the link selector
    finds. *)
Definition has_link {sel : Selectors} (element_name : str) (row : Row) : bool :=
  0 <? List.length (links_of element_name row).

(** One check of the result after the update from a parsed object: left as
    it was when the key of its verdict is absent, and otherwise set from
    the object, the reason being the empty string when the object has no
    reason for it. *)
Definition check_updated (fields : list (str * JSON))
           (before after : ValidationResult) (c : Check) : Prop :=
  match lookup (verdict_key c) fields with
  | None => verdict after c = verdict before c
            /\ reason after c = reason before c
  | Some v => verdict after c = v
              /\ reason after c
                 = ReasonValue (match lookup (reason_key c) fields with
                                | Some why => why
                                | None => JStr []
                                end)
  end.

(* ================================================================== *)
(** ** More readings of a computation *)

(** Whatever the number of calls made before it, [m] ends in an outcome
    and a trace that satisfy [P].  Unlike [runs_to] this speaks of every
    way the run can go, failing calls included. *)
Definition ensures {A} (m : M A) (P : Outcome A -> list Event -> Prop) : Prop :=
  forall t, P (value_of m t) (trace_of m t).

(** The two computations do the same after any number of calls. *)
Definition same_run {A} (m1 m2 : M A) : Prop := forall t, m1 t = m2 t.

(** The page [p] with the network going idle, or not, at every URL. *)
Definition with_idle (b : bool) (p : Page) : Page :=
  {| page_web := fun u => {| site_nav := site_nav (page_web p u);
                             site_idle := b;
                             site_rows := site_rows (page_web p u) |};
     page_faults := page_faults p |}.

(** The library calls among the events of a run, in order. *)
Definition calls_of (tr : list Event) : list ApiCall :=
  flat_map (fun e => match e with
                     | Call c => [c]
                     | Print _ => []
                     end) tr.


(** Rows of the data frame whose result cell records a success. *)
Definition is_success_cell (c : Cell) : bool :=
  match c with
  | CellOutcome Success _ => true
  | _ => false
  end.

Definition count_success (rows : list DataRow) : nat :=
  List.length (filter (fun row : DataRow => is_success_cell (row ColResult)) rows).

(** The columns the run writes. *)
Definition is_result_column (c : Column) : bool :=
  match c with
  | ColTime | ColResult | ColFormat => true
  | _ => false
  end.

Module MoreSamples.

Local Open Scope string_scope.

(** A row for the material that is not visible. *)
Definition hidden_row : Row :=
  {| row_text := lit "health certificate";
     row_visible := false;
     row_anchors := [Samples.with_href] |}.

(** A link whose click starts nothing. *)
Definition dead_link : Anchor :=
  Samples.anchor "blank form" (Some "javascript:void(0)") None None true NoEffect.


End MoreSamples.


Module BrokenBrowser.

(** A world like [Samples.world] where the browser cannot be launched. *)
Definition world (df : DataFrame) : World :=
  {| input_exists := true;
     excel := inr df;
     launch_fault := Some (OtherError 1);
     new_context_fault := None;
     new_page_fault := fun _ => None;
     page_close_fault := fun _ => None;
     browser_close_fault := None;
     to_excel_fault := None;
     world_web := fun _ => Samples.site [];
     world_page_faults := fun _ => Samples.no_faults |}.

End BrokenBrowser.

(* ================================================================== *)
(** ** [DocumentValidator.validate_documents] and the three requests *)

(** The reasons the validator writes itself, as the strings of the source
    (code points of the Chinese text). *)
Definition msg_client_unavailable : str :=
  [79; 112; 101; 110; 65; 73; 23458; 25143; 31471; 19981; 21487; 29992;
   65292; 26080; 27861; 36827; 34892; 25991; 26723; 26657; 39564]%N.

(** [f"校验出错: {e}"] *)
Definition msg_validation_error (text : str) : str :=
  [26657; 39564; 20986; 38169; 58; 32]%N ++ text.

(** [f"API调用失败: {e}"] *)
Definition msg_api_failed (text : str) : str :=
  [65; 80; 73; 35843; 29992; 22833; 36133; 58; 32]%N ++ text.

(** The prompt of a request, by the f-string that builds it. *)
Inductive Prompt :=
| PromptBoth (material_name : str)
| PromptBlank (material_name : str)
| PromptSample (material_name : str).

(** A chat completion request: the model, the prompt, the images sent as
    data URLs after it, and the token limit (the temperature is left out). *)
Record Request := {
  req_model : str;
  req_prompt : Prompt;
  req_images : list str;
  req_max_tokens : Z
}.

(** The validator object and what lies outside it: whether the client was
    set up, which paths exist, what converting a document to an image and
    encoding an image do (they raise, or yield the image path and the
    base64 text), and what the model answers to a request (the call or the
    access to the first choice raises, or yields the content of the
    message, which may be [None]). *)
Record Validator := {
  client : bool;
  path_exists : str -> bool;
  convert_document_to_image : str -> Exn + str;
  _encode_image_to_base64 : str -> Exn + str;
  create_completion : Request -> Exn + option str
}.

(** The same reason written to each check of a list. *)
Definition set_reasons (cs : list Check) (why : Reason) (r : ValidationResult)
  : ValidationResult :=
  fold_left (fun acc c => set_reason c why acc) cs r.

Section Validate.

(** [json.loads], and [str(e)] for an exception [e]. *)
Variable json_loads : str -> Exn + JSON.
Variable exn_text : Exn -> str.
Variable self : Validator.

(** [_parse_validation_response] on the content of a message.  Content
    that is [None] is not a string: the first containment test raises
    [TypeError] inside the [try], and the handler fills the reasons. *)
Definition parse_content (result : ValidationResult) (content : option str)
  : ValidationResult :=
  match content with
  | Some text => _parse_validation_response json_loads result text
  | None => fill_empty_reasons TypeError result
  end.

Definition model_name : str := lit "qwen-vl-max-latest".

Definition _validate_both_documents (result : ValidationResult)
           (material_name blank_image_b64 sample_image_b64 : str)
  : ValidationResult :=
  match create_completion self
          {| req_model := model_name;
             req_prompt := PromptBoth material_name;
             req_images := [blank_image_b64; sample_image_b64];
             req_max_tokens := 1000 |} with
  | inr content => parse_content result content
  | inl e =>
      set_reasons all_checks
        (ReasonValue (JStr (msg_api_failed (exn_text e)))) result
  end.

Definition _validate_blank_document (result : ValidationResult)
           (material_name blank_image_b64 : str) : ValidationResult :=
  match create_completion self
          {| req_model := model_name;
             req_prompt := PromptBlank material_name;
             req_images := [blank_image_b64];
             req_max_tokens := 500 |} with
  | inr content => parse_content result content
  | inl e =>
      set_reasons [blank_form_matches; blank_form_empty]
        (ReasonValue (JStr (msg_api_failed (exn_text e)))) result
  end.

Definition _validate_sample_document (result : ValidationResult)
           (material_name sample_image_b64 : str) : ValidationResult :=
  match create_completion self
          {| req_model := model_name;
             req_prompt := PromptSample material_name;
             req_images := [sample_image_b64];
             req_max_tokens := 500 |} with
  | inr content => parse_content result content
  | inl e =>
      set_reasons [sample_form_matches; sample_form_filled; sample_info_masked]
        (ReasonValue (JStr (msg_api_failed (exn_text e)))) result
  end.

(** [if path and os.path.exists(path):] convert, then encode; [None] when
    the document is skipped. *)
Definition prepare_image (path : option str) : Exn + option str :=
  match path with
  | Some p =>
      if truthy path && path_exists self p
      then match convert_document_to_image self p with
           | inl e => inl e
           | inr image_path =>
               match _encode_image_to_base64 self image_path with
               | inl e => inl e
               | inr b64 => inr (Some b64)
               end
           end
      else inr None
  | None => inr None
  end.

(** The [except] block of [validate_documents]. *)
Definition validation_failed (e : Exn) (result : ValidationResult)
  : ValidationResult :=
  set_reasons all_checks
    (ReasonValue (JStr (msg_validation_error (exn_text e)))) result.

(** The three requests handle their own exceptions, so the [try] of
    [validate_documents] can only be left while the images are prepared,
    with the result still as it was created. *)
Definition validate_documents (material_name : str)
           (blank_form_path sample_form_path : option str)
  : ValidationResult :=
  let result := fresh_result in
  if negb (client self)
  then set_reasons all_checks
         (ReasonValue (JStr msg_client_unavailable)) result
  else
    match prepare_image blank_form_path with
    | inl e => validation_failed e result
    | inr blank =>
        match prepare_image sample_form_path with
        | inl e => validation_failed e result
        | inr sample =>
            match blank, sample with
            | Some b, Some s => _validate_both_documents result material_name b s
            | Some b, None => _validate_blank_document result material_name b
            | None, Some s => _validate_sample_document result material_name s
            | None, None => result
            end
        end
    end.

End Validate.

(* ================================================================== *)
(** ** [DocumentValidator._create_text_image_from_docx] *)

(** A Word document as the library reads it: the texts of its paragraphs,
    and its tables as rows of cell texts. *)
Record Docx := {
  paragraphs : list str;
  tables : list (list (list str))
}.

(** [sep.join(parts)] *)
Fixpoint join (sep : str) (parts : list str) : str :=
  match parts with
  | [] => []
  | [p] => p
  | p :: rest => p ++ sep ++ join sep rest
  end.

Definition nonempty (s : str) : bool :=
  match s with
  | [] => false
  | _ :: _ => true
  end.

(** The lines collected from the paragraphs and then from the table rows:
    texts are stripped, empty ones are dropped, and the cells of a row are
    joined with a bar. *)
Definition row_line (cells : list str) : list str :=
  match filter nonempty (map strip cells) with
  | [] => []
  | row_text => [join (lit " | ") row_text]
  end.

Definition text_lines (doc : Docx) : list str :=
  filter nonempty (map strip (paragraphs doc))
  ++ flat_map (fun table => flat_map row_line table) (tables doc).

(** A picture, as far as the code decides it: its size and the texts drawn
    on it, each with the position it starts at. *)
Record TextImage := {
  img_width : Z;
  img_height : Z;
  img_texts : list (Z * Z * str)
}.

(** [line[:60] + "..."] for a line of more than 60 characters. *)
Definition shorten (line : str) : str :=
  if 60 <? List.length line then firstn 60 line ++ lit "..." else line.

(** The drawing loop, from the offset [y_offset] on. *)
Fixpoint draw_lines (y_offset : Z) (lines : list str) : list (Z * Z * str) :=
  match lines with
  | [] => []
  | line :: rest =>
      (20%Z, y_offset, shorten line) :: draw_lines (y_offset + 25) rest
  end.

(** [read] is what opening the document gives; [basename] is
    [os.path.basename(docx_path)], used on the blank picture drawn when
    the document cannot be read. *)
Definition _create_text_image_from_docx (read : Exn + Docx) (basename : str)
  : TextImage :=
  match read with
  | inr doc =>
      let lines := text_lines doc in
      {| img_width := 800;
         img_height := Z.max 600 (Z.of_nat (List.length lines) * 30 + 100);
         img_texts := draw_lines 20 (firstn 30 lines) |}
  | inl _ =>
      {| img_width := 800;
         img_height := 600;
         img_texts :=
           [(50%Z, 50%Z,
             [26080; 27861; 35835; 21462; 25991; 26723; 20869; 23481; 58; 32]%N
               ++ basename)] |}
  end.

Module ValidatorSamples.

(** A validator whose client works, where every path exists and converts
    to an image, and whose model answers every request with [answer]. *)
Definition answering (answer : Exn + option str) : Validator :=
  {| client := true;
     path_exists := fun _ => true;
     convert_document_to_image := fun p => inr (p ++ lit ".png");
     _encode_image_to_base64 := fun _ => inr (lit "aGk=");
     create_completion := fun _ => answer |}.

(** A validator that cannot convert any document. *)
Definition unreadable : Validator :=
  {| client := true;
     path_exists := fun _ => true;
     convert_document_to_image := fun _ => inl (OtherError 2);
     _encode_image_to_base64 := fun _ => inr (lit "aGk=");
     create_completion := fun _ => inr None |}.

Definition fenced_answer : str :=
  lit "```json" ++ Samples.verdict_text ++ lit "```".

Definition exn_text (e : Exn) : str := lit "error".

(** A text between double quotes (code point 34). *)
Definition quoted (s : str) : str := [34%N] ++ s ++ [34%N].

(** An answer that gives a verdict and its reason, the object it parses
    to, and a loader that knows that text only. *)
Definition reasoned_text : str :=
  lit "{" ++ quoted (lit "forms_consistent") ++ lit ": false, "
  ++ quoted (lit "forms_consistent_reason") ++ lit ": "
  ++ quoted (lit "fields differ") ++ lit "}".
Definition reasoned_object : JSON :=
  JObj [(lit "forms_consistent", JBool false);
        (lit "forms_consistent_reason", JStr (lit "fields differ"))].
Definition loads_reasoned (text : str) : Exn + JSON :=
  if PyStr.eqb text reasoned_text then inr reasoned_object
  else inl JSONDecodeError.

(** A result that already holds a verdict and a reason for two checks. *)
Definition judged : ValidationResult :=
  set_reason forms_consistent (ReasonValue (JStr (lit "layouts agree")))
    (set_verdict forms_consistent (JBool true)
       (set_reason blank_form_empty (ReasonValue (JStr (lit "no entries")))
          (set_verdict blank_form_empty (JBool true) fresh_result))).

Definition blank_path : option str := Some (lit "downloads/blank.pdf").
Definition sample_path : option str := Some (lit "downloads/sample.docx").

Definition table_doc : Docx :=
  {| paragraphs := [lit " Application form "; lit "   "; lit "Name:"];
     tables := [[[lit "Name"; lit " "; lit "Date "]; [lit ""; lit "  "]]] |}.

End ValidatorSamples.

(* ================================================================== *)
(** * Properties *)

(** ** Running computations *)

Section RunsTo.

Variables A B : Type.

Lemma runs_to_ret (a : A) : runs_to (ret a) (Ret a) [].
Proof. intros t. exists t. reflexivity. Qed.

Lemma runs_to_raise (e : Exn) : runs_to (@raise A e) (Raise e) [].
Proof. intros t. exists t. reflexivity. Qed.

Lemma runs_to_bind (m : M A) (k : A -> M B) a tr v tr' :
  runs_to m (Ret a) tr -> runs_to (k a) v tr' ->
  runs_to (bind m k) v (tr ++ tr').
Proof.
  intros Hm Hk t. destruct (Hm t) as [t1 E1]. destruct (Hk t1) as [t2 E2].
  exists t2. unfold bind. rewrite E1, E2. reflexivity.
Qed.

Lemma runs_to_bind_raise (m : M A) (k : A -> M B) e tr :
  runs_to m (Raise e) tr -> runs_to (bind m k) (Raise e) tr.
Proof.
  intros Hm t. destruct (Hm t) as [t1 E1].
  exists t1. unfold bind. rewrite E1. reflexivity.
Qed.

Lemma runs_to_attempt_ret (m : M A) a tr :
  runs_to m (Ret a) tr -> runs_to (attempt m) (Ret (inr a)) tr.
Proof.
  intros Hm t. destruct (Hm t) as [t1 E1].
  exists t1. unfold attempt. rewrite E1. reflexivity.
Qed.

Lemma runs_to_attempt_raise (m : M A) e tr :
  runs_to m (Raise e) tr -> runs_to (attempt m) (Ret (inl e)) tr.
Proof.
  intros Hm t. destruct (Hm t) as [t1 E1].
  exists t1. unfold attempt. rewrite E1. reflexivity.
Qed.

Lemma runs_to_value (m : M A) v tr t : runs_to m v tr -> value_of m t = v.
Proof. intros Hm. destruct (Hm t) as [t1 E1]. unfold value_of. now rewrite E1. Qed.

Lemma runs_to_trace (m : M A) v tr t : runs_to m v tr -> trace_of m t = tr.
Proof. intros Hm. destruct (Hm t) as [t1 E1]. unfold trace_of. now rewrite E1. Qed.

Lemma runs_to_call (page : Page) (c : ApiCall) (r : Outcome A) :
  quiet page -> runs_to (call page c r) r [Call c].
Proof. intros Q t. exists (S t). unfold call. now rewrite Q. Qed.

End RunsTo.

Lemma runs_to_try_except_ret A (m : M A) h a tr :
  runs_to m (Ret a) tr -> runs_to (try_except m h) (Ret a) tr.
Proof.
  intros Hm. unfold try_except.
  rewrite <- (app_nil_r tr).
  eapply runs_to_bind; [apply runs_to_attempt_ret, Hm | apply runs_to_ret].
Qed.

Lemma runs_to_try_except_raise A (m : M A) h e tr v tr' :
  runs_to m (Raise e) tr -> runs_to (h e) v tr' ->
  runs_to (try_except m h) v (tr ++ tr').
Proof.
  intros Hm Hh. unfold try_except.
  eapply runs_to_bind; [apply runs_to_attempt_raise, Hm | exact Hh].
Qed.

Lemma runs_to_print (l : LogLine) : runs_to (print l) (Ret tt) [Print l].
Proof. intros t. exists t. reflexivity. Qed.

(** ** Searching a list *)

Lemma first_from_none X (p : X -> bool) (l : list X) (i : nat) :
  (forall y, In y l -> p y = false) -> first_from p l i = None.
Proof.
  revert i. induction l as [|x l IH]; intros i H; cbn; [reflexivity|].
  rewrite (H x (or_introl eq_refl)). apply IH. intros y Hy. apply H. now right.
Qed.

Lemma first_from_nth X (p : X -> bool) (l : list X) (i k : nat) (x : X) :
  nth_error l k = Some x -> p x = true ->
  (forall j y, j < k -> nth_error l j = Some y -> p y = false) ->
  first_from p l i = Some (i + k, x).
Proof.
  revert i k. induction l as [|z l IH]; intros i k Hk Hx Hbefore.
  - destruct k; discriminate.
  - destruct k as [|k]; cbn in Hk |- *.
    + injection Hk as ->. rewrite Hx. now rewrite Nat.add_0_r.
    + rewrite (Hbefore 0 z (Nat.lt_0_succ k) eq_refl).
      rewrite (IH (S i) k Hk Hx).
      * f_equal. f_equal. lia.
      * intros j y Hj Hy. apply (Hbefore (S j) y); [lia | exact Hy].
Qed.

(** ** The strict pass *)

Section Locate.

Context {sel : Selectors}.
Variable page : Page.
Hypothesis page_quiet : quiet page.
Variable element_name : str.

Lemma runs_to_count X (l : list X) :
  runs_to (loc_count page l) (Ret (List.length l)) [Call CallCount].
Proof. apply runs_to_call, page_quiet. Qed.

Lemma runs_to_get_attribute (a : Anchor) (n : AttrName) :
  runs_to (get_attribute page [a] n) (Ret (attribute a n))
          [Call (CallGetAttribute n)].
Proof. apply (runs_to_call (A := option str)), page_quiet. Qed.

(** On a quiet page a round of the first loop computes [strict_ok], and
    prints the row number when it accepts. *)
Lemma strict_row_runs (row : Row) (i : nat) :
  exists tr,
    runs_to (strict_row page element_name row i)
            (Ret (strict_ok element_name row)) tr
    /\ (strict_ok element_name row = true ->
        In (Print (LogValidRow (i + 1))) tr).
Proof.
  unfold strict_row, strict_ok.
  destruct (links_of element_name row) as [|a rest] eqn:L.
  - eexists. split.
    + eapply runs_to_bind; [apply runs_to_count|]. cbn. apply runs_to_ret.
    + discriminate.
  - cbn [firstn].
    destruct (is_download_link (a_href a) (a_onclick a) (a_class a)) eqn:D.
    + eexists. split.
      * eapply runs_to_bind; [apply runs_to_count|]. cbn [List.length Nat.ltb Nat.leb].
        eapply runs_to_bind; [apply runs_to_get_attribute|].
        eapply runs_to_bind; [apply runs_to_get_attribute|].
        eapply runs_to_bind; [apply runs_to_get_attribute|].
        cbn [attribute]. rewrite D.
        eapply runs_to_bind; [apply runs_to_print | apply runs_to_ret].
      * intros _. cbn. tauto.
    + eexists. split.
      * eapply runs_to_bind; [apply runs_to_count|]. cbn [List.length Nat.ltb Nat.leb].
        eapply runs_to_bind; [apply runs_to_get_attribute|].
        eapply runs_to_bind; [apply runs_to_get_attribute|].
        eapply runs_to_bind; [apply runs_to_get_attribute|].
        cbn [attribute]. rewrite D.
        eapply runs_to_bind; [apply runs_to_print | apply runs_to_ret].
      * discriminate.
Qed.

Lemma strict_pass_runs (rows : list Row) (i : nat) :
  exists tr,
    runs_to (strict_pass page element_name rows i)
            (Ret (first_from (strict_ok element_name) rows i)) tr
    /\ (forall k r, first_from (strict_ok element_name) rows i = Some (k, r) ->
        In (Print (LogValidRow (k + 1))) tr).
Proof.
  revert i. induction rows as [|row rest IH]; intros i.
  - exists []. split; [apply runs_to_ret | discriminate].
  - destruct (strict_row_runs row i) as [tr1 [R1 V1]].
    cbn [strict_pass first_from].
    destruct (strict_ok element_name row) eqn:Ok.
    + eexists. split.
      * eapply runs_to_bind; [exact R1 | apply runs_to_ret].
      * intros k r E. injection E as <- <-.
        apply in_or_app. left. now apply V1.
    + destruct (IH (S i)) as [tr2 [R2 V2]].
      exists (tr1 ++ tr2). split.
      * eapply runs_to_bind; [exact R1 | exact R2].
      * intros k r E. apply in_or_app. right. exact (V2 k r E).
Qed.

Lemma fallback_pass_runs (rows : list Row) (i : nat) :
  exists tr,
    runs_to (fallback_pass page element_name rows i)
            (Ret (first_from (has_link element_name) rows i)) tr
    /\ (forall k r, first_from (has_link element_name) rows i = Some (k, r) ->
        In (Print (LogFallbackRow (k + 1))) tr).
Proof.
  revert i. induction rows as [|row rest IH]; intros i.
  - exists []. split; [apply runs_to_ret | discriminate].
  - cbn [fallback_pass first_from]. unfold has_link at 1 3.
    destruct (0 <? List.length (links_of element_name row)) eqn:Has.
    + eexists. split.
      * eapply runs_to_bind; [apply runs_to_count|]. rewrite Has.
        eapply runs_to_bind; [apply runs_to_print | apply runs_to_ret].
      * intros k r E. injection E as <- <-. cbn. tauto.
    + destruct (IH (S i)) as [tr2 [R2 V2]].
      eexists. split.
      * eapply runs_to_bind; [apply runs_to_count|]. rewrite Has. exact R2.
      * intros k r E. apply in_or_app. right. exact (V2 k r E).
Qed.

(** The row the two passes settle on, as a function of the rows the row
    selector finds. *)
Lemma locate_target_row_runs (site : Site) (material_name : str) :
  let rows := potential_rows_of material_name site in
  exists tr,
    runs_to (locate_target_row page site material_name element_name)
            (Ret (match first_from (strict_ok element_name) rows 0 with
                  | Some target => Some target
                  | None => first_from (has_link element_name) rows 0
                  end)) tr
    /\ (forall k r, first_from (strict_ok element_name) rows 0 = Some (k, r) ->
        In (Print (LogValidRow (k + 1))) tr)
    /\ (first_from (strict_ok element_name) rows 0 = None ->
        In (Print LogFallback) tr
        /\ forall k r, first_from (has_link element_name) rows 0 = Some (k, r) ->
                       In (Print (LogFallbackRow (k + 1))) tr).
Proof.
  intros rows. unfold locate_target_row, locate_rows. fold rows.
  destruct (strict_pass_runs rows 0) as [tr1 [R1 V1]].
  destruct (first_from (strict_ok element_name) rows 0) as [target|] eqn:S1.
  - eexists. split; [|split].
    + eapply runs_to_bind; [apply runs_to_print|].
      apply runs_to_try_except_ret.
      eapply runs_to_bind; [apply runs_to_count|].
      eapply runs_to_bind; [apply runs_to_print|].
      eapply runs_to_bind; [exact R1 | apply runs_to_ret].
    + intros k r E.
      cbn. right. right. right. apply in_or_app. left. exact (V1 k r E).
    + discriminate.
  - destruct (fallback_pass_runs rows 0) as [tr2 [R2 V2]].
    eexists. split; [|split].
    + eapply runs_to_bind; [apply runs_to_print|].
      apply runs_to_try_except_ret.
      eapply runs_to_bind; [apply runs_to_count|].
      eapply runs_to_bind; [apply runs_to_print|].
      eapply runs_to_bind; [exact R1|].
      eapply runs_to_bind; [apply runs_to_print | exact R2].
    + discriminate.
    + intros _. split.
      * cbn. right. right. right. apply in_or_app. right. cbn. now left.
      * intros k r E. cbn. right. right. right.
        apply in_or_app. right. cbn. right. exact (V2 k r E).
Qed.

End Locate.

Lemma truthy_some (o : option str) :
  truthy o = true <-> exists s, o = Some s /\ s <> [].
Proof.
  split.
  - destruct o as [[|c s]|]; try discriminate. intros _. now exists (c :: s).
  - intros [s [-> Hs]]. destruct s; [contradiction | reflexivity].
Qed.

Lemma is_download_link_spec (href onclick class_name : option str) :
  is_download_link href onclick class_name = true <->
  truthy href = true \/ truthy onclick = true \/
  exists c, class_name = Some c /\ c <> [] /\
            (contains (lit "kbbg") c = true
             \/ contains (lit "download") (lower c) = true).
Proof.
  unfold is_download_link. rewrite !orb_true_iff, andb_true_iff. split.
  - intros [[H | H] | [T C]]; [now left | now right; left | right; right].
    destruct class_name as [c|]; [|discriminate].
    exists c. apply truthy_some in T as [c' [E Hc]]. injection E as <-.
    apply orb_true_iff in C. auto.
  - intros [H | [H | [c [-> [Hc C]]]]]; [now left; left | now left; right | right].
    split.
    + apply truthy_some. now exists c.
    + now apply orb_true_iff.
Qed.

Lemma strict_ok_iff {sel : Selectors} (element_name : str) (row : Row) :
  strict_ok element_name row = true <->
  exists a rest,
    links_of element_name row = a :: rest
    /\ is_download_link (a_href a) (a_onclick a) (a_class a) = true.
Proof.
  unfold strict_ok. destruct (links_of element_name row) as [|a rest].
  - split; [discriminate | intros [a [rest [E _]]]; discriminate].
  - split.
    + intros H. now exists a, rest.
    + intros [a' [rest' [E H]]]. now injection E as -> ->.
Qed.

Lemma filter_andb X (p q : X -> bool) (l : list X) :
  filter (fun x => p x && q x) l = filter p (filter q l).
Proof.
  induction l as [|x l IH]; cbn; [reflexivity|].
  destruct (q x); cbn.
  - rewrite andb_true_r. destruct (p x); now rewrite IH.
  - now rewrite andb_false_r.
Qed.

(** The link the code settles on in the target row. *)
Lemma choose_download_link_runs {sel : Selectors} (page : Page)
      (element_name : str) (row : Row) :
  quiet page ->
  let links := links_of element_name row in
  let marked := filter (anchor_class (lit "kbbg")) links in
  exists tr,
    runs_to (choose_download_link page element_name row (List.length links))
            (Ret (if 1 <? List.length links
                  then match marked with
                       | [] => firstn 1 links
                       | _ :: _ => marked
                       end
                  else links)) tr.
Proof.
  intros Q links marked. unfold choose_download_link. fold links.
  destruct (1 <? List.length links); [|eexists; apply runs_to_ret].
  rewrite filter_andb. fold (links_of element_name row). fold links. fold marked.
  destruct marked as [|a0 l0] eqn:Em.
  - eexists. eapply runs_to_bind; [now apply runs_to_count|]. apply runs_to_ret.
  - eexists. eapply runs_to_bind; [now apply runs_to_count|]. apply runs_to_ret.
Qed.

(** ** The claims on the two passes *)

(** C1 (amended).  On a page whose calls do not fail on their own, the
    strict pass accepts a candidate row exactly when the first anchor the
    link selector finds in it has a non-empty href, or a non-empty onclick,
    or a non-empty class that contains kbbg as written or contains download
    in any letter case.  In particular a row whose single matching anchor
    has a non-empty href is accepted, and that anchor is the link chosen in
    the row. *)
Theorem strict_row_accepts_iff {sel : Selectors} (page : Page)
        (element_name : str) (row : Row) (i : nat) :
  quiet page ->
  ((exists tr, runs_to (strict_row page element_name row i) (Ret true) tr) <->
   exists a rest,
     links_of element_name row = a :: rest
     /\ (truthy (a_href a) = true \/ truthy (a_onclick a) = true \/
         exists c, a_class a = Some c /\ c <> [] /\
                   (contains (lit "kbbg") c = true
                    \/ contains (lit "download") (lower c) = true)))
  /\ (forall a, links_of element_name row = [a] -> truthy (a_href a) = true ->
      (exists tr, runs_to (strict_row page element_name row i) (Ret true) tr)
      /\ (exists tr, runs_to (choose_download_link page element_name row 1)
                             (Ret [a]) tr)).
Proof.
  intros Q.
  destruct (strict_row_runs Q element_name row i) as [tr [R _]].
  assert (Iff : (exists tr, runs_to (strict_row page element_name row i) (Ret true) tr)
                <-> strict_ok element_name row = true).
  { split.
    - intros [tr' R'].
      pose proof (runs_to_value 0 R) as V. pose proof (runs_to_value 0 R') as V'.
      congruence.
    - intros E. exists tr. now rewrite E in R. }
  split.
  - rewrite Iff, strict_ok_iff.
    split; intros [a [rest [L D]]]; exists a, rest; split; trivial;
      now apply is_download_link_spec.
  - intros a L H. split.
    + apply Iff, strict_ok_iff. exists a, []. split; [exact L|].
      apply is_download_link_spec. now left.
    + destruct (choose_download_link_runs element_name row Q) as [tr' R'].
      rewrite L in R'. cbn in R'. now exists tr'.
Qed.

Lemma strict_row_accepts_iff_witness :
  let p := Samples.page (Samples.site [Samples.row "health certificate" [Samples.with_href]]) in
  let r := Samples.row "health certificate" [Samples.with_href] in
  (exists tr, runs_to (strict_row (sel := text_selectors) p Samples.element r 0) (Ret true) tr)
  /\ (exists tr, runs_to (choose_download_link (sel := text_selectors) p Samples.element r 1)
                         (Ret [Samples.with_href]) tr).
Proof.
  intros p r.
  apply (proj2 (@strict_row_accepts_iff text_selectors p Samples.element r 0
                  (fun n => eq_refl)) Samples.with_href);
    reflexivity.
Defined.

(** C1, as stated, fails: an anchor whose href is present but empty is not
    accepted, and neither is one whose class is the marker kbbg in upper
    case. *)
Lemma present_attribute_not_accepted :
  let r1 := Samples.row "health certificate" [Samples.empty_href] in
  let r2 := Samples.row "health certificate" [Samples.upper_kbbg] in
  a_href Samples.empty_href = Some []
  /\ value_of (strict_row (sel := text_selectors)
                 (Samples.page (Samples.site [r1])) Samples.element r1 0) 0
     = Ret false
  /\ contains (lit "kbbg") (lower (lit "KBBG")) = true
  /\ value_of (strict_row (sel := text_selectors)
                 (Samples.page (Samples.site [r2])) Samples.element r2 0) 0
     = Ret false.
Proof. cbv zeta. repeat split; vm_compute; reflexivity. Qed.

(** C2.  When the row at index [i] of the candidate rows passes the strict
    test and no row before it does, the first loop breaks at index [i], and
    the row located is that one. *)
Theorem strict_pass_first_match {sel : Selectors} (page : Page) (site : Site)
        (material_name element_name : str) (i : nat) (row : Row) :
  quiet page ->
  nth_error (potential_rows_of material_name site) i = Some row ->
  strict_ok element_name row = true ->
  (forall j r, j < i ->
               nth_error (potential_rows_of material_name site) j = Some r ->
               strict_ok element_name r = false) ->
  (exists tr,
      runs_to (strict_pass page element_name
                 (potential_rows_of material_name site) 0)
              (Ret (Some (i, row))) tr)
  /\ (exists tr,
         runs_to (locate_target_row page site material_name element_name)
                 (Ret (Some (i, row))) tr
         /\ In (Print (LogValidRow (i + 1))) tr).
Proof.
  intros Q Hi Hok Hbefore.
  pose proof (first_from_nth (strict_ok element_name) _ 0 Hi Hok Hbefore) as F.
  cbn in F. split.
  - destruct (strict_pass_runs Q element_name
                (potential_rows_of material_name site) 0) as [tr [R _]].
    rewrite F in R. now exists tr.
  - destruct (locate_target_row_runs Q element_name site material_name)
      as [tr [R [V _]]].
    cbv zeta in R. rewrite F in R. exists tr. split; [exact R|].
    exact (V i row F).
Qed.

Lemma strict_pass_first_match_witness :
  let r0 := Samples.row "health certificate" [Samples.bare] in
  let r1 := Samples.row "health certificate" [Samples.with_href] in
  let r2 := Samples.row "health certificate" [Samples.marked] in
  let s := Samples.site [r0; r1; r2] in
  (exists tr,
      runs_to (strict_pass (sel := text_selectors) (Samples.page s) Samples.element
                 (potential_rows_of (sel := text_selectors) Samples.material s) 0)
              (Ret (Some (1, r1))) tr)
  /\ (exists tr,
         runs_to (locate_target_row (sel := text_selectors) (Samples.page s) s
                    Samples.material Samples.element)
                 (Ret (Some (1, r1))) tr
         /\ In (Print (LogValidRow (1 + 1))) tr).
Proof.
  intros r0 r1 r2 s.
  apply (@strict_pass_first_match text_selectors (Samples.page s) s
           Samples.material Samples.element 1 r1 (fun n => eq_refl)).
  - reflexivity.
  - reflexivity.
  - intros j r Hj E. destruct j as [|j]; [|lia].
    vm_compute in E. injection E as <-. reflexivity.
Defined.

(** C3.  When no candidate row passes the strict test and the row at index
    [i] is the first one with an anchor the link selector finds, the
    fallback loop settles on that row whatever its attributes, and the two
    warning lines of the fallback are printed. *)
Theorem fallback_selects_first_row_with_link {sel : Selectors} (page : Page)
        (site : Site) (material_name element_name : str) (i : nat) (row : Row) :
  quiet page ->
  (forall r, In r (potential_rows_of material_name site) ->
             strict_ok element_name r = false) ->
  nth_error (potential_rows_of material_name site) i = Some row ->
  has_link element_name row = true ->
  (forall j r, j < i ->
               nth_error (potential_rows_of material_name site) j = Some r ->
               has_link element_name r = false) ->
  exists tr,
    runs_to (locate_target_row page site material_name element_name)
            (Ret (Some (i, row))) tr
    /\ In (Print LogFallback) tr
    /\ In (Print (LogFallbackRow (i + 1))) tr.
Proof.
  intros Q Hstrict Hi Hlink Hbefore.
  pose proof (first_from_none (strict_ok element_name) _ 0 Hstrict) as F1.
  pose proof (first_from_nth (has_link element_name) _ 0 Hi Hlink Hbefore) as F2.
  cbn in F2.
  destruct (locate_target_row_runs Q element_name site material_name)
    as [tr [R [_ V]]].
  cbv zeta in R. rewrite F1, F2 in R.
  destruct (V F1) as [Vf Vr].
  exists tr. repeat split; [exact R | exact Vf | exact (Vr i row F2)].
Qed.

Lemma fallback_selects_first_row_with_link_witness :
  let r0 := Samples.row "health certificate" [Samples.other_text] in
  let r1 := Samples.row "health certificate" [Samples.bare] in
  let r2 := Samples.row "health certificate" [Samples.empty_href] in
  let s := Samples.site [r0; r1; r2] in
  exists tr,
    runs_to (locate_target_row (sel := text_selectors) (Samples.page s) s
               Samples.material Samples.element)
            (Ret (Some (1, r1))) tr
    /\ In (Print LogFallback) tr
    /\ In (Print (LogFallbackRow (1 + 1))) tr.
Proof.
  intros r0 r1 r2 s.
  apply (@fallback_selects_first_row_with_link text_selectors (Samples.page s) s
           Samples.material Samples.element 1 r1 (fun n => eq_refl)).
  - intros r H. vm_compute in H.
    destruct H as [<- | [<- | [<- | []]]]; reflexivity.
  - reflexivity.
  - reflexivity.
  - intros j r Hj E. destruct j as [|j]; [|lia].
    vm_compute in E. injection E as <-. reflexivity.
Defined.

Lemma filter_none {X} (p : X -> bool) (l : list X) :
  (forall x, In x l -> p x = false) -> filter p l = [].
Proof.
  induction l as [|x l IH]; intros H; [reflexivity|].
  cbn. rewrite (H x) by now left. apply IH. intros y Hy. apply H. now right.
Qed.

Lemma filter_only {X} (p : X -> bool) (before after : list X) (a : X) :
  p a = true ->
  (forall x, In x (before ++ after) -> p x = false) ->
  filter p (before ++ a :: after) = [a].
Proof.
  intros Ha Hothers. rewrite filter_app. cbn. rewrite Ha.
  rewrite !filter_none; [reflexivity | |];
    intros x Hx; apply Hothers, in_or_app; auto.
Qed.

(** C4 (amended).  In the target row, on a page whose calls do not fail on
    their own: when more than one anchor matches the link text and exactly
    one of them carries the class kbbg, that anchor is the link chosen;
    when more than one matches and none carries that class, the first
    matching anchor in document order is chosen; a single matching anchor
    is taken as it is. *)
Theorem choose_download_link_prefers_marked {sel : Selectors} (page : Page)
        (element_name : str) (row : Row) :
  quiet page ->
  let links := links_of element_name row in
  exists chosen tr,
    runs_to (choose_download_link page element_name row (List.length links))
            (Ret chosen) tr
    /\ (forall before a after,
           links = before ++ a :: after ->
           1 < List.length links ->
           anchor_class (lit "kbbg") a = true ->
           (forall b, In b (before ++ after) ->
                      anchor_class (lit "kbbg") b = false) ->
           chosen = [a])
    /\ (forall a rest,
           links = a :: rest ->
           rest <> [] ->
           (forall b, In b links -> anchor_class (lit "kbbg") b = false) ->
           chosen = [a])
    /\ (forall a, links = [a] -> chosen = [a]).
Proof.
  intros Q links.
  destruct (choose_download_link_runs element_name row Q) as [tr R].
  fold links in R. cbv zeta in R.
  eexists. exists tr. split; [exact R|].
  split; [|split].
  - intros before a after L Hn Ha Hothers. apply Nat.ltb_lt in Hn. rewrite Hn.
    rewrite L, (filter_only _ before after a Ha Hothers). reflexivity.
  - intros a rest L Hrest Hnone.
    assert (Hn : (1 <? List.length links) = true).
    { apply Nat.ltb_lt. rewrite L. destruct rest; [congruence | cbn; lia]. }
    rewrite Hn, (filter_none _ links Hnone), L. reflexivity.
  - intros a L. rewrite L. reflexivity.
Qed.

Lemma choose_download_link_prefers_marked_witness :
  let r := Samples.row "health certificate" [Samples.bare; Samples.marked] in
  exists tr,
    runs_to (choose_download_link (sel := text_selectors)
               (Samples.page (Samples.site [r])) Samples.element r 2)
            (Ret [Samples.marked]) tr.
Proof.
  intros r.
  destruct (@choose_download_link_prefers_marked text_selectors
              (Samples.page (Samples.site [r])) Samples.element r
              (fun n => eq_refl)) as [chosen [tr [R [Hm _]]]].
  exists tr.
  rewrite <- (Hm [Samples.bare] Samples.marked [] eq_refl).
  - exact R.
  - cbn. lia.
  - reflexivity.
  - intros b [<- | []]. reflexivity.
Defined.

(** C4, as stated, fails: of two matching anchors, the second of which has
    a class that the strict test recognises (it contains download), the
    first, unmarked one is chosen. *)
Lemma download_marker_is_not_preferred :
  let r := Samples.row "health certificate"
             [Samples.bare; Samples.download_class] in
  is_download_link (a_href Samples.bare) (a_onclick Samples.bare)
    (a_class Samples.bare) = false
  /\ is_download_link (a_href Samples.download_class)
       (a_onclick Samples.download_class) (a_class Samples.download_class)
     = true
  /\ links_of (sel := text_selectors) Samples.element r
     = [Samples.bare; Samples.download_class]
  /\ value_of (choose_download_link (sel := text_selectors)
                 (Samples.page (Samples.site [r])) Samples.element r 2) 0
     = Ret [Samples.bare].
Proof. cbv zeta. repeat split; vm_compute; reflexivity. Qed.

(** C10.  A row whose first matching anchor has no href, no onclick and no
    marker in its class is turned down by the strict pass, whatever the
    later matching anchors of the row carry. *)
Theorem strict_row_inspects_first_anchor_only {sel : Selectors} (page : Page)
        (element_name : str) (row : Row) (i : nat)
        (a : Anchor) (later : list Anchor) :
  quiet page ->
  links_of element_name row = a :: later ->
  a_href a = None ->
  a_onclick a = None ->
  (forall c, a_class a = Some c ->
             contains (lit "kbbg") c = false
             /\ contains (lit "download") (lower c) = false) ->
  (exists tr, runs_to (strict_row page element_name row i) (Ret false) tr)
  /\ (exists tr, runs_to (strict_pass page element_name [row] i) (Ret None) tr).
Proof.
  intros Q L Hh Ho Hc.
  assert (Ok : strict_ok element_name row = false).
  { unfold strict_ok. rewrite L. unfold is_download_link. rewrite Hh, Ho.
    change (truthy None) with false.
    destruct (a_class a) as [c|]; [|reflexivity].
    destruct (Hc c eq_refl) as [-> ->]. cbn [orb]. apply andb_false_r. }
  split.
  - destruct (strict_row_runs Q element_name row i) as [tr [R _]].
    rewrite Ok in R. now exists tr.
  - destruct (strict_pass_runs Q element_name [row] i) as [tr [R _]].
    cbn in R. rewrite Ok in R. now exists tr.
Qed.

Lemma strict_row_inspects_first_anchor_only_witness :
  let r := Samples.row "health certificate" [Samples.bare; Samples.with_href] in
  let p := Samples.page (Samples.site [r]) in
  (exists tr, runs_to (strict_row (sel := text_selectors) p Samples.element r 0)
                      (Ret false) tr)
  /\ (exists tr, runs_to (strict_pass (sel := text_selectors) p Samples.element [r] 0)
                         (Ret None) tr).
Proof.
  intros r p.
  apply (@strict_row_inspects_first_anchor_only text_selectors p Samples.element
           r 0 Samples.bare [Samples.with_href] (fun n => eq_refl));
    try reflexivity.
  intros c E. discriminate E.
Defined.

(** ** The whole test case *)

Ltac in_trace :=
  lazymatch goal with
  | |- In _ (_ ++ _) =>
      apply in_or_app; first [ left; in_trace | right; in_trace ]
  | |- In _ _ => solve [ cbn; auto 12 ]
  end.

Section TestCase.

Context {sel : Selectors}.
Variable page : Page.
Hypothesis page_quiet : quiet page.
Variables url material_name element_name : str.
Variable s : Z.
Hypothesis nav_ok : site_nav (page_web page url) = NavResponse s.
Hypothesis status_ok : (200 <= s <= 299)%Z.

Lemma status_test : negb ((200 <=? s) && (s <=? 299))%Z = false.
Proof.
  destruct status_ok as [H1 H2].
  apply Z.leb_le in H1, H2. now rewrite H1, H2.
Qed.

Lemma wait_idle_runs (ms : Z) (r : Outcome unit) :
  exists tr,
    runs_to (try_except (call page (CallWaitNetworkIdle ms) r)
                        (fun _ => ret tt)) (Ret tt) tr.
Proof.
  destruct r as [[]|e].
  - eexists. apply runs_to_try_except_ret. now apply runs_to_call.
  - eexists. eapply runs_to_try_except_raise;
      [now apply runs_to_call | apply runs_to_ret].
Qed.

Lemma goto_runs :
  runs_to (call page (CallGoto url 60000)
             match site_nav (page_web page url) with
             | NavRaises e => Raise e
             | NavNoResponse => Ret None
             | NavResponse st => Ret (Some st)
             end)
          (Ret (Some s)) [Call (CallGoto url 60000)].
Proof. rewrite nav_ok. now apply runs_to_call. Qed.

Lemma handler_runs (e : Exn) :
  runs_to (test_handler page e) (Ret (failed (MsgExecError e true)))
          [Call CallScreenshot].
Proof.
  unfold test_handler. rewrite <- (app_nil_r [Call CallScreenshot]).
  eapply runs_to_bind;
    [apply runs_to_attempt_ret; now apply runs_to_call | apply runs_to_ret].
Qed.

(** With no row located the test case returns the not-found message. *)
Lemma test_case_not_found (tr0 : list Event) :
  runs_to (locate_target_row page (page_web page url)
             material_name element_name) (Ret None) tr0 ->
  exists tr,
    runs_to (test_single_download_link page url material_name element_name)
            (Ret (failed (MsgRowNotFound material_name element_name))) tr.
Proof.
  intros Hloc.
  destruct (wait_idle_runs 15000
              (if site_idle (page_web page url)
               then Ret tt else Raise TimeoutError)) as [trw Hw].
  eexists. unfold test_single_download_link.
  apply runs_to_try_except_ret. unfold test_body. cbv zeta.
  eapply runs_to_bind; [apply goto_runs|]. cbv beta iota.
  rewrite status_test.
  eapply runs_to_bind; [exact Hw|].
  eapply runs_to_bind; [exact Hloc|]. apply runs_to_ret.
Qed.

(** With a row located and visible, and a single anchor chosen that is
    not visible, the visibility assertion raises and the outer handler
    builds the result. *)
Lemma test_case_hidden_link (i : nat) (row : Row) (a : Anchor)
      (tr0 trc : list Event) :
  runs_to (locate_target_row page (page_web page url)
             material_name element_name) (Ret (Some (i, row))) tr0 ->
  row_visible row = true ->
  links_of element_name row <> [] ->
  runs_to (choose_download_link page element_name row
             (List.length (links_of element_name row))) (Ret [a]) trc ->
  a_visible a = false ->
  exists tr,
    runs_to (test_single_download_link page url material_name element_name)
            (Ret (failed (MsgExecError AssertionError true))) tr
    /\ In (Call (CallExpectVisible 5000)) tr
    /\ In (Call CallScreenshot) tr.
Proof.
  intros Hloc Hrow Hlinks Hchoose Hhidden.
  destruct (wait_idle_runs 15000
              (if site_idle (page_web page url)
               then Ret tt else Raise TimeoutError)) as [trw Hw].
  assert (Hcount : (List.length (links_of element_name row) =? 0) = false).
  { destruct (links_of element_name row); [contradiction | reflexivity]. }
  eexists. split; [|split].
  - unfold test_single_download_link.
    eapply runs_to_try_except_raise; [|apply handler_runs].
    unfold test_body. cbv zeta.
    eapply runs_to_bind; [apply goto_runs|]. cbv beta iota.
    rewrite status_test.
    eapply runs_to_bind; [exact Hw|].
    eapply runs_to_bind; [exact Hloc|]. cbv beta iota.
    eapply runs_to_bind.
    { apply runs_to_attempt_ret. unfold expect_to_be_visible. rewrite Hrow.
      now apply runs_to_call. }
    cbv beta iota.
    eapply runs_to_bind; [now apply runs_to_count|]. rewrite Hcount.
    eapply runs_to_bind; [exact Hchoose|].
    apply runs_to_bind_raise.
    unfold expect_to_be_visible. cbn [map]. rewrite Hhidden.
    now apply runs_to_call.
  - in_trace.
  - in_trace.
Qed.

End TestCase.

(** C5 (amended).  On a page reached with an ok response and whose calls do
    not fail on their own, when no candidate row holds an anchor the link
    selector finds (in particular when there is no candidate row at all),
    the test case fails with the one message that names both the material
    and the element; the two situations are not told apart. *)
Theorem not_found_is_one_reason {sel : Selectors} (page : Page)
        (url material_name element_name : str) (s : Z) :
  quiet page ->
  site_nav (page_web page url) = NavResponse s ->
  (200 <= s <= 299)%Z ->
  (forall r, In r (potential_rows_of material_name (page_web page url)) ->
             links_of element_name r = []) ->
  exists tr,
    runs_to (test_single_download_link page url material_name element_name)
            (Ret (failed (MsgRowNotFound material_name element_name))) tr.
Proof.
  intros Q Hnav Hs Hnone.
  destruct (locate_target_row_runs Q element_name (page_web page url)
              material_name) as [tr0 [R _]].
  cbv zeta in R.
  rewrite first_from_none in R.
  2:{ intros r Hr. unfold strict_ok. now rewrite (Hnone r Hr). }
  rewrite first_from_none in R.
  2:{ intros r Hr. unfold has_link. now rewrite (Hnone r Hr). }
  eapply test_case_not_found; eassumption.
Qed.

Lemma not_found_is_one_reason_witness :
  let r := Samples.row "health certificate" [Samples.other_text] in
  exists tr,
    runs_to (test_single_download_link (sel := text_selectors)
               (Samples.page (Samples.site [r]))
               Samples.url Samples.material Samples.element)
            (Ret (failed (MsgRowNotFound Samples.material Samples.element))) tr.
Proof.
  intros r.
  apply (@not_found_is_one_reason text_selectors
           (Samples.page (Samples.site [r]))
           Samples.url Samples.material Samples.element 200 (fun n => eq_refl)).
  - reflexivity.
  - lia.
  - intros r' H. vm_compute in H. destruct H as [<- | []]. reflexivity.
Defined.

(** C5, as stated, fails: a page with no row for the material and a page
    whose row for the material has no matching anchor end in the same
    result. *)
Lemma row_and_link_not_found_coincide :
  let no_row := Samples.page (Samples.site []) in
  let no_link :=
    Samples.page (Samples.site
                    [Samples.row "health certificate" [Samples.other_text]]) in
  potential_rows_of (sel := text_selectors) Samples.material
    (page_web no_row Samples.url) = []
  /\ List.length (potential_rows_of (sel := text_selectors) Samples.material
                    (page_web no_link Samples.url)) = 1
  /\ value_of (test_single_download_link (sel := text_selectors) no_row
                 Samples.url Samples.material Samples.element) 0
     = value_of (test_single_download_link (sel := text_selectors) no_link
                   Samples.url Samples.material Samples.element) 0.
Proof. cbv zeta. repeat split; vm_compute; reflexivity. Qed.

(** C6 (amended).  Once the link is chosen the code asserts that it is
    visible, with a timeout of 5000 ms, and asserts nothing else about it.
    When the chosen anchor is not visible the assertion raises, the
    exception unwinds to the handler of the whole test case, and the result
    is the message of that handler, built after the error screenshot. *)
Theorem hidden_link_fails_in_outer_handler {sel : Selectors} (page : Page)
        (url material_name element_name : str) (s : Z)
        (i : nat) (row : Row) (a : Anchor) (tr0 trc : list Event) :
  quiet page ->
  site_nav (page_web page url) = NavResponse s ->
  (200 <= s <= 299)%Z ->
  runs_to (locate_target_row page (page_web page url)
             material_name element_name) (Ret (Some (i, row))) tr0 ->
  row_visible row = true ->
  links_of element_name row <> [] ->
  runs_to (choose_download_link page element_name row
             (List.length (links_of element_name row))) (Ret [a]) trc ->
  a_visible a = false ->
  exists tr,
    runs_to (test_single_download_link page url material_name element_name)
            (Ret (failed (MsgExecError AssertionError true))) tr
    /\ is_catch_all (MsgExecError AssertionError true) = true
    /\ In (Call (CallExpectVisible 5000)) tr
    /\ In (Call CallScreenshot) tr.
Proof.
  intros Q Hnav Hs Hloc Hrow Hlinks Hchoose Hhidden.
  destruct (@test_case_hidden_link sel page Q url material_name element_name
              s Hnav Hs i row a tr0 trc Hloc Hrow Hlinks Hchoose Hhidden)
    as [tr [R [I1 I2]]].
  exists tr. repeat split; assumption || reflexivity.
Qed.

Lemma hidden_link_fails_in_outer_handler_witness :
  let r := Samples.row "health certificate" [Samples.hidden] in
  let p := Samples.page (Samples.site [r]) in
  exists tr,
    runs_to (test_single_download_link (sel := text_selectors) p
               Samples.url Samples.material Samples.element)
            (Ret (failed (MsgExecError AssertionError true))) tr
    /\ is_catch_all (MsgExecError AssertionError true) = true
    /\ In (Call (CallExpectVisible 5000)) tr
    /\ In (Call CallScreenshot) tr.
Proof.
  intros r p.
  destruct (@locate_target_row_runs text_selectors p (fun n => eq_refl)
              Samples.element (Samples.site [r]) Samples.material)
    as [tr0 [R0 _]].
  destruct (@choose_download_link_runs text_selectors p Samples.element r
              (fun n => eq_refl)) as [trc Rc].
  apply (@hidden_link_fails_in_outer_handler text_selectors p
           Samples.url Samples.material Samples.element 200 0 r
           Samples.hidden tr0 trc (fun n => eq_refl)).
  - reflexivity.
  - lia.
  - exact R0.
  - reflexivity.
  - discriminate.
  - exact Rc.
  - reflexivity.
Defined.

(** C6, as stated, fails: for a chosen anchor that is not visible the
    result carries the message of the outer handler, the one every
    unexpected exception ends in, and the handler was reached by
    unwinding (the error screenshot is in the trace). *)
Lemma hidden_link_result_is_catch_all :
  let r := Samples.row "health certificate" [Samples.hidden] in
  let run := test_single_download_link (sel := text_selectors)
               (Samples.page (Samples.site [r]))
               Samples.url Samples.material Samples.element in
  value_of run 0 = Ret (failed (MsgExecError AssertionError true))
  /\ is_catch_all (MsgExecError AssertionError true) = true
  /\ existsb (fun ev => match ev with
                        | Call CallScreenshot => true
                        | _ => false
                        end) (trace_of run 0) = true.
Proof. cbv zeta. repeat split; vm_compute; reflexivity. Qed.

(** ** The driver *)

(** The test case returns a tuple whatever the page does and whichever of
    its calls raise. *)
Lemma test_single_download_link_returns {sel : Selectors} (page : Page)
      (url material_name element_name : str) (t : nat) :
  exists res tr t',
    test_single_download_link page url material_name element_name t
    = (Ret res, tr, t').
Proof.
  unfold test_single_download_link, try_except, bind, attempt.
  destruct (test_body page url material_name element_name t) as [[r tr] t1].
  destruct r as [res | ex].
  - cbn. eauto.
  - unfold test_handler, bind, attempt, call.
    destruct (page_faults page t1); cbn; eauto.
Qed.

Lemma runs_to_env_call (c : ApiCall) :
  runs_to (env_call c None) (Ret tt) [Call c].
Proof. intros t. exists t. reflexivity. Qed.

Lemma runs_to_on_new_page A (m : M A) :
  runs_to (on_new_page m) (value_of m 0) (trace_of m 0).
Proof.
  intros t. exists t. unfold on_new_page, value_of, trace_of.
  destruct (m 0) as [[r tr] t1]. reflexivity.
Qed.

Lemma length_update_nth A (n : nat) (f : A -> A) (l : list A) :
  List.length (update_nth n f l) = List.length l.
Proof.
  revert n. induction l as [|x l IH]; intros [|n]; cbn; auto.
Qed.

Lemma nth_error_update_nth A (n m : nat) (f : A -> A) (l : list A) :
  nth_error (update_nth n f l) m
  = if n =? m then option_map f (nth_error l m) else nth_error l m.
Proof.
  revert n m. induction l as [|x l IH]; intros [|n] [|m]; cbn; auto.
  now destruct (n =? m).
Qed.

Lemma get_at_set_at (i j : nat) (c d : Column) (v : Cell) (df : DataFrame) :
  get_at j d (set_at i c v df)
  = if (i =? j) && column_eqb c d
    then option_map (fun _ => v) (get_at j d df)
    else get_at j d df.
Proof.
  unfold get_at, set_at. cbn [df_rows]. rewrite nth_error_update_nth.
  destruct (i =? j); cbn [andb]; [|reflexivity].
  destruct (nth_error (df_rows df) j) as [row|]; cbn.
  - unfold set_cell. now destruct (column_eqb c d).
  - now destruct (column_eqb c d).
Qed.

Lemma length_record_result (i : nat) (res : Result) (df : DataFrame) :
  List.length (df_rows (record_result i res df)) = List.length (df_rows df).
Proof. unfold record_result, set_at. cbn. now rewrite !length_update_nth. Qed.

Lemma get_at_record_result_other (i j : nat) (c : Column) (res : Result)
      (df : DataFrame) :
  i <> j -> get_at j c (record_result i res df) = get_at j c df.
Proof.
  intros H. apply Nat.eqb_neq in H.
  unfold record_result. rewrite !get_at_set_at, H. reflexivity.
Qed.

Lemma get_at_record_result_same (i : nat) (res : Result) (df : DataFrame) :
  i < List.length (df_rows df) ->
  get_at i ColResult (record_result i res df)
  = Some (CellOutcome (status res) (message res))
  /\ get_at i ColFormat (record_result i res df)
     = Some (CellText (file_type res)).
Proof.
  intros H. unfold record_result. rewrite !get_at_set_at, Nat.eqb_refl. cbn.
  unfold get_at. apply nth_error_Some in H.
  destruct (nth_error (df_rows df) i); [now split | contradiction].
Qed.

Section Batch.

Context {sel : Selectors}.
Variable w : World.
Hypothesis pages_open : forall i, new_page_fault w i = None.
Hypothesis pages_close : forall i, page_close_fault w i = None.

(** The loop goes through every test case and writes the tuple each one
    returns into its row. *)
Lemma run_cases_records (todo : list DataRow) :
  forall (index : nat) (df : DataFrame) (success_count : nat),
    index + List.length todo <= List.length (df_rows df) ->
    exists df' count' tr,
      runs_to (run_cases w index todo df success_count)
              (Ret (df', count')) tr
      /\ List.length (df_rows df') = List.length (df_rows df)
      /\ (forall j c, j < index -> get_at j c df' = get_at j c df)
      /\ (forall k row,
             nth_error todo k = Some row ->
             exists res,
               value_of (test_single_download_link
                           (page_of w (index + k))
                           (text_of (row ColUrl))
                           (text_of (row ColMaterial))
                           (text_of (row ColElement))) 0 = Ret res
               /\ get_at (index + k) ColResult df'
                  = Some (CellOutcome (status res) (message res))
               /\ get_at (index + k) ColFormat df'
                  = Some (CellText (file_type res))).
Proof.
  induction todo as [|row rest IH]; intros index df success_count Hlen.
  - exists df, success_count, []. split; [apply runs_to_ret|].
    split; [reflexivity|]. split; [reflexivity|].
    intros [|k] r E; discriminate E.
  - cbn [List.length] in Hlen. cbn [run_cases].
    set (run := test_single_download_link (page_of w index)
                  (text_of (row ColUrl)) (text_of (row ColMaterial))
                  (text_of (row ColElement))).
    destruct (test_single_download_link_returns (page_of w index)
                (text_of (row ColUrl)) (text_of (row ColMaterial))
                (text_of (row ColElement)) 0) as [res [tr0 [t0 E0]]].
    fold run in E0.
    assert (V0 : value_of run 0 = Ret res) by (unfold value_of; now rewrite E0).
    set (df1 := record_result index res df).
    set (count1 := match status res with
                   | Success => S success_count
                   | Failure => success_count
                   end).
    destruct (IH (S index) df1 count1) as [df' [count' [tr [R [L [Old New]]]]]].
    { unfold df1. rewrite length_record_result. lia. }
    exists df', count'. eexists. split; [|split; [|split]].
    + eapply runs_to_bind; [rewrite pages_open; apply runs_to_env_call|].
      eapply runs_to_bind.
      { apply runs_to_attempt_ret. rewrite <- V0. apply runs_to_on_new_page. }
      cbv beta iota.
      eapply runs_to_bind; [apply runs_to_ret|].
      eapply runs_to_bind; [rewrite pages_close; apply runs_to_env_call|].
      exact R.
    + rewrite L. apply length_record_result.
    + intros j c Hj. rewrite Old by lia.
      apply get_at_record_result_other. lia.
    + intros [|k] r E.
      * injection E as <-. rewrite Nat.add_0_r. exists res.
        split; [exact V0|].
        rewrite !Old by lia.
        apply get_at_record_result_same. lia.
      * cbn in E. destruct (New k r E) as [res' H].
        exists res'. now rewrite <- Nat.add_succ_comm.
Qed.

End Batch.

(** C7.  The test case never raises: for every page, every URL, material
    and element, and whichever calls fail, it returns a tuple.  The loop of
    the driver writes the status and message of that tuple into the row of
    the test case and goes on to the next one, so that every case of the
    batch is run and recorded. *)
Theorem failures_are_returned_and_recorded {sel : Selectors} :
  (forall (page : Page) (url material_name element_name : str) (t : nat),
      exists res tr t',
        test_single_download_link page url material_name element_name t
        = (Ret res, tr, t'))
  /\ (forall (w : World) (df : DataFrame),
         (forall i, new_page_fault w i = None) ->
         (forall i, page_close_fault w i = None) ->
         exists df' count' tr,
           runs_to (run_cases w 0 (df_rows df) df 0) (Ret (df', count')) tr
           /\ forall k row,
               nth_error (df_rows df) k = Some row ->
               exists res,
                 value_of (test_single_download_link
                             (page_of w k)
                             (text_of (row ColUrl))
                             (text_of (row ColMaterial))
                             (text_of (row ColElement))) 0 = Ret res
                 /\ get_at k ColResult df'
                    = Some (CellOutcome (status res) (message res))).
Proof.
  split.
  - intros. apply test_single_download_link_returns.
  - intros w df Hopen Hclose.
    destruct (run_cases_records w Hopen Hclose (df_rows df) 0 df 0 (le_n _))
      as [df' [count' [tr [R [_ [_ New]]]]]].
    exists df', count', tr. split; [exact R|].
    intros k row E. destruct (New k row E) as [res [V [G _]]].
    exists res. now split.
Qed.

Lemma failures_are_returned_and_recorded_witness :
  let df := Samples.sheet
              [Samples.case "https://example.test/a" "health certificate" "blank form";
               Samples.case "https://example.test/b" "licence" "sample form"] in
  let w := Samples.world df (Samples.site []) in
  exists df' count' tr,
    runs_to (run_cases (sel := text_selectors) w 0 (df_rows df) df 0)
            (Ret (df', count')) tr
    /\ forall k row,
        nth_error (df_rows df) k = Some row ->
        exists res,
          value_of (test_single_download_link (sel := text_selectors)
                      (page_of w k)
                      (text_of (row ColUrl))
                      (text_of (row ColMaterial))
                      (text_of (row ColElement))) 0 = Ret res
          /\ get_at k ColResult df'
             = Some (CellOutcome (status res) (message res)).
Proof.
  intros df w.
  apply (proj2 (@failures_are_returned_and_recorded text_selectors) w df);
    intros i; reflexivity.
Defined.

(** What stops a run before the browser: a missing input file, a
    spreadsheet that cannot be read, a required column that is missing.
    The trace then holds no browser call at all. *)
Lemma fatal_inputs_stop_before_browser {sel : Selectors} (w : World) :
  (input_exists w = false ->
   runs_to (main w) (Ret InputMissing) [Print LogInputMissing])
  /\ (input_exists w = true ->
      forall e, excel w = inl e ->
                runs_to (main w) (Ret (ReadFailed e))
                        [Call CallReadExcel; Print (LogReadFailed e)])
  /\ (input_exists w = true ->
      forall df c cs,
        excel w = inr df ->
        filter (fun col => negb (existsb (column_eqb col) (df_columns df)))
               required_columns = c :: cs ->
        runs_to (main w) (Ret (ColumnsMissing (c :: cs)))
                [Call CallReadExcel; Print LogMissingColumns]).
Proof.
  unfold main, run_batch_tests. repeat split.
  - intros -> t. exists t. reflexivity.
  - intros -> e E t. exists t. cbn [negb]. unfold bind, attempt.
    rewrite E. reflexivity.
  - intros -> df c cs E F t. exists t. cbn [negb]. unfold bind, attempt.
    rewrite E. cbv beta iota. rewrite F. reflexivity.
Qed.

(** C8: the run on a spreadsheet that has the required columns and no data
    row.  The input file exists and no column is missing, the browser is
    launched, and the division of the success count by a total of zero
    raises out of the run before anything is saved. *)
Theorem empty_dataset_aborts_run :
  let w := Samples.world (Samples.sheet []) (Samples.site []) in
  input_exists w = true
  /\ filter (fun col => negb (existsb (column_eqb col)
                                (df_columns (Samples.sheet []))))
            required_columns = []
  /\ value_of (main (sel := text_selectors) w) 0 = Raise ZeroDivisionError
  /\ trace_of (main (sel := text_selectors) w) 0
     = [Call CallReadExcel; Call CallLaunch; Call CallNewContext].
Proof. cbv zeta. repeat split; vm_compute; reflexivity. Qed.

(** ** Python strings: searching and slicing *)

Lemma char_eqb_refl (c : char) : char_eqb c c = true.
Proof. apply N.eqb_refl. Qed.

Lemma starts_with_app (p s : str) : starts_with p (p ++ s) = true.
Proof.
  induction p as [|c p IH]; cbn; [reflexivity|].
  now rewrite char_eqb_refl, IH.
Qed.

Lemma contains_here (needle hay : str) :
  starts_with needle hay = true -> contains needle hay = true.
Proof. intros H. destruct hay; cbn [contains]; now rewrite H. Qed.

Lemma contains_skipn (needle hay : str) (k : nat) :
  starts_with needle (skipn k hay) = true -> contains needle hay = true.
Proof.
  revert hay. induction k as [|k IH]; intros hay H.
  - now apply contains_here.
  - destruct hay as [|x hay]; [now apply contains_here|].
    cbn [contains]. cbn [skipn] in H. rewrite (IH hay H). apply orb_true_r.
Qed.

(** [find] yields the first offset at which the needle starts. *)
Lemma find_at_first (needle hay : str) (n : nat) (i : Z) :
  (forall k, k < n -> starts_with needle (skipn k hay) = false) ->
  starts_with needle (skipn n hay) = true ->
  find_at needle hay i = (i + Z.of_nat n)%Z.
Proof.
  revert hay i. induction n as [|n IH]; intros hay i Hbefore Hat.
  - cbn [skipn] in Hat. destruct hay; cbn [find_at]; rewrite Hat; lia.
  - pose proof (Hbefore 0 (Nat.lt_0_succ n)) as H0. cbn [skipn] in H0.
    destruct hay as [|x hay].
    + cbn [skipn] in Hat. congruence.
    + cbn [find_at]. rewrite H0. rewrite (IH hay (i + 1)%Z).
      * lia.
      * intros k Hk. apply (Hbefore (S k)). lia.
      * exact Hat.
Qed.

Lemma skipn_length_app X (a b : list X) : skipn (List.length a) (a ++ b) = b.
Proof. induction a; cbn; auto. Qed.

Lemma skipn_app_short X (k : nat) (a b : list X) :
  k <= List.length a -> skipn k (a ++ b) = skipn k a ++ b.
Proof.
  revert a. induction k as [|k IH]; intros a H; [reflexivity|].
  destruct a as [|x a]; cbn in H |- *; [lia|]. apply IH. lia.
Qed.

Lemma firstn_length_app X (a b : list X) : firstn (List.length a) (a ++ b) = a.
Proof. induction a; cbn; [reflexivity | now f_equal]. Qed.

(** [(a + b + c)[len(a) : len(a) + len(b)]] is [b]. *)
Lemma slice_middle (a b c : str) :
  slice (a ++ b ++ c) (Z.of_nat (List.length a))
        (Z.of_nat (List.length a) + Z.of_nat (List.length b)) = b.
Proof.
  unfold slice, clamp_index. rewrite !length_app.
  destruct (Z.ltb_spec (Z.of_nat (List.length a)) 0); [lia|].
  destruct (Z.ltb_spec (Z.of_nat (List.length a) + Z.of_nat (List.length b)) 0);
    [lia|].
  rewrite !Z.min_l by lia.
  replace (Z.to_nat (Z.of_nat (List.length a) + Z.of_nat (List.length b)
                     - Z.of_nat (List.length a))) with (List.length b) by lia.
  rewrite Nat2Z.id, skipn_length_app. apply firstn_length_app.
Qed.

Lemma starts_with_single (c x : char) (rest : str) :
  starts_with [c] (x :: rest) = char_eqb c x.
Proof. cbn. apply andb_true_r. Qed.

Lemma char_eqb_neq (c x : char) : x <> c -> char_eqb c x = false.
Proof. intros H. apply N.eqb_neq. congruence. Qed.

Lemma find_single_first (c : char) (pre rest : str) (i : Z) :
  ~ In c pre -> find_at [c] (pre ++ c :: rest) i = (i + Z.of_nat (List.length pre))%Z.
Proof.
  revert i. induction pre as [|x pre IH]; intros i H.
  - cbn [app find_at]. rewrite starts_with_single, char_eqb_refl. cbn. lia.
  - cbn [app find_at]. rewrite starts_with_single, char_eqb_neq.
    + rewrite IH; [cbn [List.length]; lia|]. intros Hin. apply H. now right.
    + intros ->. apply H. now left.
Qed.

Lemma rfind_single_none (c : char) (post : str) (i : Z) :
  ~ In c post -> rfind_at [c] post i = (-1)%Z.
Proof.
  revert i. induction post as [|x post IH]; intros i H; [reflexivity|].
  cbn [rfind_at]. rewrite IH by (intros Hin; apply H; now right).
  cbn [Z.eqb Pos.eqb]. rewrite starts_with_single, char_eqb_neq; [reflexivity|].
  intros ->. apply H. now left.
Qed.

Lemma rfind_single_last (c : char) (a post : str) (i : Z) :
  (0 <= i)%Z -> ~ In c post ->
  rfind_at [c] (a ++ c :: post) i = (i + Z.of_nat (List.length a))%Z.
Proof.
  revert i. induction a as [|x a IH]; intros i Hi H.
  - cbn [app rfind_at]. rewrite rfind_single_none by exact H.
    cbn [Z.eqb Pos.eqb]. rewrite starts_with_single, char_eqb_refl. cbn. lia.
  - cbn [app rfind_at]. rewrite IH by (lia || exact H).
    destruct (Z.eqb_spec (i + 1 + Z.of_nat (List.length a)) (-1)); [lia|].
    cbn [List.length]. lia.
Qed.

Lemma contains_single (c : char) (pre rest : str) :
  contains [c] (pre ++ c :: rest) = true.
Proof.
  apply (contains_skipn [c] (pre ++ c :: rest) (List.length pre)).
  rewrite skipn_length_app, starts_with_single. apply char_eqb_refl.
Qed.

(** ** The validation response *)

(** A fenced response: the text between the fence and the next three
    backquotes, stripped. *)
Lemma extract_json_fenced (pre body post : str) :
  let content := pre ++ lit "```json" ++ body ++ lit "```" ++ post in
  (forall k, k < List.length pre ->
             starts_with (lit "```json") (skipn k content) = false) ->
  (forall k, k < List.length body ->
             starts_with (lit "```") (skipn k (body ++ lit "```" ++ post)) = false) ->
  extract_json content = strip body.
Proof.
  intros content Hfirst Hnext.
  assert (Hat : starts_with (lit "```json") (skipn (List.length pre) content) = true).
  { unfold content. rewrite skipn_length_app. apply starts_with_app. }
  assert (Hfind : find (lit "```json") content = Z.of_nat (List.length pre)).
  { unfold find. now rewrite (find_at_first _ _ 0 Hfirst Hat). }
  assert (Hskip : skipn (List.length pre + 7) content = body ++ lit "```" ++ post).
  { unfold content. rewrite app_assoc.
    change (List.length pre + 7)
      with (List.length pre + List.length (lit "```json")).
    rewrite <- length_app. apply skipn_length_app. }
  unfold extract_json.
  rewrite (contains_skipn _ _ _ Hat). cbv zeta. rewrite Hfind.
  unfold find_from.
  replace (Z.to_nat (Z.of_nat (List.length pre) + 7)) with (List.length pre + 7)
    by lia.
  rewrite Hskip.
  rewrite (find_at_first (lit "```") (body ++ lit "```" ++ post)
             (n := List.length body) _ Hnext).
  2:{ rewrite skipn_length_app. apply starts_with_app. }
  f_equal.
  replace (Z.of_nat (List.length pre) + 7)%Z
    with (Z.of_nat (List.length (pre ++ lit "```json")))
    by (rewrite length_app; cbn [List.length lit list_ascii_of_string map]; lia).
  unfold content. rewrite app_assoc. apply slice_middle.
Qed.

(** No fence, both braces: from the first opening brace through the last
    closing one. *)
Lemma extract_json_braces (pre mid post : str) :
  let content := pre ++ [123%N] ++ mid ++ [125%N] ++ post in
  contains (lit "```json") content = false ->
  ~ In 123%N pre ->
  ~ In 125%N post ->
  extract_json content = [123%N] ++ mid ++ [125%N].
Proof.
  intros content Hfence Hpre Hpost.
  unfold extract_json. rewrite Hfence.
  change (lit "{") with [123%N]. change (lit "}") with [125%N].
  assert (Shape : content = (pre ++ [123%N] ++ mid) ++ 125%N :: post).
  { unfold content. rewrite <- !app_assoc. reflexivity. }
  assert (E1 : contains [123%N] content = true) by apply contains_single.
  assert (E2 : contains [125%N] content = true).
  { rewrite Shape. apply contains_single. }
  rewrite E1, E2. cbv zeta. cbn [andb].
  unfold find, rfind.
  assert (F : find_at [123%N] content 0 = Z.of_nat (List.length pre)).
  { unfold content. cbn [app]. now rewrite find_single_first. }
  assert (R : rfind_at [125%N] content 0
              = Z.of_nat (List.length (pre ++ [123%N] ++ mid))).
  { rewrite Shape. rewrite rfind_single_last by (lia || assumption). lia. }
  rewrite F, R.
  replace (Z.of_nat (List.length (pre ++ [123%N] ++ mid)) + 1)%Z
    with (Z.of_nat (List.length pre)
          + Z.of_nat (List.length ([123%N] ++ mid ++ [125%N])))%Z
    by (rewrite !length_app; cbn [List.length]; unfold str, char; lia).
  unfold content.
  replace (pre ++ [123%N] ++ mid ++ [125%N] ++ post)
    with (pre ++ ([123%N] ++ mid ++ [125%N]) ++ post)
    by (now rewrite <- !app_assoc).
  apply slice_middle.
Qed.

Lemma check_eqb_eq (c d : Check) : check_eqb c d = true <-> c = d.
Proof. destruct c, d; cbn; split; congruence. Qed.

Lemma check_eqb_refl (c : Check) : check_eqb c c = true.
Proof. now apply check_eqb_eq. Qed.

Lemma check_eqb_neq (c d : Check) : c <> d -> check_eqb c d = false.
Proof.
  intros H. destruct (check_eqb c d) eqn:E; [|reflexivity].
  apply check_eqb_eq in E. contradiction.
Qed.

(** One block on a parsed object: it never raises, it sets the check at
    hand as [check_updated] says, and it leaves the other checks alone. *)
Lemma update_check_object (fields : list (str * JSON)) (c : Check)
      (r : ValidationResult) :
  exists r',
    update_check (JObj fields) c r = inr r'
    /\ check_updated fields r r' c
    /\ forall d, d <> c -> verdict r' d = verdict r d /\ reason r' d = reason r d.
Proof.
  unfold update_check, check_updated, py_in, py_getitem, py_get.
  destruct (lookup (verdict_key c) fields) as [v|].
  - destruct (lookup (reason_key c) fields) as [why|];
      (eexists; split; [reflexivity|];
       cbn [verdict reason set_verdict set_reason];
       rewrite check_eqb_refl; split; [now split|];
       intros d Hd; rewrite check_eqb_neq by congruence; now split).
  - exists r. repeat split.
Qed.

Lemma update_checks_object (fields : list (str * JSON)) (cs : list Check) :
  NoDup cs ->
  forall r,
  exists r',
    update_checks (JObj fields) cs r = inr r'
    /\ (forall c, In c cs -> check_updated fields r r' c)
    /\ (forall c, ~ In c cs ->
                  verdict r' c = verdict r c /\ reason r' c = reason r c).
Proof.
  induction 1 as [|c0 rest Hnew Hnd IH]; intros r.
  - exists r. repeat split. intros c [].
  - destruct (update_check_object fields c0 r) as [r1 [E1 [U1 O1]]].
    destruct (IH r1) as [r' [E' [U' O']]].
    exists r'. cbn [update_checks]. rewrite E1. split; [exact E'|]. split.
    + intros c [<- | Hin].
      * destruct (O' c0 Hnew) as [Hv Hr].
        unfold check_updated in U1 |- *.
        destruct (lookup (verdict_key c0) fields); rewrite Hv, Hr; exact U1.
      * assert (Hne : c <> c0) by (intros ->; contradiction).
        destruct (O1 c Hne) as [Hv Hr].
        pose proof (U' c Hin) as U. unfold check_updated in U |- *.
        destruct (lookup (verdict_key c) fields); [exact U|].
        now rewrite <- Hv, <- Hr.
    + intros c Hc.
      assert (Hne : c <> c0) by (intros ->; apply Hc; now left).
      destruct (O1 c Hne) as [Hv Hr].
      destruct (O' c) as [Hv' Hr']; [intros Hin; apply Hc; now right|].
      split; congruence.
Qed.

Lemma all_checks_complete (c : Check) : In c all_checks.
Proof. destruct c; cbn; auto 10. Qed.

Lemma all_checks_nodup : NoDup all_checks.
Proof.
  unfold all_checks.
  repeat (constructor; [cbn; intuition discriminate|]). constructor.
Qed.

Lemma str_eqb_eq (s u : str) : PyStr.eqb s u = true <-> s = u.
Proof.
  revert u. induction s as [|c s IH]; intros [|d u]; cbn;
    try (split; [discriminate | discriminate]); [tauto|].
  rewrite andb_true_iff. unfold char_eqb. rewrite N.eqb_eq, IH.
  split; [intros [-> ->]; reflexivity | intros E; now injection E].
Qed.

Lemma lookup_absent (key : str) (fields : list (str * JSON)) :
  (forall v, ~ In (key, v) fields) -> lookup key fields = None.
Proof.
  induction fields as [|[k w] rest IH]; intros H; [reflexivity|].
  cbn. destruct (PyStr.eqb k key) eqn:E.
  - apply str_eqb_eq in E. subst k. exfalso. apply (H w). now left.
  - apply IH. intros v Hv. apply (H v). now right.
Qed.

(** In an object, whose keys are distinct, a key is bound to the value
    stored with it. *)
Lemma lookup_present (key : str) (v : JSON) (fields : list (str * JSON)) :
  NoDup (map fst fields) -> In (key, v) fields -> lookup key fields = Some v.
Proof.
  induction fields as [|[k w] rest IH]; intros Hnd Hin; [contradiction|].
  cbn in Hnd |- *. inversion Hnd as [|? ? Hnew Hrest]; subst.
  destruct Hin as [E | Hin].
  - injection E as -> ->.
    assert (R : PyStr.eqb key key = true) by now apply str_eqb_eq.
    now rewrite R.
  - destruct (PyStr.eqb k key) eqn:E.
    + apply str_eqb_eq in E. subst k. exfalso. apply Hnew.
      change key with (fst (key, v)). now apply in_map.
    + now apply IH.
Qed.

Lemma below_forallb (n : nat) (f : nat -> bool) :
  forallb (fun k => negb (f k)) (seq 0 n) = true ->
  forall k, k < n -> f k = false.
Proof.
  intros H k Hk. rewrite forallb_forall in H.
  specialize (H k). rewrite in_seq in H.
  apply negb_true_iff, H. lia.
Qed.

(** C9 (amended).  The text handed to the JSON parser is: for a response
    with a fence that is closed by three later backquotes, the text between
    the fence and those backquotes, stripped of surrounding white space;
    with no fence and an opening brace before the last closing brace, the
    text from the first opening brace through the last closing brace; with
    no fence and a brace missing, the whole response.  When that text
    parses to an object, each check whose verdict key the object holds
    takes its verdict from the object, and its reason too: the value stored
    under its reason key, or the empty string when the object has no such
    key.  Every other check is left as it was. *)
Theorem parse_extracts_embedded_json (json_loads : str -> Exn + JSON)
        (result : ValidationResult) :
  (forall pre body post,
      (forall k, k < List.length pre ->
                 starts_with (lit "```json")
                   (skipn k (pre ++ lit "```json" ++ body ++ lit "```" ++ post))
                 = false) ->
      (forall k, k < List.length body ->
                 starts_with (lit "```") (skipn k (body ++ lit "```" ++ post))
                 = false) ->
      extract_json (pre ++ lit "```json" ++ body ++ lit "```" ++ post)
      = strip body)
  /\ (forall pre mid post,
         contains (lit "```json") (pre ++ lit "{" ++ mid ++ lit "}" ++ post)
         = false ->
         ~ In 123%N pre ->
         ~ In 125%N post ->
         extract_json (pre ++ lit "{" ++ mid ++ lit "}" ++ post)
         = lit "{" ++ mid ++ lit "}")
  /\ (forall content,
         contains (lit "```json") content = false ->
         contains (lit "{") content = false
         \/ contains (lit "}") content = false ->
         extract_json content = content)
  /\ (forall content fields,
         json_loads (extract_json content) = inr (JObj fields) ->
         NoDup (map fst fields) ->
         forall c,
           let after := _parse_validation_response json_loads result content in
           (forall v, In (verdict_key c, v) fields -> verdict after c = v)
           /\ (forall v why,
                  In (verdict_key c, v) fields ->
                  In (reason_key c, why) fields ->
                  reason after c = ReasonValue why)
           /\ (forall v,
                  In (verdict_key c, v) fields ->
                  (forall why, ~ In (reason_key c, why) fields) ->
                  reason after c = ReasonValue (JStr []))
           /\ ((forall v, ~ In (verdict_key c, v) fields) ->
               verdict after c = verdict result c
               /\ reason after c = reason result c)).
Proof.
  split; [|split; [|split]].
  - intros pre body post. apply extract_json_fenced.
  - intros pre mid post. apply extract_json_braces.
  - intros content Hfence Hbrace. unfold extract_json. rewrite Hfence.
    destruct Hbrace as [-> | ->]; [reflexivity|]. now rewrite andb_false_r.
  - intros content fields Hparse Hnd c after.
    assert (U : check_updated fields result after c).
    { unfold after, _parse_validation_response. rewrite Hparse.
      destruct (update_checks_object fields all_checks_nodup result)
        as [r' [E [U _]]].
      rewrite E. apply U, all_checks_complete. }
    unfold check_updated in U.
    split; [|split; [|split]].
    + intros v Hv. rewrite (@lookup_present _ _ _ Hnd Hv) in U. apply U.
    + intros v why Hv Hwhy.
      rewrite (@lookup_present _ _ _ Hnd Hv), (@lookup_present _ _ _ Hnd Hwhy) in U.
      apply U.
    + intros v Hv Hnone.
      rewrite (@lookup_present _ _ _ Hnd Hv), (@lookup_absent _ _ Hnone) in U.
      apply U.
    + intros Hnone. rewrite (@lookup_absent _ _ Hnone) in U. exact U.
Qed.

Lemma parse_extracts_embedded_json_witness :
  let content := lit "Verdict: " ++ lit "```json"
                 ++ (lit " " ++ ValidatorSamples.reasoned_text ++ lit " ")
                 ++ lit "```" ++ lit " end" in
  let after := _parse_validation_response ValidatorSamples.loads_reasoned
                 ValidatorSamples.judged content in
  extract_json content = ValidatorSamples.reasoned_text
  /\ verdict after forms_consistent = JBool false
  /\ reason after forms_consistent = ReasonValue (JStr (lit "fields differ"))
  /\ verdict after blank_form_empty = JBool true
  /\ reason after blank_form_empty = ReasonValue (JStr (lit "no entries")).
Proof.
  intros content after.
  pose proof (parse_extracts_embedded_json ValidatorSamples.loads_reasoned
                ValidatorSamples.judged) as [Fenced [_ [_ Parsed]]].
  assert (E : extract_json content = ValidatorSamples.reasoned_text).
  { unfold content. rewrite Fenced; [reflexivity | |].
    - apply below_forallb. reflexivity.
    - apply below_forallb. reflexivity. }
  assert (L : ValidatorSamples.loads_reasoned (extract_json content)
              = inr (JObj [(lit "forms_consistent", JBool false);
                           (lit "forms_consistent_reason",
                            JStr (lit "fields differ"))])).
  { rewrite E. reflexivity. }
  assert (Hnd : NoDup (map fst [(lit "forms_consistent", JBool false);
                                (lit "forms_consistent_reason",
                                 JStr (lit "fields differ"))])).
  { constructor; [|constructor; [intros []|constructor]].
    intros [H | []]. vm_compute in H. discriminate H. }
  split; [exact E|].
  destruct (Parsed content _ L Hnd forms_consistent) as [Hv [Hr _]].
  destruct (Parsed content _ L Hnd blank_form_empty) as [_ [_ [_ Hkeep]]].
  split; [|split].
  - apply Hv. now left.
  - apply (Hr (JBool false)); [now left | right; now left].
  - apply Hkeep. intros v [H | [H | []]]; vm_compute in H; discriminate H.
Defined.

(** C9, as stated, fails: the fenced text is taken without its surrounding
    white space; a fence that is never closed loses the last character of
    the response; and a check whose verdict key is in the object has its
    reason overwritten with the empty string although the object holds no
    reason key for it. *)
Lemma fenced_text_stripped_and_reason_reset :
  let after := _parse_validation_response Samples.loads
                 ValidatorSamples.judged Samples.verdict_text in
  extract_json (lit "```json {} ```") = lit "{}"
  /\ extract_json (lit "```json{}") = lit "{"
  /\ Samples.loads (extract_json Samples.verdict_text)
     = inr (JObj [(lit "forms_consistent", JBool true)])
  /\ reason ValidatorSamples.judged forms_consistent
     = ReasonValue (JStr (lit "layouts agree"))
  /\ reason after forms_consistent = ReasonValue (JStr []).
Proof. cbv zeta. repeat split; vm_compute; reflexivity. Qed.

(** A fence that is never closed: [find] yields [-1] and the slice stops
    before the last character of the response. *)
Example extract_json_unclosed_fence :
  extract_json (lit "```json{}") = lit "{".
Proof. reflexivity. Qed.

(* ================================================================== *)
(** * Further properties of the test case *)

Section TestCaseOutcomes.

Context {sel : Selectors}.
Variable page : Page.
Hypothesis page_quiet : quiet page.
Variables url material_name element_name : str.

(** Navigation that does not end in an ok response stops the test case at
    once: the status code (or its absence) is reported and no other call is
    made on the page. *)
Lemma test_case_no_response :
  site_nav (page_web page url) = NavNoResponse ->
  runs_to (test_single_download_link page url material_name element_name)
          (Ret (failed (MsgPageAccessFailed None)))
          [Call (CallGoto url 60000)].
Proof.
  intros Hnav. unfold test_single_download_link.
  apply runs_to_try_except_ret. unfold test_body. cbv zeta. rewrite Hnav.
  rewrite <- (app_nil_r [Call (CallGoto url 60000)]).
  eapply runs_to_bind; [now apply runs_to_call|]. apply runs_to_ret.
Qed.

Lemma test_case_bad_status (s : Z) :
  site_nav (page_web page url) = NavResponse s ->
  (s < 200 \/ 299 < s)%Z ->
  runs_to (test_single_download_link page url material_name element_name)
          (Ret (failed (MsgPageAccessFailed (Some s))))
          [Call (CallGoto url 60000)].
Proof.
  intros Hnav Hs. unfold test_single_download_link.
  apply runs_to_try_except_ret. unfold test_body. cbv zeta. rewrite Hnav.
  rewrite <- (app_nil_r [Call (CallGoto url 60000)]).
  eapply runs_to_bind; [now apply runs_to_call|]. cbv beta iota.
  assert (E : negb ((200 <=? s) && (s <=? 299))%Z = true).
  { apply negb_true_iff, andb_false_iff.
    destruct Hs; [left | right]; apply Z.leb_gt; lia. }
  rewrite E. apply runs_to_ret.
Qed.

Lemma test_case_navigation_raises (e : Exn) :
  site_nav (page_web page url) = NavRaises e ->
  runs_to (test_single_download_link page url material_name element_name)
          (Ret (failed (MsgExecError e true)))
          [Call (CallGoto url 60000); Call CallScreenshot].
Proof.
  intros Hnav. unfold test_single_download_link.
  change [Call (CallGoto url 60000); Call CallScreenshot]
    with ([Call (CallGoto url 60000)] ++ [Call CallScreenshot]).
  eapply runs_to_try_except_raise; [|now apply handler_runs].
  unfold test_body. cbv zeta. rewrite Hnav.
  apply runs_to_bind_raise. now apply runs_to_call.
Qed.

Variable s : Z.
Hypothesis nav_ok : site_nav (page_web page url) = NavResponse s.
Hypothesis status_ok : (200 <= s <= 299)%Z.
Variables (i : nat) (row : Row) (tr0 : list Event).
Hypothesis located :
  runs_to (locate_target_row page (page_web page url)
             material_name element_name) (Ret (Some (i, row))) tr0.

(** The test case up to the visibility check of the located row. *)
Lemma test_body_reaches_row (v : Outcome Result) (trk : list Event) :
  runs_to
    (row_seen <- attempt (expect_to_be_visible page [row_visible row] 10000) ;;
     match row_seen with
     | inl e => ret (failed (MsgRowNotVisible e))
     | inr _ =>
         link_count <- loc_count page (links_of element_name row) ;;
         if link_count =? 0
         then ret (failed (MsgLinkNotInRow element_name))
         else
           download_link <- choose_download_link page element_name
                              row link_count ;;
           expect_to_be_visible page (map a_visible download_link) 5000 ;;
           _href <- get_attribute page download_link AttrHref ;;
           _onclick <- get_attribute page download_link AttrOnclick ;;
           target <- get_attribute page download_link AttrTarget ;;
           try_except
             (suggested <- trigger_download page download_link target ;;
              ret {| status := Success;
                     message := MsgDownloadDone;
                     details := Some suggested;
                     file_type := file_type_of suggested |})
             (fun e =>
                print (LogDownloadFailed e) ;;
                ret (failed (MsgDownloadNotTriggered e)))
     end) v trk ->
  exists pre,
    runs_to (test_body page url material_name element_name) v (pre ++ trk).
Proof.
  intros Htail.
  destruct (wait_idle_runs page_quiet 15000
              (if site_idle (page_web page url)
               then Ret tt else Raise TimeoutError)) as [trw Hw].
  exists ([Call (CallGoto url 60000)] ++ trw ++ tr0).
  unfold test_body. cbv zeta. rewrite <- !app_assoc.
  eapply runs_to_bind; [eapply goto_runs; eassumption|]. cbv beta iota.
  rewrite (status_test status_ok).
  eapply runs_to_bind; [exact Hw|].
  eapply runs_to_bind; [exact located|]. exact Htail.
Qed.

(** A located row that is not visible ends the test case with the message
    of its own, returned from the handler of that check. *)
Lemma test_case_row_not_visible :
  row_visible row = false ->
  exists pre,
    runs_to (test_single_download_link page url material_name element_name)
            (Ret (failed (MsgRowNotVisible AssertionError)))
            (pre ++ [Call (CallExpectVisible 10000)]).
Proof.
  intros Hrow.
  destruct (@test_body_reaches_row
              (Ret (failed (MsgRowNotVisible AssertionError)))
              [Call (CallExpectVisible 10000)]) as [pre R].
  { rewrite <- (app_nil_r [Call (CallExpectVisible 10000)]).
    eapply runs_to_bind.
    - apply runs_to_attempt_raise. unfold expect_to_be_visible. rewrite Hrow.
      now apply runs_to_call.
    - apply runs_to_ret. }
  exists pre. unfold test_single_download_link.
  now apply runs_to_try_except_ret.
Qed.

Hypothesis row_shown : row_visible row = true.
Hypothesis row_has_links : links_of element_name row <> [].
Variables (chosen : list Anchor) (trc : list Event).
Hypothesis choice :
  runs_to (choose_download_link page element_name row
             (List.length (links_of element_name row))) (Ret chosen) trc.

(** The test case up to the visibility check of the chosen link. *)
Lemma test_body_reaches_link (v : Outcome Result) (trk : list Event) :
  runs_to
    (expect_to_be_visible page (map a_visible chosen) 5000 ;;
     _href <- get_attribute page chosen AttrHref ;;
     _onclick <- get_attribute page chosen AttrOnclick ;;
     target <- get_attribute page chosen AttrTarget ;;
     try_except
       (suggested <- trigger_download page chosen target ;;
        ret {| status := Success;
               message := MsgDownloadDone;
               details := Some suggested;
               file_type := file_type_of suggested |})
       (fun e =>
          print (LogDownloadFailed e) ;;
          ret (failed (MsgDownloadNotTriggered e)))) v trk ->
  exists pre,
    runs_to (test_body page url material_name element_name) v (pre ++ trk).
Proof.
  intros Htail.
  assert (Hcount : (List.length (links_of element_name row) =? 0) = false).
  { destruct (links_of element_name row); [contradiction | reflexivity]. }
  destruct (@test_body_reaches_row v
              ([Call (CallExpectVisible 10000)] ++ [Call CallCount] ++ trc ++ trk))
    as [pre R].
  { eapply runs_to_bind.
    - apply runs_to_attempt_ret. unfold expect_to_be_visible. rewrite row_shown.
      now apply runs_to_call.
    - cbv beta iota.
      eapply runs_to_bind; [now apply runs_to_count|]. rewrite Hcount.
      eapply runs_to_bind; [exact choice | exact Htail]. }
  exists (pre ++ [Call (CallExpectVisible 10000)] ++ [Call CallCount] ++ trc).
  rewrite <- !app_assoc. exact R.
Qed.

(** More than one anchor in the chosen link: the visibility assertion is
    refused as ambiguous and the outer handler builds the result. *)
Lemma test_case_ambiguous_link (a1 a2 : Anchor) (rest : list Anchor) :
  chosen = a1 :: a2 :: rest ->
  exists tr,
    runs_to (test_single_download_link page url material_name element_name)
            (Ret (failed (MsgExecError StrictModeViolation true))) tr.
Proof.
  intros Hchosen.
  destruct (@test_body_reaches_link (Raise StrictModeViolation)
              [Call (CallExpectVisible 5000)]) as [pre R].
  { apply runs_to_bind_raise. unfold expect_to_be_visible.
    rewrite Hchosen. cbn [map].
    destruct (a_visible a1); now apply runs_to_call. }
  eexists. unfold test_single_download_link.
  eapply runs_to_try_except_raise; [exact R | now apply handler_runs].
Qed.

Variable a : Anchor.
Hypothesis single : chosen = [a].
Hypothesis link_shown : a_visible a = true.

(** The test case up to the click, for a single visible anchor. *)
Lemma test_body_reaches_click (res : Result) (trk : list Event) :
  runs_to
    (try_except
       (suggested <- trigger_download page [a] (a_target a) ;;
        ret {| status := Success;
               message := MsgDownloadDone;
               details := Some suggested;
               file_type := file_type_of suggested |})
       (fun e =>
          print (LogDownloadFailed e) ;;
          ret (failed (MsgDownloadNotTriggered e)))) (Ret res) trk ->
  exists pre,
    runs_to (test_single_download_link page url material_name element_name)
            (Ret res) (pre ++ trk).
Proof.
  intros Htail.
  destruct (@test_body_reaches_link (Ret res)
              ([Call (CallExpectVisible 5000)]
                 ++ [Call (CallGetAttribute AttrHref)]
                 ++ [Call (CallGetAttribute AttrOnclick)]
                 ++ [Call (CallGetAttribute AttrTarget)] ++ trk)) as [pre R].
  { rewrite single. cbn [map]. rewrite link_shown.
    eapply runs_to_bind;
      [unfold expect_to_be_visible; now apply runs_to_call|].
    eapply runs_to_bind; [now apply runs_to_get_attribute|].
    eapply runs_to_bind; [now apply runs_to_get_attribute|].
    eapply runs_to_bind; [now apply runs_to_get_attribute|].
    exact Htail. }
  exists (pre ++ [Call (CallExpectVisible 5000)]
              ++ [Call (CallGetAttribute AttrHref)]
              ++ [Call (CallGetAttribute AttrOnclick)]
              ++ [Call (CallGetAttribute AttrTarget)]).
  rewrite <- !app_assoc. unfold test_single_download_link.
  apply runs_to_try_except_ret. exact R.
Qed.


(** A click after which no download starts on the page. *)
Lemma test_case_no_download :
  is_blank (a_target a) = false ->
  (forall f, a_click a <> StartsDownload f) ->
  exists pre,
    runs_to (test_single_download_link page url material_name element_name)
            (Ret (failed (MsgDownloadNotTriggered TimeoutError)))
            (pre ++ [Call CallClick; Call (CallDownloadValue 10000);
                     Print (LogDownloadFailed TimeoutError)]).
Proof.
  intros Hblank Hclick. apply test_body_reaches_click.
  change [Call CallClick; Call (CallDownloadValue 10000);
          Print (LogDownloadFailed TimeoutError)]
    with (([Call CallClick] ++ [Call (CallDownloadValue 10000)])
            ++ [Print (LogDownloadFailed TimeoutError)] ++ []).
  eapply runs_to_try_except_raise.
  - apply runs_to_bind_raise. unfold trigger_download. rewrite Hblank.
    apply runs_to_bind_raise.
    eapply runs_to_bind.
    + unfold click. cbn [the_element]. now apply runs_to_call.
    + destruct (a_click a) as [| f |d] eqn:E;
        [| exfalso; now apply (Hclick f) |]; now apply runs_to_call.
  - eapply runs_to_bind; [apply runs_to_print | apply runs_to_ret].
Qed.


End TestCaseOutcomes.

(** X1.  Navigation that fails ends the test case at once.  With no
    response, or a response whose status is outside 200..299, the result
    reports the status and the only call made on the page is the
    navigation; when the navigation raises, the outer handler reports the
    exception after the error screenshot. *)
Theorem navigation_failure_is_reported {sel : Selectors} (page : Page)
        (url material_name element_name : str) :
  quiet page ->
  match site_nav (page_web page url) with
  | NavNoResponse =>
      runs_to (test_single_download_link page url material_name element_name)
              (Ret (failed (MsgPageAccessFailed None)))
              [Call (CallGoto url 60000)]
  | NavResponse s =>
      (s < 200 \/ 299 < s)%Z ->
      runs_to (test_single_download_link page url material_name element_name)
              (Ret (failed (MsgPageAccessFailed (Some s))))
              [Call (CallGoto url 60000)]
  | NavRaises e =>
      runs_to (test_single_download_link page url material_name element_name)
              (Ret (failed (MsgExecError e true)))
              [Call (CallGoto url 60000); Call CallScreenshot]
  end.
Proof.
  intros Q. destruct (site_nav (page_web page url)) as [e | | s] eqn:Hnav.
  - now apply test_case_navigation_raises.
  - now apply test_case_no_response.
  - intros Hs. now apply test_case_bad_status.
Qed.

Lemma navigation_failure_is_reported_witness :
  let p := Samples.page {| site_nav := NavResponse 404;
                           site_idle := true;
                           site_rows := [] |} in
  runs_to (test_single_download_link (sel := text_selectors) p
             Samples.url Samples.material Samples.element)
          (Ret (failed (MsgPageAccessFailed (Some 404%Z))))
          [Call (CallGoto Samples.url 60000)].
Proof.
  intros p.
  apply (@navigation_failure_is_reported text_selectors p
           Samples.url Samples.material Samples.element (fun n => eq_refl)).
  right. lia.
Defined.

(** X2.  When the row the passes settle on is not visible, the test case
    returns the message of that check (with the assertion error), straight
    after the 10000 ms assertion: the outer handler is not involved and no
    link of the row is looked at. *)
Theorem row_not_visible_is_reported {sel : Selectors} (page : Page)
        (url material_name element_name : str) (s : Z)
        (i : nat) (row : Row) (tr0 : list Event) :
  quiet page ->
  site_nav (page_web page url) = NavResponse s ->
  (200 <= s <= 299)%Z ->
  runs_to (locate_target_row page (page_web page url)
             material_name element_name) (Ret (Some (i, row))) tr0 ->
  row_visible row = false ->
  exists pre,
    runs_to (test_single_download_link page url material_name element_name)
            (Ret (failed (MsgRowNotVisible AssertionError)))
            (pre ++ [Call (CallExpectVisible 10000)]).
Proof. intros. eapply test_case_row_not_visible; eassumption. Qed.


(** X4.  The same link, when its click starts no download on the page: the
    wait for the download times out inside the inner handler, which returns
    the not-triggered message; nothing is saved and the outer handler (with
    its screenshot) is not reached. *)
Theorem missing_download_is_reported {sel : Selectors} (page : Page)
        (url material_name element_name : str) (s : Z)
        (i : nat) (row : Row) (a : Anchor) (tr0 trc : list Event) :
  quiet page ->
  site_nav (page_web page url) = NavResponse s ->
  (200 <= s <= 299)%Z ->
  runs_to (locate_target_row page (page_web page url)
             material_name element_name) (Ret (Some (i, row))) tr0 ->
  row_visible row = true ->
  links_of element_name row <> [] ->
  runs_to (choose_download_link page element_name row
             (List.length (links_of element_name row))) (Ret [a]) trc ->
  a_visible a = true ->
  is_blank (a_target a) = false ->
  (forall f, a_click a <> StartsDownload f) ->
  exists pre,
    runs_to (test_single_download_link page url material_name element_name)
            (Ret (failed (MsgDownloadNotTriggered TimeoutError)))
            (pre ++ [Call CallClick; Call (CallDownloadValue 10000);
                     Print (LogDownloadFailed TimeoutError)]).
Proof. intros. eapply test_case_no_download; eauto. Qed.


(** X6.  When two or more anchors of the located row match the link text
    and carry the class kbbg, the link chosen is all of them; the assertion
    on it is refused as ambiguous and the test case fails through the outer
    handler. *)
Theorem ambiguous_marked_links_fail {sel : Selectors} (page : Page)
        (url material_name element_name : str) (s : Z)
        (i : nat) (row : Row) (a1 a2 : Anchor) (rest : list Anchor)
        (tr0 : list Event) :
  quiet page ->
  site_nav (page_web page url) = NavResponse s ->
  (200 <= s <= 299)%Z ->
  runs_to (locate_target_row page (page_web page url)
             material_name element_name) (Ret (Some (i, row))) tr0 ->
  row_visible row = true ->
  filter (anchor_class (lit "kbbg")) (links_of element_name row)
  = a1 :: a2 :: rest ->
  exists tr,
    runs_to (test_single_download_link page url material_name element_name)
            (Ret (failed (MsgExecError StrictModeViolation true))) tr.
Proof.
  intros Q Hnav Hs Hloc Hrow Hmarked.
  pose proof (filter_length_le (anchor_class (lit "kbbg"))
                (links_of element_name row)) as Hlen.
  rewrite Hmarked in Hlen. cbn [List.length] in Hlen.
  destruct (choose_download_link_runs element_name row Q) as [trc Rc].
  cbv zeta in Rc. rewrite Hmarked in Rc.
  replace (1 <? List.length (links_of element_name row)) with true in Rc
    by (symmetry; apply Nat.ltb_lt; lia).
  eapply test_case_ambiguous_link; eauto.
  intros E. rewrite E in Hlen. cbn in Hlen. lia.
Qed.

Lemma row_not_visible_is_reported_witness :
  let p := Samples.page (Samples.site [MoreSamples.hidden_row]) in
  exists pre,
    runs_to (test_single_download_link (sel := text_selectors) p
               Samples.url Samples.material Samples.element)
            (Ret (failed (MsgRowNotVisible AssertionError)))
            (pre ++ [Call (CallExpectVisible 10000)]).
Proof.
  intros p.
  destruct (@locate_target_row_runs text_selectors p (fun n => eq_refl)
              Samples.element (Samples.site [MoreSamples.hidden_row])
              Samples.material) as [tr0 [R0 _]].
  apply (@row_not_visible_is_reported text_selectors p
           Samples.url Samples.material Samples.element 200 0
           MoreSamples.hidden_row tr0 (fun n => eq_refl)).
  - reflexivity.
  - lia.
  - exact R0.
  - reflexivity.
Defined.


Lemma missing_download_is_reported_witness :
  let r := Samples.row "health certificate" [MoreSamples.dead_link] in
  let p := Samples.page (Samples.site [r]) in
  exists pre,
    runs_to (test_single_download_link (sel := text_selectors) p
               Samples.url Samples.material Samples.element)
            (Ret (failed (MsgDownloadNotTriggered TimeoutError)))
            (pre ++ [Call CallClick; Call (CallDownloadValue 10000);
                     Print (LogDownloadFailed TimeoutError)]).
Proof.
  intros r p.
  destruct (@locate_target_row_runs text_selectors p (fun n => eq_refl)
              Samples.element (Samples.site [r]) Samples.material)
    as [tr0 [R0 _]].
  destruct (@choose_download_link_runs text_selectors p Samples.element r
              (fun n => eq_refl)) as [trc Rc].
  apply (@missing_download_is_reported text_selectors p
           Samples.url Samples.material Samples.element 200 0 r
           MoreSamples.dead_link tr0 trc (fun n => eq_refl)).
  - reflexivity.
  - lia.
  - exact R0.
  - reflexivity.
  - discriminate.
  - exact Rc.
  - reflexivity.
  - reflexivity.
  - intros f E. discriminate E.
Defined.


Lemma ambiguous_marked_links_fail_witness :
  let r := Samples.row "health certificate"
             [Samples.marked; Samples.bare; Samples.marked] in
  let p := Samples.page (Samples.site [r]) in
  exists tr,
    runs_to (test_single_download_link (sel := text_selectors) p
               Samples.url Samples.material Samples.element)
            (Ret (failed (MsgExecError StrictModeViolation true))) tr.
Proof.
  intros r p.
  destruct (@locate_target_row_runs text_selectors p (fun n => eq_refl)
              Samples.element (Samples.site [r]) Samples.material)
    as [tr0 [R0 _]].
  apply (@ambiguous_marked_links_fail text_selectors p
           Samples.url Samples.material Samples.element 200 0 r
           Samples.marked Samples.marked [] tr0 (fun n => eq_refl)).
  - reflexivity.
  - lia.
  - exact R0.
  - reflexivity.
  - reflexivity.
Defined.

(** ** Every way a run can go *)

Lemma ensures_ret A (a : A) (P : Outcome A -> list Event -> Prop) :
  P (Ret a) [] -> ensures (ret a) P.
Proof. intros H t. exact H. Qed.

Lemma ensures_weaken A (m : M A) (P Q : Outcome A -> list Event -> Prop) :
  ensures m P -> (forall r tr, P r tr -> Q r tr) -> ensures m Q.
Proof. intros H W t. apply W, H. Qed.

Lemma ensures_any A (m : M A) (P : Outcome A -> list Event -> Prop) :
  (forall r tr, P r tr) -> ensures m P.
Proof. intros H t. apply H. Qed.

Lemma ensures_bind A B (m : M A) (k : A -> M B)
      (Q : Outcome A -> list Event -> Prop)
      (P : Outcome B -> list Event -> Prop) :
  ensures m Q ->
  (forall e tr, Q (Raise e) tr -> P (Raise e) tr) ->
  (forall a tr1, Q (Ret a) tr1 ->
                 ensures (k a) (fun r tr2 => P r (tr1 ++ tr2))) ->
  ensures (bind m k) P.
Proof.
  intros Hm Hraise Hk t. specialize (Hm t).
  unfold value_of, trace_of, bind in *.
  destruct (m t) as [[r tr] t1]. cbn in Hm. destruct r as [a | e].
  - specialize (Hk a tr Hm t1). unfold value_of, trace_of in Hk.
    destruct (k a t1) as [[r' tr'] t2]. exact Hk.
  - cbn. now apply Hraise.
Qed.

Lemma ensures_attempt A (m : M A) (P : Outcome (Exn + A) -> list Event -> Prop) :
  ensures m (fun r tr => P (Ret match r with
                                | Ret a => inr a
                                | Raise e => inl e
                                end) tr) ->
  ensures (attempt m) P.
Proof.
  intros Hm t. specialize (Hm t). unfold value_of, trace_of, attempt in *.
  destruct (m t) as [[r tr] t1]. now destruct r.
Qed.

Lemma ensures_try_except A (m : M A) (h : Exn -> M A)
      (Q P : Outcome A -> list Event -> Prop) :
  ensures m Q ->
  (forall a tr, Q (Ret a) tr -> P (Ret a) tr) ->
  (forall e tr1, Q (Raise e) tr1 ->
                 ensures (h e) (fun r tr2 => P r (tr1 ++ tr2))) ->
  ensures (try_except m h) P.
Proof.
  intros Hm Hret Hh. unfold try_except.
  eapply ensures_bind with
    (Q := fun r tr => match r with
                      | Ret (inr a) => Q (Ret a) tr
                      | Ret (inl e) => Q (Raise e) tr
                      | Raise _ => False
                      end).
  - apply ensures_attempt. eapply ensures_weaken; [exact Hm|].
    intros [a | e] tr H; exact H.
  - intros e tr [].
  - intros [e | a] tr1 H.
    + now apply Hh.
    + apply ensures_ret. rewrite app_nil_r. now apply Hret.
Qed.

Lemma ensures_call A (page : Page) (c : ApiCall) (r : Outcome A)
      (P : Outcome A -> list Event -> Prop) :
  (forall e, P (Raise e) [Call c]) -> P r [Call c] ->
  ensures (call page c r) P.
Proof.
  intros Hraise Hr t. unfold value_of, trace_of, call.
  destruct (page_faults page t); cbn; auto.
Qed.

Lemma ensures_print (l : LogLine) (P : Outcome unit -> list Event -> Prop) :
  P (Ret tt) [Print l] -> ensures (print l) P.
Proof. intros H t. exact H. Qed.

(** ** The located row is a candidate with a matching anchor *)

Section LocatedRow.

Context {sel : Selectors}.
Variable page : Page.
Variable element_name : str.

Lemma strict_row_accepts_rows_with_link (row : Row) (i : nat) :
  ensures (strict_row page element_name row i)
          (fun r _ => r = Ret true -> has_link element_name row = true).
Proof.
  unfold strict_row.
  eapply ensures_bind with
    (Q := fun r _ => forall n, r = Ret n ->
                               n = List.length (links_of element_name row)).
  - apply ensures_call; [discriminate|]. intros n E. now injection E.
  - discriminate.
  - intros n ? Hn. rewrite (Hn n eq_refl). unfold has_link.
    destruct (0 <? List.length (links_of element_name row)).
    + apply ensures_any. reflexivity.
    + apply ensures_ret. discriminate.
Qed.

Lemma strict_pass_yields_row_with_link (rows : list Row) (i : nat) :
  ensures (strict_pass page element_name rows i)
          (fun r _ => forall k row,
               r = Ret (Some (k, row)) ->
               exists j, k = i + j /\ nth_error rows j = Some row
                         /\ has_link element_name row = true).
Proof.
  revert i. induction rows as [|row0 rest IH]; intros i.
  - apply ensures_ret. discriminate.
  - cbn [strict_pass].
    eapply ensures_bind; [apply strict_row_accepts_rows_with_link | |].
    + discriminate.
    + intros accepted tr1 Hacc. cbv beta in Hacc. destruct accepted.
      * apply ensures_ret. intros k row E. injection E as Ek Er. subst k row.
        exists 0. rewrite Nat.add_0_r. auto.
      * eapply ensures_weaken; [apply (IH (S i))|].
        intros r tr2 H k row E. destruct (H k row E) as [j [-> [Hj Hl]]].
        exists (S j). split; [lia | now split].
Qed.

Lemma fallback_pass_yields_row_with_link (rows : list Row) (i : nat) :
  ensures (fallback_pass page element_name rows i)
          (fun r _ => forall k row,
               r = Ret (Some (k, row)) ->
               exists j, k = i + j /\ nth_error rows j = Some row
                         /\ has_link element_name row = true).
Proof.
  revert i. induction rows as [|row0 rest IH]; intros i.
  - apply ensures_ret. discriminate.
  - cbn [fallback_pass].
    eapply ensures_bind with
      (Q := fun r _ => forall n, r = Ret n ->
                                 n = List.length (links_of element_name row0)).
    + apply ensures_call; [discriminate|]. intros n E. now injection E.
    + discriminate.
    + intros n ? Hn. rewrite (Hn n eq_refl).
      destruct (0 <? List.length (links_of element_name row0)) eqn:Has.
      * eapply ensures_bind with (Q := fun _ _ => True).
        -- apply ensures_any. trivial.
        -- discriminate.
        -- intros ? ? _. apply ensures_ret.
           intros k row E. injection E as Ek Er. subst k row.
           exists 0. rewrite Nat.add_0_r. unfold has_link. auto.
      * eapply ensures_weaken; [apply (IH (S i))|].
        intros r tr2 H k row E. destruct (H k row E) as [j [-> [Hj Hl]]].
        exists (S j). split; [lia | now split].
Qed.

End LocatedRow.

(** X7.  Whatever the page holds and whichever of its calls raise, a row
    the two passes settle on is the candidate row at the index they give,
    and it holds an anchor matching the link text: no row outside the
    candidates and no row without such an anchor is ever picked. *)
Theorem located_row_is_candidate_with_link {sel : Selectors} (page : Page)
        (site : Site) (material_name element_name : str)
        (t i : nat) (row : Row) :
  value_of (locate_target_row page site material_name element_name) t
  = Ret (Some (i, row)) ->
  nth_error (potential_rows_of material_name site) i = Some row
  /\ has_link element_name row = true.
Proof.
  assert (E : ensures (locate_target_row page site material_name element_name)
                (fun r _ => forall k row,
                     r = Ret (Some (k, row)) ->
                     nth_error (potential_rows_of material_name site) k = Some row
                     /\ has_link element_name row = true)).
  { unfold locate_target_row.
    eapply ensures_bind with (Q := fun _ _ => True);
      [apply ensures_any; trivial | discriminate |].
    intros ? ? _.
    eapply ensures_try_except with
      (Q := fun r _ => forall k row,
                r = Ret (Some (k, row)) ->
                nth_error (potential_rows_of material_name site) k = Some row
                /\ has_link element_name row = true).
    - unfold locate_rows.
      eapply ensures_bind with (Q := fun _ _ => True);
        [apply ensures_any; trivial | discriminate |].
      intros ? ? _.
      eapply ensures_bind with (Q := fun _ _ => True);
        [apply ensures_any; trivial | discriminate |].
      intros ? ? _.
      eapply ensures_bind;
        [apply strict_pass_yields_row_with_link | discriminate |].
      intros strict ? Hstrict. cbv beta in Hstrict.
      destruct strict as [[k0 row0]|].
      + apply ensures_ret. intros k row' E. injection E as Ek Er. subst k row'.
        destruct (Hstrict k0 row0 eq_refl) as [j [-> H]]. exact H.
      + eapply ensures_bind with (Q := fun _ _ => True);
          [apply ensures_any; trivial | discriminate |].
        intros ? ? _.
        eapply ensures_weaken; [apply fallback_pass_yields_row_with_link|].
        intros r ? H k row' E. destruct (H k row' E) as [j [-> Hj]]. exact Hj.
    - intros found ? H. exact H.
    - intros ex ? ?.
      eapply ensures_bind with (Q := fun _ _ => True);
        [apply ensures_any; trivial | discriminate |].
      intros ? ? _. apply ensures_ret. discriminate. }
  intros V. exact (E t i row V).
Qed.

Lemma located_row_is_candidate_with_link_witness :
  let r0 := Samples.row "health certificate" [Samples.other_text] in
  let r1 := Samples.row "health certificate" [Samples.bare] in
  let s := Samples.site [r0; r1] in
  nth_error (potential_rows_of (sel := text_selectors) Samples.material s) 1
  = Some r1
  /\ has_link (sel := text_selectors) Samples.element r1 = true.
Proof.
  intros r0 r1 s.
  apply (@located_row_is_candidate_with_link text_selectors (Samples.page s) s
           Samples.material Samples.element 0 1 r1).
  reflexivity.
Defined.

(** ** Results are failures, or saved downloads *)




Section ResultShape.

Context {sel : Selectors}.
Variable page : Page.





End ResultShape.


(** ** A network that never goes idle changes nothing *)

Lemma same_run_bind A B (m1 m2 : M A) (k1 k2 : A -> M B) :
  same_run m1 m2 -> (forall a, same_run (k1 a) (k2 a)) ->
  same_run (bind m1 k1) (bind m2 k2).
Proof.
  intros Hm Hk t. unfold bind. rewrite (Hm t).
  destruct (m2 t) as [[r tr] t1]. destruct r as [a|e]; [|reflexivity].
  now rewrite (Hk a t1).
Qed.

Lemma same_run_attempt A (m1 m2 : M A) :
  same_run m1 m2 -> same_run (attempt m1) (attempt m2).
Proof. intros Hm t. unfold attempt. now rewrite (Hm t). Qed.

Lemma same_run_try_except A (m1 m2 : M A) (h1 h2 : Exn -> M A) :
  same_run m1 m2 -> (forall e, same_run (h1 e) (h2 e)) ->
  same_run (try_except m1 h1) (try_except m2 h2).
Proof.
  intros Hm Hh. unfold try_except.
  apply same_run_bind; [now apply same_run_attempt|].
  intros [e|a]; [apply Hh | intros t; reflexivity].
Qed.

Lemma same_run_refl A (m : M A) : same_run m m.
Proof. intros t. reflexivity. Qed.

(** The guarded wait ends the same way whether the network goes idle, the
    wait times out, or the call fails. *)
Lemma guarded_wait_same_run (page : Page) (ms : Z) (r1 r2 : Outcome unit) :
  same_run (try_except (call page (CallWaitNetworkIdle ms) r1) (fun _ => ret tt))
           (try_except (call page (CallWaitNetworkIdle ms) r2) (fun _ => ret tt)).
Proof.
  intros t. unfold try_except, bind, attempt, call, ret.
  destruct (page_faults page t); [reflexivity|].
  destruct r1 as [[]|e1], r2 as [[]|e2]; reflexivity.
Qed.

Section Idle.

Context {sel : Selectors}.
Variable page : Page.
Variable b : bool.
Variable element_name : str.

Lemma strict_pass_with_idle (rows : list Row) (i : nat) :
  same_run (strict_pass (with_idle b page) element_name rows i)
           (strict_pass page element_name rows i).
Proof.
  revert i. induction rows as [|row rest IH]; intros i; [apply same_run_refl|].
  cbn [strict_pass]. apply same_run_bind; [apply same_run_refl|].
  intros [|]; [apply same_run_refl | apply IH].
Qed.

Lemma fallback_pass_with_idle (rows : list Row) (i : nat) :
  same_run (fallback_pass (with_idle b page) element_name rows i)
           (fallback_pass page element_name rows i).
Proof.
  revert i. induction rows as [|row rest IH]; intros i; [apply same_run_refl|].
  cbn [fallback_pass]. apply same_run_bind; [apply same_run_refl|].
  intros n. destruct (0 <? n); [apply same_run_refl | apply IH].
Qed.

Lemma locate_target_row_with_idle (url material_name : str) :
  same_run (locate_target_row (with_idle b page)
              (page_web (with_idle b page) url) material_name element_name)
           (locate_target_row page (page_web page url)
              material_name element_name).
Proof.
  unfold locate_target_row.
  apply same_run_bind; [apply same_run_refl|]. intros _.
  apply same_run_try_except; [|intros e; apply same_run_refl].
  unfold locate_rows. cbv zeta.
  apply same_run_bind; [apply same_run_refl|]. intros row_count.
  apply same_run_bind; [apply same_run_refl|]. intros _.
  apply same_run_bind; [apply strict_pass_with_idle|].
  intros [target|]; [apply same_run_refl|].
  apply same_run_bind; [apply same_run_refl|]. intros _.
  apply fallback_pass_with_idle.
Qed.

End Idle.

(** In the model, whose events leave out the two lines printed around the
    wait for the network to go idle, the run of a test case does not depend
    on whether the network goes idle. *)
Lemma test_single_download_link_with_idle {sel : Selectors} (page : Page) (b : bool)
        (url material_name element_name : str) (t : nat) :
  test_single_download_link (with_idle b page) url material_name element_name t
  = test_single_download_link page url material_name element_name t.
Proof.
  revert t. change (same_run
    (test_single_download_link (with_idle b page) url material_name element_name)
    (test_single_download_link page url material_name element_name)).
  unfold test_single_download_link.
  apply same_run_try_except; [|intros e; apply same_run_refl].
  unfold test_body. cbv zeta.
  apply same_run_bind; [apply same_run_refl|]. intros [st|]; [|apply same_run_refl].
  destruct (negb ((200 <=? st) && (st <=? 299))%Z); [apply same_run_refl|].
  apply same_run_bind.
  { exact (guarded_wait_same_run page 15000
             (if b then Ret tt else Raise TimeoutError)
             (if site_idle (page_web page url)
              then Ret tt else Raise TimeoutError)). }
  intros _.
  apply same_run_bind; [apply locate_target_row_with_idle|].
  intros located. apply same_run_refl.
Qed.

(** X9.  The wait for the network to go idle never decides anything: on a
    page that differs only in whether the network goes idle, the test case
    makes the same library calls, in the same order, and returns the same
    tuple, also when calls fail. *)
Theorem idle_timeout_changes_nothing {sel : Selectors} (page : Page) (b : bool)
        (url material_name element_name : str) (t : nat) :
  value_of (test_single_download_link (with_idle b page) url material_name
              element_name) t
  = value_of (test_single_download_link page url material_name element_name) t
  /\ calls_of (trace_of (test_single_download_link (with_idle b page) url
                           material_name element_name) t)
     = calls_of (trace_of (test_single_download_link page url material_name
                             element_name) t).
Proof.
  unfold value_of, trace_of.
  now rewrite (test_single_download_link_with_idle page b url material_name
                 element_name t).
Qed.

(* ================================================================== *)
(** * Further properties of the driver *)

Lemma update_nth_app A (f : A -> A) (done : list A) (x : A) (rest : list A) :
  update_nth (List.length done) f (done ++ x :: rest) = done ++ f x :: rest.
Proof. induction done as [|y done IH]; cbn; [reflexivity | now rewrite IH]. Qed.

Lemma result_column_eqb (c d : Column) :
  is_result_column c = true -> is_result_column d = false ->
  column_eqb c d = false.
Proof. destruct c, d; cbn; congruence. Qed.

(** The row of a test case after its three cells are written. *)
Lemma record_result_rows (res : Result) (df : DataFrame)
      (done : list DataRow) (row : DataRow) (rest : list DataRow) :
  df_rows df = done ++ row :: rest ->
  df_rows (record_result (List.length done) res df)
  = done ++ set_cell ColFormat (CellText (file_type res))
              (set_cell ColResult (CellOutcome (status res) (message res))
                 (set_cell ColTime CellTimestamp row)) :: rest.
Proof.
  intros E. unfold record_result, set_at. cbn [df_rows]. rewrite E.
  now rewrite !update_nth_app.
Qed.

Section BatchRun.

Context {sel : Selectors}.
Variable w : World.
Hypothesis pages_open : forall i, new_page_fault w i = None.
Hypothesis pages_close : forall i, page_close_fault w i = None.

(** The loop, on the rows of the data frame: the rows before [index] stay,
    each later row gets its three result cells and keeps its other cells,
    and the count grows by the number of successes written. *)
Lemma run_cases_rows (todo : list DataRow) :
  forall (df : DataFrame) (success_count : nat) (done rest : list DataRow),
    df_rows df = done ++ rest ->
    List.length rest = List.length todo ->
    exists df' count' tr processed,
      runs_to (run_cases w (List.length done) todo df success_count)
              (Ret (df', count')) tr
      /\ df_columns df' = df_columns df
      /\ df_rows df' = done ++ processed
      /\ count' = success_count + count_success processed
      /\ Forall2 (fun (before after : DataRow) =>
                    (exists st msg, after ColResult = CellOutcome st msg)
                    /\ forall c, is_result_column c = false ->
                                 after c = before c)
                 rest processed.
Proof.
  induction todo as [|case todo IH]; intros df success_count done rest Hrows Hlen.
  - destruct rest; [|discriminate Hlen].
    exists df, success_count, [], []. split; [apply runs_to_ret|].
    split; [reflexivity|]. split; [now rewrite Hrows|].
    split; [cbn; lia | constructor].
  - destruct rest as [|row rest]; [discriminate Hlen|].
    cbn [List.length] in Hlen. injection Hlen as Hlen.
    cbn [run_cases].
    set (run := test_single_download_link (page_of w (List.length done))
                  (text_of (case ColUrl)) (text_of (case ColMaterial))
                  (text_of (case ColElement))).
    destruct (test_single_download_link_returns (page_of w (List.length done))
                (text_of (case ColUrl)) (text_of (case ColMaterial))
                (text_of (case ColElement)) 0) as [res [tr0 [t0 E0]]].
    fold run in E0.
    assert (V0 : value_of run 0 = Ret res) by (unfold value_of; now rewrite E0).
    set (row' := set_cell ColFormat (CellText (file_type res))
                   (set_cell ColResult (CellOutcome (status res) (message res))
                      (set_cell ColTime CellTimestamp row))).
    set (df1 := record_result (List.length done) res df).
    set (count1 := match status res with
                   | Success => S success_count
                   | Failure => success_count
                   end).
    assert (Hrows1 : df_rows df1 = (done ++ [row']) ++ rest).
    { unfold df1. rewrite (record_result_rows res df done row rest Hrows).
      now rewrite <- app_assoc. }
    destruct (IH df1 count1 (done ++ [row']) rest Hrows1 Hlen)
      as [df' [count' [tr [processed [R [Hcols [Hrows' [Hcount Hall]]]]]]]].
    rewrite length_app in R. cbn [List.length] in R.
    rewrite Nat.add_1_r in R.
    exists df', count'. eexists. exists (row' :: processed).
    split; [|split; [|split; [|split]]].
    + eapply runs_to_bind; [rewrite pages_open; apply runs_to_env_call|].
      eapply runs_to_bind.
      { apply runs_to_attempt_ret. rewrite <- V0. apply runs_to_on_new_page. }
      cbv beta iota.
      eapply runs_to_bind; [apply runs_to_ret|].
      eapply runs_to_bind; [rewrite pages_close; apply runs_to_env_call|].
      exact R.
    + rewrite Hcols. reflexivity.
    + rewrite Hrows'. now rewrite <- app_assoc.
    + rewrite Hcount. unfold count1, count_success. cbn [filter].
      replace (is_success_cell (row' ColResult))
        with (match status res with Success => true | Failure => false end)
        by (unfold row'; cbn; now destruct (status res)).
      destruct (status res); cbn [List.length]; lia.
    + constructor; [|exact Hall]. split.
      * exists (status res), (message res). reflexivity.
      * intros c Hc. unfold row', set_cell.
        now rewrite !result_column_eqb.
Qed.

End BatchRun.

Lemma column_eqb_eq (c d : Column) : column_eqb c d = true <-> c = d.
Proof.
  destruct c, d; cbn; try (split; [discriminate | discriminate]);
    try tauto.
  rewrite str_eqb_eq. split; [now intros -> | intros E; now injection E].
Qed.

Lemma in_columns_set_column (c d : Column) (v : Cell) (df : DataFrame) :
  In d (df_columns (set_column c v df)) <-> In d (df_columns df) \/ d = c.
Proof.
  unfold set_column. cbn [df_columns].
  destruct (existsb (column_eqb c) (df_columns df)) eqn:E.
  - split; [now left | intros [H | ->]; [exact H|]].
    apply existsb_exists in E as [x [Hx Hc]].
    apply column_eqb_eq in Hc. now subst x.
  - rewrite in_app_iff. cbn. split.
    + intros [H | [<- | []]]; auto.
    + intros [H | ->]; auto.
Qed.

Lemma set_cell_other (c d : Column) (v : Cell) (row : DataRow) :
  is_result_column c = true -> is_result_column d = false ->
  set_cell c v row d = row d.
Proof. intros Hc Hd. unfold set_cell. now rewrite result_column_eqb. Qed.

Section WholeRun.

Context {sel : Selectors}.
Variable w : World.
Variable df : DataFrame.
Hypothesis input_read : excel w = inr df.
Hypothesis columns_present :
  forall c, In c required_columns ->
            existsb (column_eqb c) (df_columns df) = true.
Hypothesis some_rows : df_rows df <> [].
Hypothesis browser_starts : launch_fault w = None.
Hypothesis context_opens : new_context_fault w = None.
Hypothesis pages_open : forall i, new_page_fault w i = None.
Hypothesis pages_close : forall i, page_close_fault w i = None.
Hypothesis browser_closes : browser_close_fault w = None.

Lemma run_batch_tests_completes :
  exists df' tr,
    runs_to (run_batch_tests w)
            (Ret match to_excel_fault w with
                 | None => Saved df' (count_success (df_rows df'))
                 | Some e => NotSaved df' (count_success (df_rows df')) e
                 end) tr
    /\ (forall c, In c (df_columns df') <->
                  In c (df_columns df) \/ is_result_column c = true)
    /\ Forall2 (fun (before after : DataRow) =>
                  (exists st msg, after ColResult = CellOutcome st msg)
                  /\ forall c, is_result_column c = false ->
                               after c = before c)
               (df_rows df) (df_rows df').
Proof.
  set (df0 := set_column ColFormat (CellText [])
                (set_column ColResult (CellText [])
                   (set_column ColTime (CellText []) df))).
  destruct (run_cases_rows w pages_open pages_close (df_rows df0)
              df0 0 [] (df_rows df0) eq_refl eq_refl)
    as [df' [count' [trl [processed [R [Hcols [Hrows [Hcount Hall]]]]]]]].
  cbn [List.length app] in R, Hrows. cbn [Nat.add] in Hcount.
  assert (Hmissing :
            filter (fun col => negb (existsb (column_eqb col) (df_columns df)))
                   required_columns = []).
  { unfold required_columns in *.
    cbn [filter]. rewrite !columns_present by (cbn; auto). reflexivity. }
  assert (Htotal : (List.length (df_rows df0) =? 0) = false).
  { unfold df0, set_column. cbn [df_rows]. rewrite !length_map.
    destruct (df_rows df); [contradiction | reflexivity]. }
  assert (Hrun : exists tr,
             runs_to (run_batch_tests w)
                     (Ret match to_excel_fault w with
                          | None => Saved df' (count_success (df_rows df'))
                          | Some e => NotSaved df' (count_success (df_rows df')) e
                          end) tr).
  { destruct (to_excel_fault w) as [e|] eqn:Hsave; eexists.
    - unfold run_batch_tests.
      eapply runs_to_bind.
      { apply runs_to_attempt_ret. intros t. exists t. rewrite input_read.
        reflexivity. }
      cbv beta iota zeta. rewrite Hmissing. fold df0.
      eapply runs_to_bind; [rewrite browser_starts; apply runs_to_env_call|].
      eapply runs_to_bind; [rewrite context_opens; apply runs_to_env_call|].
      eapply runs_to_bind; [exact R|].
      rewrite Htotal.
      eapply runs_to_bind; [apply runs_to_ret|].
      eapply runs_to_bind; [rewrite browser_closes; apply runs_to_env_call|].
      cbn [fst snd]. rewrite Hcount, <- Hrows, Hsave.
      eapply runs_to_bind.
      { apply runs_to_attempt_raise. intros t. exists t. reflexivity. }
      eapply runs_to_bind; [apply runs_to_print | apply runs_to_ret].
    - unfold run_batch_tests.
      eapply runs_to_bind.
      { apply runs_to_attempt_ret. intros t. exists t. rewrite input_read.
        reflexivity. }
      cbv beta iota zeta. rewrite Hmissing. fold df0.
      eapply runs_to_bind; [rewrite browser_starts; apply runs_to_env_call|].
      eapply runs_to_bind; [rewrite context_opens; apply runs_to_env_call|].
      eapply runs_to_bind; [exact R|].
      rewrite Htotal.
      eapply runs_to_bind; [apply runs_to_ret|].
      eapply runs_to_bind; [rewrite browser_closes; apply runs_to_env_call|].
      cbn [fst snd]. rewrite Hcount, <- Hrows, Hsave.
      eapply runs_to_bind.
      { apply runs_to_attempt_ret. apply runs_to_env_call. }
      apply runs_to_ret. }
  destruct Hrun as [tr Hrun].
  exists df', tr. split; [exact Hrun|]. split.
  - intros c. rewrite Hcols. unfold df0.
    rewrite !in_columns_set_column.
    destruct c; cbn; intuition congruence.
  - rewrite Hrows.
    assert (G : forall rows processed',
               Forall2 (fun (before after : DataRow) =>
                          (exists st msg, after ColResult = CellOutcome st msg)
                          /\ forall c, is_result_column c = false ->
                                       after c = before c)
                       (map (set_cell ColFormat (CellText []))
                            (map (set_cell ColResult (CellText []))
                                 (map (set_cell ColTime (CellText [])) rows)))
                       processed' ->
               Forall2 (fun (before after : DataRow) =>
                          (exists st msg, after ColResult = CellOutcome st msg)
                          /\ forall c, is_result_column c = false ->
                                       after c = before c)
                       rows processed').
    { induction rows as [|row rows IH]; intros processed' H;
        inversion H as [|x y l l' [Hres Hkeep] Hrest]; subst; constructor.
      - split; [exact Hres|]. intros c Hc. rewrite (Hkeep c Hc).
        now rewrite !set_cell_other.
      - now apply IH. }
    apply G. unfold df0, set_column in Hall. cbn [df_rows] in Hall. exact Hall.
Qed.

End WholeRun.

Lemma Forall2_right X Y (R : X -> Y -> Prop) (Q : Y -> Prop) :
  (forall x y, R x y -> Q y) ->
  forall l l', Forall2 R l l' -> Forall Q l'.
Proof. intros H l l' F. induction F; constructor; eauto. Qed.

Lemma Forall2_weaken X Y (R R' : X -> Y -> Prop) :
  (forall x y, R x y -> R' x y) ->
  forall l l', Forall2 R l l' -> Forall2 R' l l'.
Proof. intros H l l' F. induction F; constructor; eauto. Qed.

(** X10.  A run on a spreadsheet that has the required columns and at
    least one row, with a browser whose own calls work: every test case is
    run, the data frame keeps its number of rows, every row ends with a
    status-and-message result cell, the success count is the number of rows
    recorded as a success, and the run ends saved, or not saved when
    writing the output file fails, without raising. *)
Theorem batch_run_records_every_row {sel : Selectors} (w : World)
        (df : DataFrame) :
  excel w = inr df ->
  (forall c, In c required_columns ->
             existsb (column_eqb c) (df_columns df) = true) ->
  df_rows df <> [] ->
  launch_fault w = None ->
  new_context_fault w = None ->
  (forall i, new_page_fault w i = None) ->
  (forall i, page_close_fault w i = None) ->
  browser_close_fault w = None ->
  exists df' tr,
    runs_to (run_batch_tests w)
            (Ret match to_excel_fault w with
                 | None => Saved df' (count_success (df_rows df'))
                 | Some e => NotSaved df' (count_success (df_rows df')) e
                 end) tr
    /\ List.length (df_rows df') = List.length (df_rows df)
    /\ Forall (fun after : DataRow =>
                 exists st msg, after ColResult = CellOutcome st msg)
              (df_rows df').
Proof.
  intros H1 H2 H3 H4 H5 H6 H7 H8.
  destruct (run_batch_tests_completes w H1 H2 H3 H4 H5 H6 H7 H8)
    as [df' [tr [R [_ Hall]]]].
  exists df', tr. split; [exact R|]. split.
  - symmetry. exact (Forall2_length Hall).
  - eapply Forall2_right; [|exact Hall]. intros x y [Hres _]. exact Hres.
Qed.

Lemma batch_run_records_every_row_witness :
  let df := Samples.sheet
              [Samples.case "https://example.test/a" "health certificate" "blank form";
               Samples.case "https://example.test/b" "licence" "sample form"] in
  let w := Samples.world df
             (Samples.site [Samples.row "health certificate" [Samples.with_href]]) in
  exists df' tr,
    runs_to (run_batch_tests (sel := text_selectors) w)
            (Ret (Saved df' (count_success (df_rows df')))) tr
    /\ List.length (df_rows df') = 2
    /\ Forall (fun after : DataRow =>
                 exists st msg, after ColResult = CellOutcome st msg)
              (df_rows df').
Proof.
  intros df w.
  apply (@batch_run_records_every_row text_selectors w df); try reflexivity.
  - intros c H. cbn in H.
    destruct H as [<- | [<- | [<- | []]]]; reflexivity.
  - discriminate.
Defined.

(** X11.  Under the same conditions the run only adds: the columns of the
    output are the input columns and the three result columns, and in every
    row each cell outside the three result columns is the cell that was
    read. *)
Theorem batch_run_keeps_input_cells {sel : Selectors} (w : World)
        (df : DataFrame) :
  excel w = inr df ->
  (forall c, In c required_columns ->
             existsb (column_eqb c) (df_columns df) = true) ->
  df_rows df <> [] ->
  launch_fault w = None ->
  new_context_fault w = None ->
  (forall i, new_page_fault w i = None) ->
  (forall i, page_close_fault w i = None) ->
  browser_close_fault w = None ->
  exists df' tr,
    runs_to (run_batch_tests w)
            (Ret match to_excel_fault w with
                 | None => Saved df' (count_success (df_rows df'))
                 | Some e => NotSaved df' (count_success (df_rows df')) e
                 end) tr
    /\ (forall c, In c (df_columns df') <->
                  In c (df_columns df) \/ is_result_column c = true)
    /\ Forall2 (fun (before after : DataRow) =>
                  forall c, is_result_column c = false -> after c = before c)
               (df_rows df) (df_rows df').
Proof.
  intros H1 H2 H3 H4 H5 H6 H7 H8.
  destruct (run_batch_tests_completes w H1 H2 H3 H4 H5 H6 H7 H8)
    as [df' [tr [R [Hcols Hall]]]].
  exists df', tr. split; [exact R|]. split; [exact Hcols|].
  eapply Forall2_weaken; [|exact Hall]. intros x y [_ Hkeep]. exact Hkeep.
Qed.

Lemma batch_run_keeps_input_cells_witness :
  let df := Samples.sheet
              [Samples.case "https://example.test/a" "health certificate" "blank form"] in
  let w := Samples.world df (Samples.site []) in
  exists df' tr,
    runs_to (run_batch_tests (sel := text_selectors) w)
            (Ret (Saved df' (count_success (df_rows df')))) tr
    /\ (forall c, In c (df_columns df') <->
                  In c (df_columns df) \/ is_result_column c = true)
    /\ Forall2 (fun (before after : DataRow) =>
                  forall c, is_result_column c = false -> after c = before c)
               (df_rows df) (df_rows df').
Proof.
  intros df w.
  apply (@batch_run_keeps_input_cells text_selectors w df); try reflexivity.
  - intros c H. cbn in H.
    destruct H as [<- | [<- | [<- | []]]]; reflexivity.
  - discriminate.
Defined.

(** X12.  Failures of the driver's own browser calls are not caught: with a
    readable spreadsheet that has the required columns, an exception from
    the browser launch, or from opening the page of the first test case,
    escapes the run; nothing is recorded or saved. *)
Theorem browser_failure_escapes_run {sel : Selectors} (w : World)
        (df : DataFrame) (e : Exn) :
  excel w = inr df ->
  (forall c, In c required_columns ->
             existsb (column_eqb c) (df_columns df) = true) ->
  (launch_fault w = Some e ->
   runs_to (run_batch_tests w) (Raise e)
           [Call CallReadExcel; Call CallLaunch])
  /\ (launch_fault w = None -> new_context_fault w = None ->
      df_rows df <> [] -> new_page_fault w 0 = Some e ->
      runs_to (run_batch_tests w) (Raise e)
              [Call CallReadExcel; Call CallLaunch; Call CallNewContext;
               Call CallNewPage]).
Proof.
  intros Hread Hcols.
  assert (Hmissing :
            filter (fun col => negb (existsb (column_eqb col) (df_columns df)))
                   required_columns = []).
  { unfold required_columns in *.
    cbn [filter]. rewrite !Hcols by (cbn; auto). reflexivity. }
  assert (Hstart : runs_to
            (attempt (fun t =>
                        (match excel w with
                         | inl e => Raise e
                         | inr df => Ret df
                         end, [Call CallReadExcel], t)))
            (Ret (inr df)) [Call CallReadExcel]).
  { apply runs_to_attempt_ret. intros t. exists t. now rewrite Hread. }
  split.
  - intros Hlaunch. unfold run_batch_tests.
    change [Call CallReadExcel; Call CallLaunch]
      with ([Call CallReadExcel] ++ [Call CallLaunch]).
    eapply runs_to_bind; [exact Hstart|].
    cbv beta iota zeta. rewrite Hmissing.
    apply runs_to_bind_raise. rewrite Hlaunch. intros t. exists t. reflexivity.
  - intros Hlaunch Hcontext Hrows Hpage. unfold run_batch_tests.
    change [Call CallReadExcel; Call CallLaunch; Call CallNewContext;
            Call CallNewPage]
      with ([Call CallReadExcel] ++ [Call CallLaunch] ++ [Call CallNewContext]
              ++ [Call CallNewPage]).
    eapply runs_to_bind; [exact Hstart|].
    cbv beta iota zeta. rewrite Hmissing.
    eapply runs_to_bind; [rewrite Hlaunch; apply runs_to_env_call|].
    eapply runs_to_bind; [rewrite Hcontext; apply runs_to_env_call|].
    apply runs_to_bind_raise.
    unfold set_column. cbn [df_rows].
    destruct (df_rows df) as [|row rows]; [contradiction|].
    cbn [map run_cases]. apply runs_to_bind_raise.
    rewrite Hpage. intros t. exists t. reflexivity.
Qed.

Lemma browser_failure_escapes_run_witness :
  let df := Samples.sheet
              [Samples.case "https://example.test/a" "health certificate" "blank form"] in
  runs_to (run_batch_tests (sel := text_selectors) (BrokenBrowser.world df))
          (Raise (OtherError 1)) [Call CallReadExcel; Call CallLaunch].
Proof.
  intros df.
  apply (@browser_failure_escapes_run text_selectors (BrokenBrowser.world df)
           df (OtherError 1)).
  - reflexivity.
  - intros c H. cbn in H.
    destruct H as [<- | [<- | [<- | []]]]; reflexivity.
  - reflexivity.
Defined.

(* ================================================================== *)
(** * The file type of a download *)

Lemma rfind_at_lower_bound (needle hay : str) (i : Z) :
  (0 <= i)%Z -> (-1 <= rfind_at needle hay i)%Z.
Proof.
  revert i. induction hay as [|x hay IH]; intros i Hi; cbn [rfind_at].
  - destruct (starts_with needle []); lia.
  - specialize (IH (i + 1)%Z ltac:(lia)).
    destruct (Z.eqb_spec (rfind_at needle hay (i + 1)) (-1)); [|lia].
    destruct (starts_with needle (x :: hay)); lia.
Qed.

Lemma lower_char_dot (c : char) : lower_char c = 46%N -> c = 46%N.
Proof.
  unfold lower_char.
  destruct ((65 <=? c) && (c <=? 90))%N eqn:E; [|trivial].
  apply andb_true_iff in E as [E1 E2].
  apply N.leb_le in E1, E2. lia.
Qed.

Lemma lower_char_not_upper (c : char) :
  ((65 <=? lower_char c) && (lower_char c <=? 90))%N = false.
Proof.
  unfold lower_char.
  destruct ((65 <=? c) && (c <=? 90))%N eqn:E; [|exact E].
  apply andb_true_iff in E as [E1 E2]. apply N.leb_le in E1, E2.
  apply andb_false_iff. right. apply N.leb_gt. lia.
Qed.

Lemma lstrip_char_no_lead (c : char) (s : str) :
  match s with
  | [] => True
  | d :: _ => d <> c
  end -> lstrip_char c s = s.
Proof.
  destruct s as [|d s]; [reflexivity|]. intros H. cbn.
  unfold char_eqb. destruct (N.eqb_spec c d); [congruence | reflexivity].
Qed.

Lemma lstrip_char_incl (c : char) (s : str) (x : char) :
  In x (lstrip_char c s) -> In x s.
Proof.
  induction s as [|d s IH]; cbn; [trivial|].
  destruct (char_eqb c d); [intros H; right; now apply IH | trivial].
Qed.

Lemma lstrip_char_head (c : char) (s : str) :
  match lstrip_char c s with
  | [] => True
  | d :: _ => d <> c
  end.
Proof.
  induction s as [|d s IH]; cbn; [trivial|].
  unfold char_eqb. destruct (N.eqb_spec c d); [exact IH | congruence].
Qed.

Lemma slice_whole_prefix (b c : str) :
  slice (b ++ c) 0 (Z.of_nat (List.length b)) = b.
Proof. exact (slice_middle [] b c). Qed.

Lemma slice_suffix (a b : str) :
  slice (a ++ b) (Z.of_nat (List.length a)) (Z.of_nat (List.length (a ++ b))) = b.
Proof.
  rewrite length_app, Nat2Z.inj_add.
  pose proof (slice_middle a b []) as H. now rewrite !app_nil_r in H.
Qed.

(** X13.  For a suggested file name made of a stem, a dot and an extension
    of ASCII characters, with no path separator in it, no further dot in
    the extension and a stem that is not made of dots only, the file type
    is the extension with its capital letters A to Z in lower case, without
    the dot. *)
Theorem file_type_is_lowered_extension (stem ext : str) :
  Forall (fun c => (c < 128)%N) ext ->
  ~ In 47%N stem -> ~ In 47%N ext -> ~ In 46%N ext ->
  (exists c, In c stem /\ c <> 46%N) ->
  file_type_of (stem ++ lit "." ++ ext) = lower ext.
Proof.
  intros _ Hs1 Hs2 Hdot [c [Hc Hne]].
  change (lit ".") with [46%N]. cbn [app].
  unfold file_type_of, splitext_ext.
  change (lit "/") with [47%N]. change (lit ".") with [46%N].
  unfold rfind.
  rewrite (rfind_single_none 47%N).
  2:{ rewrite in_app_iff. cbn. intros [H | [H | H]];
        [contradiction | discriminate H | contradiction]. }
  rewrite (rfind_single_last 46%N) by (lia || assumption).
  cbn [Z.add]. replace (-1 <? Z.of_nat (List.length stem))%Z with true
    by (symmetry; apply Z.ltb_lt; lia).
  change (-1 + 1)%Z with 0%Z.
  rewrite slice_whole_prefix.
  assert (Hall : forallb (char_eqb 46%N) stem = false).
  { destruct (forallb (char_eqb 46%N) stem) eqn:E; [|reflexivity].
    rewrite forallb_forall in E. specialize (E c Hc).
    apply N.eqb_eq in E. congruence. }
  rewrite Hall, slice_suffix. cbn [lower map].
  change (lower_char 46%N) with 46%N. cbn [lstrip_char].
  rewrite char_eqb_refl. fold (lower ext).
  apply lstrip_char_no_lead.
  destruct ext as [|d ext]; cbn; [trivial|].
  intros E. apply lower_char_dot in E. apply Hdot. now left.
Qed.

Lemma file_type_is_lowered_extension_witness :
  file_type_of (lit "Form-2024" ++ lit "." ++ lit "PDF") = lower (lit "PDF").
Proof.
  apply file_type_is_lowered_extension.
  - repeat constructor.
  - vm_compute. intuition discriminate.
  - vm_compute. intuition discriminate.
  - vm_compute. intuition discriminate.
  - exists 70%N. split; [vm_compute; auto | discriminate].
Defined.

(** X14.  A suggested file name without any dot has the empty file type,
    and so has a name, free of separators, whose only dot is its first
    character. *)
Theorem file_type_without_extension (name : str) :
  (~ In 46%N name -> file_type_of name = [])
  /\ (~ In 46%N name -> ~ In 47%N name ->
      file_type_of (lit "." ++ name) = []).
Proof.
  split.
  - intros Hdot. unfold file_type_of, splitext_ext.
    change (lit ".") with [46%N]. unfold rfind.
    rewrite (rfind_single_none 46%N) by exact Hdot.
    pose proof (@rfind_at_lower_bound (lit "/") name 0 ltac:(lia)) as Hsep.
    replace (rfind_at (lit "/") name 0 <? -1)%Z with false
      by (symmetry; apply Z.ltb_ge; lia).
    reflexivity.
  - intros Hdot Hsep. change (lit ".") with [46%N]. cbn [app].
    unfold file_type_of, splitext_ext.
    change (lit "/") with [47%N]. change (lit ".") with [46%N]. unfold rfind.
    rewrite (rfind_single_none 47%N).
    2:{ cbn. intros [H | H]; [discriminate H | contradiction]. }
    change (46%N :: name) with ([] ++ 46%N :: name).
    rewrite (rfind_single_last 46%N) by (lia || assumption).
    reflexivity.
Qed.

Lemma file_type_without_extension_witness :
  file_type_of (lit "README") = [].
Proof.
  apply (proj1 (file_type_without_extension (lit "README"))).
  vm_compute. intuition discriminate.
Defined.

(** X15.  Whatever the suggested file name, the file type does not start
    with a dot and holds no upper-case ASCII letter. *)
Theorem file_type_is_normalised (name : str) :
  match file_type_of name with
  | [] => True
  | c :: _ => c <> 46%N
  end
  /\ forall c, In c (file_type_of name) ->
               ((65 <=? c) && (c <=? 90))%N = false.
Proof.
  unfold file_type_of.
  destruct (splitext_ext name) as [|d ext]; [split; [trivial | intros c []]|].
  split; [apply lstrip_char_head|].
  intros c H. apply lstrip_char_incl in H. unfold lower in H.
  apply in_map_iff in H as [x [<- _]]. apply lower_char_not_upper.
Qed.

(* ================================================================== *)
(** * Further properties of the validation response *)

Lemma find_at_none (needle hay : str) (i : Z) :
  (forall k, k <= List.length hay ->
             starts_with needle (skipn k hay) = false) ->
  find_at needle hay i = (-1)%Z.
Proof.
  revert i. induction hay as [|x hay IH]; intros i H.
  - pose proof (H 0 (le_n _)) as H0. cbn [skipn] in H0.
    cbn [find_at]. now rewrite H0.
  - pose proof (H 0 (Nat.le_0_l _)) as H0. cbn [skipn] in H0.
    cbn [find_at]. rewrite H0. apply IH.
    intros k Hk. apply (H (S k)). cbn [List.length]. lia.
Qed.

(** [(a + b)[len(a) : -1]] is [b] without its last character. *)
Lemma slice_to_last (a b : str) :
  slice (a ++ b) (Z.of_nat (List.length a)) (-1) = removelast b.
Proof.
  unfold slice, clamp_index. rewrite length_app.
  destruct (Z.ltb_spec (Z.of_nat (List.length a)) 0); [lia|].
  change (-1 <? 0)%Z with true. cbv iota.
  rewrite Z.min_l by lia. rewrite Nat2Z.id, skipn_length_app.
  destruct b as [|x b].
  - cbn [List.length]. rewrite Nat.add_0_r.
    replace (Z.to_nat (Z.max 0 (Z.of_nat (List.length a) + -1)
                       - Z.of_nat (List.length a))) with 0 by lia.
    reflexivity.
  - replace (Z.to_nat (Z.max 0 (Z.of_nat (List.length a + List.length (x :: b)) + -1)
                       - Z.of_nat (List.length a)))
      with (pred (List.length (x :: b))) by (cbn [List.length]; lia).
    symmetry. apply removelast_firstn_len.
Qed.

(** X16.  A fence that is never closed: when the response holds the fence
    and no three backquotes after it, the text handed to the parser is what
    follows the fence without its last character (stripped), because the
    failed search for the closing fence yields -1 as the end of the
    slice. *)
Theorem unclosed_fence_drops_last_character (pre body : str) :
  (forall k, k < List.length pre ->
             starts_with (lit "```json") (skipn k (pre ++ lit "```json" ++ body))
             = false) ->
  (forall k, k <= List.length body ->
             starts_with (lit "```") (skipn k body) = false) ->
  extract_json (pre ++ lit "```json" ++ body) = strip (removelast body).
Proof.
  intros Hfirst Hnone.
  set (content := pre ++ lit "```json" ++ body) in *.
  assert (Hat : starts_with (lit "```json") (skipn (List.length pre) content) = true).
  { unfold content. rewrite skipn_length_app. apply starts_with_app. }
  assert (Hfind : find (lit "```json") content = Z.of_nat (List.length pre)).
  { unfold find. now rewrite (find_at_first _ _ 0 Hfirst Hat). }
  assert (Hskip : skipn (List.length pre + 7) content = body).
  { unfold content. rewrite app_assoc.
    change (List.length pre + 7)
      with (List.length pre + List.length (lit "```json")).
    rewrite <- length_app. apply skipn_length_app. }
  unfold extract_json.
  rewrite (contains_skipn _ _ _ Hat). cbv zeta. rewrite Hfind.
  unfold find_from.
  replace (Z.to_nat (Z.of_nat (List.length pre) + 7)) with (List.length pre + 7)
    by lia.
  rewrite Hskip, (find_at_none _ _ _ Hnone).
  f_equal.
  replace (Z.of_nat (List.length pre) + 7)%Z
    with (Z.of_nat (List.length (pre ++ lit "```json")))
    by (rewrite length_app; cbn [List.length lit list_ascii_of_string map]; lia).
  unfold content. rewrite app_assoc. apply slice_to_last.
Qed.

Lemma unclosed_fence_drops_last_character_witness :
  extract_json (lit "ok " ++ lit "```json" ++ lit "{'a': 1}")
  = strip (removelast (lit "{'a': 1}")).
Proof.
  apply unclosed_fence_drops_last_character.
  - intros k Hk. do 3 (destruct k as [|k]; [reflexivity|]). cbn in Hk. lia.
  - intros k Hk. do 9 (destruct k as [|k]; [reflexivity|]). cbn in Hk. lia.
Defined.

(** On data that is not an object a block either leaves the result alone
    or raises with the result as it was. *)
Lemma update_check_not_object (data : JSON) (c : Check) (r : ValidationResult) :
  (forall fields, data <> JObj fields) ->
  update_check data c r = inr r \/ exists e, update_check data c r = inl (e, r).
Proof.
  intros Hno. unfold update_check.
  destruct data as [| b | n | s | items | fields]; cbn [py_in py_getitem];
    try (right; eexists; reflexivity).
  - destruct (contains (verdict_key c) s); [right; eexists | left]; reflexivity.
  - destruct (existsb _ items); [right; eexists | left]; reflexivity.
  - now destruct (Hno fields).
Qed.

Lemma update_checks_not_object (data : JSON) (cs : list Check)
      (r : ValidationResult) :
  (forall fields, data <> JObj fields) ->
  update_checks data cs r = inr r
  \/ exists e, update_checks data cs r = inl (e, r).
Proof.
  intros Hno. induction cs as [|c cs IH]; [now left|].
  cbn [update_checks].
  destruct (update_check_not_object c r Hno) as [-> | [e ->]];
    [exact IH | right; now exists e].
Qed.

(** X17.  A response that does not parse to a JSON object, because the
    parser raises or because it yields an array, a string, a number, a
    boolean or null, changes no verdict and overwrites no reason that was
    already set: a reason differs afterwards only if it was the empty
    string. *)
Theorem non_object_response_keeps_result (json_loads : str -> Exn + JSON)
        (result : ValidationResult) (content : str) :
  (forall fields, json_loads (extract_json content) <> inr (JObj fields)) ->
  forall c,
    verdict (_parse_validation_response json_loads result content) c
    = verdict result c
    /\ (reason_is_empty (reason result c) = false ->
        reason (_parse_validation_response json_loads result content) c
        = reason result c).
Proof.
  intros Hno c. unfold _parse_validation_response.
  destruct (json_loads (extract_json content)) as [e | data] eqn:E.
  - cbn. split; [reflexivity | now intros ->].
  - assert (Hdata : forall fields, data <> JObj fields).
    { intros fields ->. now apply (Hno fields). }
    destruct (update_checks_not_object all_checks result Hdata) as [-> | [e ->]].
    + now split.
    + cbn. split; [reflexivity | now intros ->].
Qed.

Lemma non_object_response_keeps_result_witness :
  verdict (_parse_validation_response Samples.loads fresh_result
             (lit "sorry, no answer")) forms_consistent
  = verdict fresh_result forms_consistent
  /\ (reason_is_empty (reason fresh_result forms_consistent) = false ->
      reason (_parse_validation_response Samples.loads fresh_result
                (lit "sorry, no answer")) forms_consistent
      = reason fresh_result forms_consistent).
Proof.
  apply (@non_object_response_keeps_result Samples.loads fresh_result
           (lit "sorry, no answer")).
  intros fields. vm_compute. discriminate.
Defined.

(* ================================================================== *)
(** * Properties of the document validator *)

Lemma verdict_set_reasons (cs : list Check) (why : Reason)
      (r : ValidationResult) (c : Check) :
  verdict (set_reasons cs why r) c = verdict r c.
Proof.
  unfold set_reasons. revert r.
  induction cs as [|c0 cs IH]; intros r; cbn [fold_left]; [reflexivity|].
  now rewrite IH.
Qed.

Lemma reason_set_reasons (cs : list Check) (why : Reason)
      (r : ValidationResult) (c : Check) :
  reason (set_reasons cs why r) c
  = if existsb (check_eqb c) cs then why else reason r c.
Proof.
  unfold set_reasons. revert r.
  induction cs as [|c0 cs IH]; intros r; cbn [fold_left existsb]; [reflexivity|].
  rewrite IH. cbn [reason set_reason].
  destruct (existsb (check_eqb c) cs); [now rewrite orb_true_r|].
  rewrite orb_false_r.
  destruct (check_eqb c c0) eqn:E.
  - apply check_eqb_eq in E as ->. now rewrite check_eqb_refl.
  - rewrite check_eqb_neq; [reflexivity|].
    intros ->. now rewrite check_eqb_refl in E.
Qed.

Lemma in_all_checks_eqb (c : Check) : existsb (check_eqb c) all_checks = true.
Proof. destruct c; reflexivity. Qed.

(** Parsing a response whose text parses to an object updates each check
    as [check_updated] says. *)
Lemma parsed_object_updates (json_loads : str -> Exn + JSON)
      (result : ValidationResult) (text : str) (fields : list (str * JSON)) :
  json_loads (extract_json text) = inr (JObj fields) ->
  forall c,
    check_updated fields result
      (_parse_validation_response json_loads result text) c.
Proof.
  intros Hparse c. unfold _parse_validation_response. rewrite Hparse.
  destruct (update_checks_object fields all_checks_nodup result)
    as [r' [E [U _]]].
  rewrite E. apply U, all_checks_complete.
Qed.

(** A verdict that parsing changes comes from an object the response
    parsed to, under the key of the check. *)
Lemma parsed_verdict_source (json_loads : str -> Exn + JSON)
      (result : ValidationResult) (text : str) (c : Check) :
  verdict (_parse_validation_response json_loads result text) c
  <> verdict result c ->
  exists fields,
    json_loads (extract_json text) = inr (JObj fields)
    /\ lookup (verdict_key c) fields
       = Some (verdict (_parse_validation_response json_loads result text) c).
Proof.
  intros Hne.
  destruct (json_loads (extract_json text)) as [e | data] eqn:E.
  - exfalso. apply Hne. unfold _parse_validation_response. now rewrite E.
  - destruct data as [| b | n | s | items | fields];
      try (exfalso; apply Hne; unfold _parse_validation_response; rewrite E;
           match goal with
           | |- context [update_checks ?d all_checks result] =>
               destruct (@update_checks_not_object d all_checks result
                           ltac:(discriminate)) as [-> | [e ->]]
           end; reflexivity).
    exists fields. split; [reflexivity|].
    pose proof (parsed_object_updates json_loads result text E c) as U.
    unfold check_updated in U.
    destruct (lookup (verdict_key c) fields) as [v|].
    + destruct U as [-> _]. reflexivity.
    + destruct U as [U _]. contradiction.
Qed.

Section ValidateDocuments.

Variable json_loads : str -> Exn + JSON.
Variable exn_text : Exn -> str.
Variable self : Validator.

Lemma parse_content_verdict_source (content : option str) (c : Check) :
  verdict (parse_content json_loads fresh_result content) c <> JNull ->
  exists text fields,
    content = Some text
    /\ json_loads (extract_json text) = inr (JObj fields)
    /\ lookup (verdict_key c) fields
       = Some (verdict (parse_content json_loads fresh_result content) c).
Proof.
  destruct content as [text|]; cbn [parse_content].
  - intros Hne.
    destruct (parsed_verdict_source json_loads fresh_result text c Hne)
      as [fields [E L]].
    now exists text, fields.
  - intros Hne. now destruct Hne.
Qed.

Lemma request_verdict_source (req : Request) (cs : list Check) (c : Check) :
  verdict match create_completion self req with
          | inr content => parse_content json_loads fresh_result content
          | inl e =>
              set_reasons cs
                (ReasonValue (JStr (msg_api_failed (exn_text e)))) fresh_result
          end c <> JNull ->
  exists text fields,
    create_completion self req = inr (Some text)
    /\ json_loads (extract_json text) = inr (JObj fields)
    /\ lookup (verdict_key c) fields
       = Some (verdict match create_completion self req with
                       | inr content =>
                           parse_content json_loads fresh_result content
                       | inl e =>
                           set_reasons cs
                             (ReasonValue (JStr (msg_api_failed (exn_text e))))
                             fresh_result
                       end c).
Proof.
  destruct (create_completion self req) as [e | content].
  - rewrite verdict_set_reasons. intros Hne. now destruct Hne.
  - intros Hne.
    destruct (parse_content_verdict_source content c Hne)
      as [text [fields [-> [E L]]]].
    now exists text, fields.
Qed.

End ValidateDocuments.

(** X18.  A verdict of the returned result is set only from the model's
    answer: whenever a verdict is not [None], some request was answered
    with a text whose extracted JSON parsed to an object, and the verdict
    is the value that object holds under the key of the check. *)
Theorem verdict_comes_from_object_answer (json_loads : str -> Exn + JSON)
        (exn_text : Exn -> str) (self : Validator) (material_name : str)
        (blank_form_path sample_form_path : option str) (c : Check) :
  verdict (validate_documents json_loads exn_text self material_name
             blank_form_path sample_form_path) c <> JNull ->
  exists req text fields,
    create_completion self req = inr (Some text)
    /\ json_loads (extract_json text) = inr (JObj fields)
    /\ lookup (verdict_key c) fields
       = Some (verdict (validate_documents json_loads exn_text self
                          material_name blank_form_path sample_form_path) c).
Proof.
  unfold validate_documents. cbv zeta.
  destruct (negb (client self)).
  { rewrite verdict_set_reasons. intros H. now destruct H. }
  destruct (prepare_image self blank_form_path) as [e | blank].
  { unfold validation_failed. rewrite verdict_set_reasons.
    intros H. now destruct H. }
  destruct (prepare_image self sample_form_path) as [e | sample].
  { unfold validation_failed. rewrite verdict_set_reasons.
    intros H. now destruct H. }
  destruct blank as [b|], sample as [s|];
    unfold _validate_both_documents, _validate_blank_document,
      _validate_sample_document;
    try (intros Hne;
         match goal with
         | |- context [create_completion self ?r] =>
             destruct (request_verdict_source json_loads exn_text self r _ c Hne)
               as [text [fields H]];
             exists r, text, fields; exact H
         end).
  intros H. now destruct H.
Qed.

Lemma verdict_comes_from_object_answer_witness :
  let self := ValidatorSamples.answering
                (inr (Some ValidatorSamples.fenced_answer)) in
  exists req text fields,
    create_completion self req = inr (Some text)
    /\ Samples.loads (extract_json text) = inr (JObj fields)
    /\ lookup (verdict_key forms_consistent) fields
       = Some (verdict (validate_documents Samples.loads
                          ValidatorSamples.exn_text self
                          Samples.material ValidatorSamples.blank_path
                          ValidatorSamples.sample_path) forms_consistent).
Proof.
  intros self.
  apply (@verdict_comes_from_object_answer Samples.loads
           ValidatorSamples.exn_text self Samples.material
           ValidatorSamples.blank_path ValidatorSamples.sample_path
           forms_consistent).
  vm_compute. discriminate.
Defined.

(** X19.  When only one document is available and the request for it
    fails, only the reasons of the checks of that document take the
    request's error message: two for the blank form, three for the sample
    form.  Every other reason stays empty and every verdict stays
    [None]. *)
Theorem failed_request_marks_its_checks_only (json_loads : str -> Exn + JSON)
        (exn_text : Exn -> str) (self : Validator) (material_name : str)
        (blank_form_path sample_form_path : option str)
        (image : str) (e : Exn) :
  client self = true ->
  (forall req, create_completion self req = inl e) ->
  let result := validate_documents json_loads exn_text self material_name
                  blank_form_path sample_form_path in
  let failed := ReasonValue (JStr (msg_api_failed (exn_text e))) in
  (prepare_image self blank_form_path = inr (Some image) ->
   prepare_image self sample_form_path = inr None ->
   forall c,
     verdict result c = JNull
     /\ reason result c
        = match c with
          | blank_form_matches | blank_form_empty => failed
          | _ => ReasonValue (JStr [])
          end)
  /\ (prepare_image self blank_form_path = inr None ->
      prepare_image self sample_form_path = inr (Some image) ->
      forall c,
        verdict result c = JNull
        /\ reason result c
           = match c with
             | sample_form_matches | sample_form_filled
             | sample_info_masked => failed
             | _ => ReasonValue (JStr [])
             end).
Proof.
  intros Hclient Hfail result failed. subst result.
  unfold validate_documents. cbv zeta. rewrite Hclient. cbn [negb].
  split; intros Hb Hs c; rewrite Hb, Hs.
  - unfold _validate_blank_document. rewrite Hfail.
    rewrite verdict_set_reasons, reason_set_reasons.
    split; [reflexivity | destruct c; reflexivity].
  - unfold _validate_sample_document. rewrite Hfail.
    rewrite verdict_set_reasons, reason_set_reasons.
    split; [reflexivity | destruct c; reflexivity].
Qed.

Lemma failed_request_marks_its_checks_only_witness :
  let self := ValidatorSamples.answering (inl TimeoutError) in
  let result := validate_documents Samples.loads ValidatorSamples.exn_text self
                  Samples.material ValidatorSamples.blank_path None in
  verdict result forms_consistent = JNull
  /\ reason result forms_consistent = ReasonValue (JStr []).
Proof.
  intros self result.
  apply (proj1 (@failed_request_marks_its_checks_only Samples.loads
                  ValidatorSamples.exn_text self Samples.material
                  ValidatorSamples.blank_path None (lit "aGk=") TimeoutError
                  eq_refl (fun _ => eq_refl)) eq_refl eq_refl forms_consistent).
Defined.

(** X20.  When the model answers but the extracted text does not parse,
    all six reasons take the parse error, also those of checks that were
    not requested because a document was missing; no verdict is set. *)
Theorem unparsable_answer_marks_all_checks (json_loads : str -> Exn + JSON)
        (exn_text : Exn -> str) (self : Validator) (material_name : str)
        (blank_form_path sample_form_path : option str)
        (text : str) (e : Exn) (blank sample : option str) :
  client self = true ->
  prepare_image self blank_form_path = inr blank ->
  prepare_image self sample_form_path = inr sample ->
  blank <> None \/ sample <> None ->
  (forall req, create_completion self req = inr (Some text)) ->
  json_loads (extract_json text) = inl e ->
  forall c,
    verdict (validate_documents json_loads exn_text self material_name
               blank_form_path sample_form_path) c = JNull
    /\ reason (validate_documents json_loads exn_text self material_name
                 blank_form_path sample_form_path) c = ReasonParseFailed e.
Proof.
  intros Hclient Hb Hs Hsome Hanswer Hparse c.
  unfold validate_documents. cbv zeta. rewrite Hclient, Hb, Hs. cbn [negb].
  assert (Hp : _parse_validation_response json_loads fresh_result text
               = fill_empty_reasons e fresh_result).
  { unfold _parse_validation_response. now rewrite Hparse. }
  destruct blank as [b|], sample as [s|];
    unfold _validate_both_documents, _validate_blank_document,
      _validate_sample_document;
    try (rewrite Hanswer; cbn [parse_content]; rewrite Hp; now split).
  destruct Hsome as [H | H]; now destruct H.
Qed.

Lemma unparsable_answer_marks_all_checks_witness :
  let self := ValidatorSamples.answering (inr (Some (lit "I cannot tell"))) in
  let result := validate_documents Samples.loads ValidatorSamples.exn_text self
                  Samples.material ValidatorSamples.blank_path None in
  verdict result sample_info_masked = JNull
  /\ reason result sample_info_masked = ReasonParseFailed JSONDecodeError.
Proof.
  intros self result.
  apply (@unparsable_answer_marks_all_checks Samples.loads
           ValidatorSamples.exn_text self Samples.material
           ValidatorSamples.blank_path None (lit "I cannot tell")
           JSONDecodeError (Some (lit "aGk=")) None).
  - reflexivity.
  - reflexivity.
  - reflexivity.
  - left. discriminate.
  - intros req. reflexivity.
  - reflexivity.
Defined.

(** X21.  With a working client: a document whose path exists and whose
    conversion to an image raises makes every reason the validation-error
    message of that exception, with no verdict set, whatever the model
    would answer; and when neither path is given, or neither exists,
    the result comes back as it was created, with no verdict and six empty
    reasons. *)
Theorem unprepared_documents_give_no_verdict (json_loads : str -> Exn + JSON)
        (exn_text : Exn -> str) (self : Validator) (material_name : str) :
  client self = true ->
  (forall path sample_form_path e c,
      path <> [] -> path_exists self path = true ->
      convert_document_to_image self path = inl e ->
      verdict (validate_documents json_loads exn_text self material_name
                 (Some path) sample_form_path) c = JNull
      /\ reason (validate_documents json_loads exn_text self material_name
                   (Some path) sample_form_path) c
         = ReasonValue (JStr (msg_validation_error (exn_text e))))
  /\ (forall blank_form_path sample_form_path,
         (forall p, blank_form_path = Some p -> path_exists self p = false) ->
         (forall p, sample_form_path = Some p -> path_exists self p = false) ->
         validate_documents json_loads exn_text self material_name
           blank_form_path sample_form_path = fresh_result).
Proof.
  intros Hclient. split.
  - intros path sample_form_path e c Hpath Hexists Hconvert.
    assert (Hprep : prepare_image self (Some path) = inl e).
    { unfold prepare_image.
      replace (truthy (Some path)) with true
        by (destruct path; [contradiction | reflexivity]).
      now rewrite Hexists, Hconvert. }
    unfold validate_documents. cbv zeta. rewrite Hclient, Hprep. cbn [negb].
    unfold validation_failed.
    rewrite verdict_set_reasons, reason_set_reasons, in_all_checks_eqb.
    now split.
  - intros blank_form_path sample_form_path Hb Hs.
    unfold validate_documents. cbv zeta. rewrite Hclient. cbn [negb].
    assert (Hskip : forall path,
               (forall p, path = Some p -> path_exists self p = false) ->
               prepare_image self path = inr None).
    { intros [p|] H; [|reflexivity]. unfold prepare_image.
      rewrite (H p eq_refl). now rewrite andb_false_r. }
    now rewrite (Hskip _ Hb), (Hskip _ Hs).
Qed.

Lemma unprepared_documents_give_no_verdict_witness :
  verdict (validate_documents Samples.loads ValidatorSamples.exn_text
             ValidatorSamples.unreadable Samples.material
             (Some (lit "downloads/blank.pdf")) None) forms_consistent = JNull
  /\ reason (validate_documents Samples.loads ValidatorSamples.exn_text
               ValidatorSamples.unreadable Samples.material
               (Some (lit "downloads/blank.pdf")) None) forms_consistent
     = ReasonValue (JStr (msg_validation_error
                            (ValidatorSamples.exn_text (OtherError 2)))).
Proof.
  apply (proj1 (@unprepared_documents_give_no_verdict Samples.loads
                  ValidatorSamples.exn_text ValidatorSamples.unreadable
                  Samples.material eq_refl)
           (lit "downloads/blank.pdf") None (OtherError 2) forms_consistent).
  - discriminate.
  - reflexivity.
  - reflexivity.
Defined.

(* ================================================================== *)
(** * The text picture of a Word document *)








(** What the drawing loop draws: the shortened lines, at the left margin,
    25 units apart from the first offset. *)
Lemma in_draw_lines (y0 : Z) (lines : list str) (x y : Z) (s : str) :
  In (x, y, s) (draw_lines y0 lines) ->
  x = 20%Z
  /\ exists k line,
      nth_error lines k = Some line
      /\ y = (y0 + 25 * Z.of_nat k)%Z
      /\ s = shorten line.
Proof.
  revert y0. induction lines as [|line lines IH]; intros y0 H; [destruct H|].
  cbn [draw_lines] in H. destruct H as [H | H].
  - injection H as <- <- <-. split; [reflexivity|].
    exists 0, line. repeat split. cbn. lia.
  - destruct (IH _ H) as [-> [k [l [Hk [-> ->]]]]]. split; [reflexivity|].
    exists (S k), l. repeat split; [exact Hk | lia].
Qed.


Lemma nth_error_some_lt X (l : list X) (k : nat) (x : X) :
  nth_error l k = Some x -> k < List.length l.
Proof. intros H. apply nth_error_Some. congruence. Qed.


(** X23.  Every text of the picture starts inside it, whether the document
    could be read or not: the picture is 800 wide and at least 600 high,
    and high enough for every line drawn. *)
Theorem text_image_holds_its_lines (read : Exn + Docx) (basename : str) :
  let img := _create_text_image_from_docx read basename in
  img_width img = 800%Z
  /\ (600 <= img_height img)%Z
  /\ Forall (fun t : Z * Z * str =>
               (0 <= fst (fst t) < img_width img)%Z
               /\ (0 <= snd (fst t) < img_height img)%Z) (img_texts img).
Proof.
  cbv zeta. destruct read as [e | doc];
    cbn [_create_text_image_from_docx img_width img_height img_texts].
  - split; [reflexivity|]. split; [lia|].
    constructor; [cbn; lia | constructor].
  - split; [reflexivity|]. split; [lia|].
    apply Forall_forall. intros [[x y] s] H.
    apply in_draw_lines in H as [-> [k [line [Hk [-> _]]]]]. cbn [fst snd].
    assert (Hlt : k < List.length (text_lines doc)).
    { apply nth_error_some_lt in Hk. rewrite length_firstn in Hk. lia. }
    split; lia.
Qed.
